(** * Comparison statistics over car listings

    A shallow embedding of the statistics computation of
    [GET /cars/{car_id}/compare] (app/main.py, [compare_car_listings]),
    of the helper the integration tests check instead
    (tests/integration/test_car_compare.py, [compute_comparison_stats]),
    and of the price and mileage validators of the listing schemas
    (app/schemas/listing.py).  Further on come the other car and
    listing handlers of app/main.py, the string validators of the
    schemas, and the parser of the VIN decoder's response
    (app/services/vin_decoder.py).

    Numbers are the ones Python has: a [float] is an IEEE 754 binary64
    value (Rocq's primitive floats, the same format and the same
    round-to-nearest-even operations), an [int] is an unbounded integer
    ([Z]).  Python exceptions are values of an error monad, so that
    "does not raise" is a statement one can prove. *)

From Stdlib Require Import ZArith List Bool Lia Floats String Permutation.
Import ListNotations.

Set Implicit Arguments.

(* ================================================================== *)
(** * The Python runtime the code relies on *)
(* ================================================================== *)

Module Py.

(** Exceptions the builtins used below can raise. *)
Inductive exn : Type :=
| ZeroDivisionError
| ValueError (msg : string)
| IndexError
| TypeError.

Inductive result (A : Type) : Type :=
| Ok (a : A)
| Raise (e : exn).
Arguments Ok {A} a.
Arguments Raise {A} e.

Definition bind {A B : Type} (r : result A) (k : A -> result B) : result B :=
  match r with
  | Ok a => k a
  | Raise e => Raise e
  end.

(** A list comprehension whose element expression may raise. *)
Fixpoint comprehension {A B : Type} (f : A -> result B) (xs : list A)
  : result (list B) :=
  match xs with
  | [] => Ok []
  | x :: rest =>
      bind (f x) (fun y =>
      bind (comprehension f rest) (fun ys => Ok (y :: ys)))
  end.

(** [len]. *)
Definition len {A : Type} (xs : list A) : Z := Z.of_nat (List.length xs).

(** Conversion of an [int] to [float], correctly rounded.  CPython
    raises OverflowError where this yields an infinity, that is from
    about 1.8e308 on; mileages come from an INTEGER column and counts
    are list lengths. *)
Definition float_of_int (n : Z) : float :=
  SF2Prim (binary_normalize prec emax n 0 false).

(** [x / n] for a float [x] and an int [n]. *)
Definition truediv (x : float) (n : Z) : result float :=
  if (n =? 0)%Z then Raise ZeroDivisionError
  else Ok (x / float_of_int n)%float.

(** [x / n] where [n] may be [None]. *)
Definition truediv_opt (x : float) (n : option Z) : result float :=
  match n with
  | Some m => truediv x m
  | None => Raise TypeError
  end.

(** Truth value of a float: only zeros are false. *)
Definition truthy (x : float) : bool := negb (x =? 0)%float.

(** Truth value of an [Optional[int]]. *)
Definition truthy_int_opt (x : option Z) : bool :=
  match x with
  | Some v => negb (v =? 0)%Z
  | None => false
  end.

(** [sum(xs)] over floats: the start value is the int [0], the
    additions go left to right (CPython up to 3.11; later versions
    compensate the rounding errors of the partial sums). *)
Definition sum (xs : list float) : float :=
  fold_left (fun acc x => (acc + x)%float) xs 0%float.

(** The scan of [min(iterable, key=...)]: the candidate is replaced
    by an item whose key is strictly smaller. *)
Fixpoint min_scan {A : Type} (key : A -> result float)
         (cur : A) (kcur : float) (xs : list A) : result A :=
  match xs with
  | [] => Ok cur
  | x :: rest =>
      bind (key x) (fun kx =>
      if (kx <? kcur)%float then min_scan key x kx rest
      else min_scan key cur kcur rest)
  end.

Definition min_key {A : Type} (key : A -> result float) (xs : list A)
  : result A :=
  match xs with
  | [] => Raise (ValueError "min() arg is an empty sequence"%string)
  | x :: rest => bind (key x) (fun kx => min_scan key x kx rest)
  end.

(** [min(xs)]. *)
Definition min (xs : list float) : result float :=
  min_key (fun x => Ok x) xs.

(** [max(xs)]: the candidate is replaced by a strictly greater item. *)
Fixpoint max_scan (cur : float) (xs : list float) : float :=
  match xs with
  | [] => cur
  | x :: rest =>
      if (cur <? x)%float then max_scan x rest else max_scan cur rest
  end.

Definition max (xs : list float) : result float :=
  match xs with
  | [] => Raise (ValueError "max() arg is an empty sequence"%string)
  | x :: rest => Ok (max_scan x rest)
  end.

(** [xs[0]]. *)
Definition getitem0 {A : Type} (xs : list A) : result A :=
  match xs with
  | [] => Raise IndexError
  | x :: _ => Ok x
  end.

(** ** [round(x, ndigits)] for [ndigits >= 0]

    CPython prints the exact binary value of [x] with [ndigits]
    decimals, ties going to the even neighbour, and reads the decimal
    string back as the nearest float.  Infinities and NaN are
    returned as they are; the sign of a result that rounds to zero is
    the sign of [x]. *)

Definition round_half_even_div (a b : Z) : Z :=
  let q := (a / b)%Z in
  let r := (a mod b)%Z in
  match (2 * r ?= b)%Z with
  | Lt => q
  | Gt => (q + 1)%Z
  | Eq => if Z.even q then q else (q + 1)%Z
  end.

(** The integer nearest to [m * 2^e * scale]. *)
Definition scaled_nearest (m : positive) (e : Z) (scale : Z) : Z :=
  if (0 <=? e)%Z then (Z.pos m * 2 ^ e * scale)%Z
  else round_half_even_div (Z.pos m * scale) (2 ^ (- e)).

(** The float nearest to [n / scale], with sign [s]. *)
Definition decimal_to_float (s : bool) (n : Z) (scale : Z) : float :=
  match n with
  | Zpos p =>
      SF2Prim (SFdiv prec emax (S754_finite s p 0)
                     (S754_finite false (Z.to_pos scale) 0))
  | _ => if s then neg_zero else zero
  end.

Definition round (x : float) (ndigits : nat) : float :=
  match Prim2SF x with
  | S754_finite s m e =>
      let scale := (10 ^ Z.of_nat ndigits)%Z in
      decimal_to_float s (scaled_nearest m e scale) scale
  | _ => x
  end.

(** ** [sorted(xs, key=...)]

    Only [<] on keys is used, and equal keys keep their input order.
    For keys that [<] orders as a strict weak order every stable sort
    returns the same list; the insertion sort below stands for
    CPython's. *)
Section Sorted.
Variables (A K : Type) (lt : K -> K -> bool) (key : A -> K).

Fixpoint insert (x : A) (sorted_tail : list A) : list A :=
  match sorted_tail with
  | [] => [x]
  | y :: rest =>
      if lt (key y) (key x) then y :: insert x rest
      else x :: y :: rest
  end.

Definition sorted (xs : list A) : list A := fold_right insert [] xs.
End Sorted.

End Py.

Declare Scope py_scope.
Delimit Scope py_scope with py.
Notation "x <- c1 ;; c2" := (Py.bind c1 (fun x => c2))
  (at level 61, c1 at next level, right associativity) : py_scope.
Open Scope py_scope.

(* ================================================================== *)
(** * Rows and response schema *)
(* ================================================================== *)

(** A UUID is a 128-bit number; only equality on it is used. *)
Definition uuid : Type := N.

(** app/models/car.py: the columns the comparison endpoint reads. *)
Module Car.
Record t : Type := mk { id : uuid; user_id : uuid }.
End Car.

(** app/models/listing.py: [price] is a [Float] column and [mileage] a
    nullable [Integer] column.  The text columns (source, url, location)
    and the timestamps are not read by the code below. *)
Module Listing.
Record t : Type := mk {
  id : uuid;
  user_id : uuid;
  car_id : uuid;
  price : float;
  mileage : option Z
}.
End Listing.

(** app/schemas/car.py, [CarCompareStats]. *)
Record CarCompareStats : Type := mkStats {
  count : Z;
  min_price : option float;
  max_price : option float;
  avg_price : option float;
  avg_price_per_mile : option float;
  best_deal_listing_id : option uuid
}.

(* ================================================================== *)
(** * The comparison endpoint (app/main.py) *)
(* ================================================================== *)

(** The second component of the sort key: the mileage, an int, or
    [float('inf')] when the mileage is [None].  Python compares an int
    with a float by value, so every int is below infinity. *)
Inductive mileage_key : Type :=
| Miles (m : Z)
| Infinite.

Definition mileage_key_eqb (a b : mileage_key) : bool :=
  match a, b with
  | Miles x, Miles y => (x =? y)%Z
  | Infinite, Infinite => true
  | _, _ => false
  end.

Definition mileage_key_ltb (a b : mileage_key) : bool :=
  match a, b with
  | Miles x, Miles y => (x <? y)%Z
  | Miles _, Infinite => true
  | Infinite, _ => false
  end.

(** [a < b] on the key tuples: the first components that are not [==]
    decide. *)
Definition tuple_lt (a b : float * mileage_key) : bool :=
  if negb (fst a =? fst b)%float then (fst a <? fst b)%float
  else if negb (mileage_key_eqb (snd a) (snd b))
       then mileage_key_ltb (snd a) (snd b)
       else false.

(** The [key=lambda listing: (...)] of the endpoint's [sorted]. *)
Definition best_deal_key (listing : Listing.t) : float * mileage_key :=
  (Listing.price listing,
   match Listing.mileage listing with
   | Some m => Miles m
   | None => Infinite
   end).

(** [listing.mileage is not None and listing.mileage > 0]. *)
Definition has_mileage (listing : Listing.t) : bool :=
  match Listing.mileage listing with
  | Some m => (0 <? m)%Z
  | None => false
  end.

(** [float(listing.price) / listing.mileage]. *)
Definition price_per_mile (listing : Listing.t) : Py.result float :=
  Py.truediv_opt (Listing.price listing) (Listing.mileage listing).

(** [x if avg_price_per_mile else None] with [x = round(avg_price_per_mile, 2)]. *)
Definition round_if_truthy (avg_price_per_mile : option float) : option float :=
  match avg_price_per_mile with
  | Some v => if Py.truthy v then Some (Py.round v 2) else None
  | None => None
  end.

(** The average of the price-per-mile values of [listings_with_mileage],
    [None] when that list is empty (main.py 781-788, and 94-99, 108 of
    the test helper). *)
Definition mean_price_per_mile (listings_with_mileage : list Listing.t)
  : Py.result (option float) :=
  match listings_with_mileage with
  | [] => Py.Ok None
  | _ :: _ =>
      price_per_mile_values <-
        Py.comprehension price_per_mile listings_with_mileage ;;
      avg <- Py.truediv (Py.sum price_per_mile_values)
                        (Py.len price_per_mile_values) ;;
      Py.Ok (Some avg)
  end.

(** main.py 756-807: the statistics of the fetched [listings]. *)
Definition compare (listings : list Listing.t) : Py.result CarCompareStats :=
  let count := Py.len listings in
  if (count =? 0)%Z then
    Py.Ok (mkStats 0 None None None None None)
  else
    let prices := map Listing.price listings in
    min_price <- Py.min prices ;;
    max_price <- Py.max prices ;;
    avg_price <- Py.truediv (Py.sum prices) count ;;
    let listings_with_mileage := filter has_mileage listings in
    avg_price_per_mile <- mean_price_per_mile listings_with_mileage ;;
    best_deal <-
      Py.getitem0 (Py.sorted tuple_lt best_deal_key listings) ;;
    Py.Ok (mkStats count
                   (Some (Py.round min_price 2))
                   (Some (Py.round max_price 2))
                   (Some (Py.round avg_price 2))
                   (round_if_truthy avg_price_per_mile)
                   (Some (Listing.id best_deal))).

(** ** The request handler

    The handler runs against a database session.  The session is
    threaded through explicitly; [query_first_car] and
    [query_all_listings] are the two session operations the handler
    performs. *)

Record Session : Type := mkSession {
  cars : list Car.t;
  listings : list Listing.t
}.

Inductive response (A : Type) : Type :=
| Returned (a : A)
| HTTPException (status_code : Z) (detail : string)
| Uncaught (e : Py.exn).
Arguments Returned {A} a.
Arguments HTTPException {A} status_code detail.
Arguments Uncaught {A} e.

Definition Handler (A : Type) : Type := Session -> response A * Session.

Definition hraise {A : Type} (status_code : Z) (detail : string) : Handler A :=
  fun db => (HTTPException status_code detail, db).

Definition hbind {A B : Type} (h : Handler A) (k : A -> Handler B) : Handler B :=
  fun db =>
    match h db with
    | (Returned a, db') => k a db'
    | (HTTPException c d, db') => (HTTPException c d, db')
    | (Uncaught e, db') => (Uncaught e, db')
    end.

(** A Python computation inside a handler; an exception nobody catches
    ends the request. *)
Definition hlift {A : Type} (r : Py.result A) : Handler A :=
  fun db =>
    match r with
    | Py.Ok a => (Returned a, db)
    | Py.Raise e => (Uncaught e, db)
    end.

(** [db.query(Car).filter(...).first()]. *)
Definition query_first_car (p : Car.t -> bool) : Handler (option Car.t) :=
  fun db => (Returned (find p (cars db)), db).

(** [db.query(Listing).filter(...).all()]. *)
Definition query_all_listings (p : Listing.t -> bool) : Handler (list Listing.t) :=
  fun db => (Returned (filter p (listings db)), db).

Notation "x <~ c1 ;; c2" := (hbind c1 (fun x => c2))
  (at level 61, c1 at next level, right associativity) : py_scope.

(** [compare_car_listings]: [car_id] is the outcome of [UUID(car_id)]
    ([None] when the path parameter is not a UUID), [current_user] the id
    of the authenticated user. *)
Definition compare_car_listings (car_id : option uuid) (current_user : uuid)
  : Handler CarCompareStats :=
  match car_id with
  | None => hraise 400 "Invalid car id format."%string
  | Some car_uuid =>
      car <~ query_first_car
               (fun c => (Car.id c =? car_uuid)%N
                         && (Car.user_id c =? current_user)%N) ;;
      match car with
      | None => hraise 404 "Car not found."%string
      | Some _ =>
          listings <~ query_all_listings
                        (fun l => (Listing.car_id l =? car_uuid)%N) ;;
          hlift (compare listings)
      end
  end.

(** ** Creating a listing

    [create_listing_for_car] is the handler that writes the rows the
    comparison reads.  [listing_data] is the request body after
    validation: pydantic keeps as the value of a field what the field's
    validator returns.  [new_id] is the UUID the [id] column draws.
    Building the row and committing it raise no [ValueError], so the
    [except ValueError] branch of the handler is never taken. *)

Module ListingCreate.
Record t : Type := mk { car_id : uuid; price : float; mileage : option Z }.
End ListingCreate.

(** [db.add(new_listing); db.commit(); db.refresh(new_listing)].  A
    table is the list of its rows in the order a query returns them.
    No query of the source has an [ORDER BY], so where a new row stands
    among the rows a query returns is the database's choice; the end of
    the list is the choice of the model, and what is proved about the
    rows returned after an insertion is stated up to a permutation. *)
Definition add_listing (new_listing : Listing.t) : Handler Listing.t :=
  fun db =>
    (Returned new_listing,
     mkSession (cars db) (listings db ++ [new_listing])).

Definition create_listing_for_car (car_id : option uuid)
           (listing_data : ListingCreate.t) (current_user : uuid)
           (new_id : uuid) : Handler Listing.t :=
  match car_id with
  | None => hraise 400 "Invalid car id format."%string
  | Some car_uuid =>
      if negb (ListingCreate.car_id listing_data =? car_uuid)%N then
        hraise 400 "Car ID in URL must match car_id in request body."%string
      else
        car <~ query_first_car
                 (fun c => (Car.id c =? car_uuid)%N
                           && (Car.user_id c =? current_user)%N) ;;
        match car with
        | None => hraise 404 "Car not found."%string
        | Some _ =>
            add_listing (Listing.mk new_id current_user car_uuid
                                    (ListingCreate.price listing_data)
                                    (ListingCreate.mileage listing_data))
        end
  end.

(* ================================================================== *)
(** * The test helper (tests/integration/test_car_compare.py) *)
(* ================================================================== *)

(** [l.mileage and l.mileage > 0]. *)
Definition truthy_and_positive (l : Listing.t) : bool :=
  Py.truthy_int_opt (Listing.mileage l)
  && match Listing.mileage l with
     | Some m => (0 <? m)%Z
     | None => false
     end.

(** [compute_comparison_stats].  The helper returns [str(id)] for the
    best deal; the id itself stands for its string here. *)
Definition compute_comparison_stats (listings : list Listing.t)
  : Py.result CarCompareStats :=
  match listings with
  | [] => Py.Ok (mkStats 0 None None None None None)
  | _ :: _ =>
      let count := Py.len listings in
      let prices := map Listing.price listings in
      min_price <- Py.min prices ;;
      max_price <- Py.max prices ;;
      avg_price <- Py.truediv (Py.sum prices) count ;;
      let listings_with_mileage := filter truthy_and_positive listings in
      avg_price_per_mile <- mean_price_per_mile listings_with_mileage ;;
      best_deal_listing_id <-
        match listings_with_mileage with
        | [] => Py.Ok None
        | _ :: _ =>
            best_deal_listing <-
              Py.min_key price_per_mile listings_with_mileage ;;
            Py.Ok (Some (Listing.id best_deal_listing))
        end ;;
      Py.Ok (mkStats count
                     (Some (Py.round min_price 2))
                     (Some (Py.round max_price 2))
                     (Some (Py.round avg_price 2))
                     (round_if_truthy avg_price_per_mile)
                     best_deal_listing_id)
  end.

(* ================================================================== *)
(** * Listing validators (app/schemas/listing.py) *)
(* ================================================================== *)

Module ListingBase.

Definition validate_price (v : float) : Py.result float :=
  if (v <=? 0)%float then
    Py.Raise (Py.ValueError "Price must be greater than 0"%string)
  else if (10000000 <? v)%float then
    Py.Raise (Py.ValueError "Price cannot exceed $10,000,000"%string)
  else Py.Ok (Py.round v 2).

Definition validate_mileage (v : option Z) : Py.result (option Z) :=
  match v with
  | None => Py.Ok None
  | Some m =>
      if (m <? 0)%Z then
        Py.Raise (Py.ValueError "Mileage cannot be negative"%string)
      else if (1000000 <? m)%Z then
        Py.Raise (Py.ValueError "Mileage cannot exceed 1,000,000 miles"%string)
      else Py.Ok (Some m)
  end.

End ListingBase.

Module ListingUpdate.

Definition validate_price (v : option float) : Py.result (option float) :=
  match v with
  | None => Py.Ok None
  | Some p =>
      if (p <=? 0)%float then
        Py.Raise (Py.ValueError "Price must be greater than 0"%string)
      else if (10000000 <? p)%float then
        Py.Raise (Py.ValueError "Price cannot exceed $10,000,000"%string)
      else Py.Ok (Some (Py.round p 2))
  end.

Definition validate_mileage (v : option Z) : Py.result (option Z) :=
  match v with
  | None => Py.Ok None
  | Some m =>
      if (m <? 0)%Z then
        Py.Raise (Py.ValueError "Mileage cannot be negative"%string)
      else if (1000000 <? m)%Z then
        Py.Raise (Py.ValueError "Mileage cannot exceed 1,000,000 miles"%string)
      else Py.Ok (Some m)
  end.

End ListingUpdate.

(* ================================================================== *)
(** * Ranks: the order of floats and of sort keys, in integers *)
(* ================================================================== *)

(** Every float that is not NaN gets a triple of integers whose
    lexicographic order is the order of the floats: the class
    (infinities outermost, zero in the middle), then exponent and
    mantissa, both negated for negative numbers. *)
Definition rank (x : spec_float) : option (Z * Z * Z) :=
  match x with
  | S754_nan => None
  | S754_infinity s => Some (if s then (-2) else 2, 0, 0)%Z
  | S754_zero _ => Some (0, 0, 0)%Z
  | S754_finite false m e => Some (1, e, Z.pos m)%Z
  | S754_finite true m e => Some (-1, - e, Z.neg m)%Z
  end.

Definition lex3 (a b : Z * Z * Z) : comparison :=
  let '(a1, a2, a3) := a in
  let '(b1, b2, b3) := b in
  match (a1 ?= b1)%Z with
  | Eq => match (a2 ?= b2)%Z with
          | Eq => (a3 ?= b3)%Z
          | c => c
          end
  | c => c
  end.

Definition lt3 (a b : Z * Z * Z) : Prop :=
  let '(a1, a2, a3) := a in
  let '(b1, b2, b3) := b in
  (a1 < b1 \/ (a1 = b1 /\ (a2 < b2 \/ (a2 = b2 /\ a3 < b3))))%Z.

Definition frank (x : float) : option (Z * Z * Z) := rank (Prim2SF x).

(** The rank of a mileage key: ints first, infinity last. *)
Definition mileage_rank (k : mileage_key) : Z * Z :=
  match k with
  | Miles m => (0, m)%Z
  | Infinite => (1, 0)%Z
  end.

Definition lt2 (a b : Z * Z) : Prop :=
  (fst a < fst b \/ (fst a = fst b /\ snd a < snd b))%Z.

(** [null_zero_mileage] replaces a mileage of 0 by [None]. *)
Definition null_zero_mileage (l : Listing.t) : Listing.t :=
  match Listing.mileage l with
  | Some 0%Z =>
      Listing.mk (Listing.id l) (Listing.user_id l) (Listing.car_id l)
                 (Listing.price l) None
  | _ => l
  end.

(** A row as the integration tests create it ([create_test_listing]):
    one user, one car, and the three columns that matter. *)
Definition create_test_listing (id : uuid) (price : float) (mileage : option Z)
  : Listing.t :=
  Listing.mk id 7%N 9%N price mileage.
Arguments create_test_listing id%_N price%_float mileage.









(** The value of [price_per_mile] on a listing that has a mileage. *)
Definition ratio (l : Listing.t) : float :=
  match Listing.mileage l with
  | Some m => (Listing.price l / Py.float_of_int m)%float
  | None => nan
  end.

(** The value of [mean_price_per_mile] on listings that all have a
    mileage. *)
Definition mean_ratio (listings_with_mileage : list Listing.t) : option float :=
  match listings_with_mileage with
  | [] => None
  | _ :: _ =>
      Some (Py.sum (map ratio listings_with_mileage)
            / Py.float_of_int (Py.len listings_with_mileage))%float
  end.

(** The best-deal part of [compute_comparison_stats] (lines 101-109). *)
Definition helper_best_deal (listings_with_mileage : list Listing.t)
  : Py.result (option uuid) :=
  match listings_with_mileage with
  | [] => Py.Ok None
  | _ :: _ =>
      best_deal_listing <- Py.min_key price_per_mile listings_with_mileage ;;
      Py.Ok (Some (Listing.id best_deal_listing))
  end.

(** The mean of all prices, as [sum(prices) / count] computes it. *)
Definition mean_price (listings : list Listing.t) : float :=
  (Py.sum (map Listing.price listings)
   / Py.float_of_int (Py.len listings))%float.

(* ================================================================== *)
(** * Facts about the runtime *)
(* ================================================================== *)

Section FloatOrder.

Lemma SFcompare_rank (x y : spec_float) :
  SFcompare x y =
  match rank x, rank y with
  | Some a, Some b => Some (lex3 a b)
  | _, _ => None
  end.
Proof.
  destruct x as [sx|sx| |sx mx ex], y as [sy|sy| |sy my ey];
    try destruct sx; try destruct sy; try reflexivity.
  cbn [SFcompare rank lex3]. change (-1 ?= -1)%Z with Eq. cbv iota.
  rewrite Z.compare_opp, (Z.compare_antisym ex ey).
  destruct (ex ?= ey)%Z; reflexivity.
Qed.

Lemma lex3_Lt (a b : Z * Z * Z) : lex3 a b = Lt <-> lt3 a b.
Proof.
  destruct a as [[a1 a2] a3], b as [[b1 b2] b3]; unfold lex3, lt3.
  destruct (Z.compare_spec a1 b1); [|split; [lia|reflexivity]|split; [discriminate|lia]].
  destruct (Z.compare_spec a2 b2); [|split; [lia|reflexivity]|split; [discriminate|lia]].
  rewrite Z.compare_lt_iff. lia.
Qed.

Lemma lex3_Eq (a b : Z * Z * Z) : lex3 a b = Eq <-> a = b.
Proof.
  destruct a as [[a1 a2] a3], b as [[b1 b2] b3]; unfold lex3.
  destruct (Z.compare_spec a1 b1); [|split; [discriminate|intros [= ]; lia] ..].
  destruct (Z.compare_spec a2 b2); [|split; [discriminate|intros [= ]; lia] ..].
  rewrite Z.compare_eq_iff. split; [intros ->; congruence | intros [= ]; assumption].
Qed.

Lemma ltb_frank (x y : float) :
  (x <? y)%float = true <->
  exists a b, frank x = Some a /\ frank y = Some b /\ lt3 a b.
Proof.
  rewrite FloatAxioms.ltb_spec. unfold SFltb, frank. rewrite SFcompare_rank.
  destruct (rank (Prim2SF x)) as [a|], (rank (Prim2SF y)) as [b|].
  - destruct (lex3 a b) eqn:E.
    + split; [discriminate|]. intros (a' & b' & [= <-] & [= <-] & H).
      apply lex3_Lt in H. congruence.
    + split; [|reflexivity]. intros _. exists a, b. now rewrite <- lex3_Lt.
    + split; [discriminate|]. intros (a' & b' & [= <-] & [= <-] & H).
      apply lex3_Lt in H. congruence.
  - split; [discriminate|]. intros (a' & b' & _ & [= ] & _).
  - split; [discriminate|]. intros (a' & b' & [= ] & _).
  - split; [discriminate|]. intros (a' & b' & [= ] & _).
Qed.

Lemma eqb_frank (x y : float) :
  (x =? y)%float = true <-> exists a, frank x = Some a /\ frank y = Some a.
Proof.
  rewrite FloatAxioms.eqb_spec. unfold SFeqb, frank. rewrite SFcompare_rank.
  destruct (rank (Prim2SF x)) as [a|], (rank (Prim2SF y)) as [b|].
  - destruct (lex3 a b) eqn:E.
    + apply lex3_Eq in E. subst b. split; [|reflexivity]. now exists a.
    + split; [discriminate|]. intros (a' & Ha & Hb).
      assert (a = b) by congruence. subst b.
      rewrite (proj2 (lex3_Eq a a) eq_refl) in E. discriminate.
    + split; [discriminate|]. intros (a' & Ha & Hb).
      assert (a = b) by congruence. subst b.
      rewrite (proj2 (lex3_Eq a a) eq_refl) in E. discriminate.
  - split; [discriminate|]. intros (a' & _ & [= ]).
  - split; [discriminate|]. intros (a' & [= ] & _).
  - split; [discriminate|]. intros (a' & [= ] & _).
Qed.

Lemma is_nan_frank (x : float) :
  is_nan x = false <-> exists a, frank x = Some a.
Proof.
  unfold is_nan. rewrite negb_false_iff, eqb_frank.
  split; [intros (a & H & _); now exists a | intros (a & H); now exists a].
Qed.

Lemma ltb_trans (x y z : float) :
  (x <? y)%float = true -> (y <? z)%float = true -> (x <? z)%float = true.
Proof.
  rewrite !ltb_frank.
  intros (a & b & Ha & Hb & Hab) (b' & c & Hb' & Hc & Hbc).
  rewrite Hb in Hb'. injection Hb' as <-.
  exists a, c. repeat split; try assumption.
  destruct a as [[a1 a2] a3], b as [[b1 b2] b3], c as [[c1 c2] c3].
  unfold lt3 in *. lia.
Qed.

Lemma ltb_asym (x y : float) :
  (x <? y)%float = true -> (y <? x)%float = false.
Proof.
  intros H. apply not_true_is_false. revert H. rewrite !ltb_frank.
  intros (a & b & Ha & Hb & Hab) (b' & a' & Hb' & Ha' & Hba).
  rewrite Hb in Hb'. injection Hb' as <-.
  rewrite Ha in Ha'. injection Ha' as <-.
  destruct a as [[a1 a2] a3], b as [[b1 b2] b3].
  unfold lt3 in *. lia.
Qed.

Lemma ltb_irrefl (x : float) : (x <? x)%float = false.
Proof.
  destruct (x <? x)%float eqn:E; [|reflexivity].
  now rewrite (ltb_asym E) in E.
Qed.

End FloatOrder.

(** ** The order of the sort keys *)

Ltac rank_arith :=
  repeat match goal with
         | a : (Z * Z * Z)%type |- _ => destruct a as [[? ?] ?]
         | a : (Z * Z)%type |- _ => destruct a as [? ?]
         end;
  unfold lt3, lt2 in *; cbn [fst snd] in *;
  rewrite ?pair_equal_spec in *; lia.

Lemma mileage_key_lt_rank (k1 k2 : mileage_key) :
  (if negb (mileage_key_eqb k1 k2) then mileage_key_ltb k1 k2 else false) = true
  <-> lt2 (mileage_rank k1) (mileage_rank k2).
Proof.
  destruct k1 as [m1|], k2 as [m2|]; unfold lt2; cbn.
  - destruct (Z.eqb_spec m1 m2); cbn; [split; [discriminate|lia]|].
    rewrite Z.ltb_lt. lia.
  - split; [lia|reflexivity].
  - split; [discriminate|lia].
  - split; [discriminate|lia].
Qed.

Lemma tuple_lt_rank (p1 p2 : float) (k1 k2 : mileage_key) (a b : Z * Z * Z) :
  frank p1 = Some a -> frank p2 = Some b ->
  tuple_lt (p1, k1) (p2, k2) = true <->
  lt3 a b \/ (a = b /\ lt2 (mileage_rank k1) (mileage_rank k2)).
Proof.
  intros Ha Hb. unfold tuple_lt. cbn [fst snd].
  destruct (p1 =? p2)%float eqn:E; cbn [negb].
  - apply eqb_frank in E. destruct E as (c & Hc1 & Hc2).
    assert (a = b) by congruence. subst b.
    rewrite mileage_key_lt_rank. split; [intros H; right; now split|].
    intros [H|[_ H]]; [exfalso; rank_arith | exact H].
  - assert (a <> b) as Hne.
    { intros ->. assert ((p1 =? p2)%float = true) as H; [|congruence].
      apply eqb_frank. now exists b. }
    rewrite ltb_frank. split.
    + intros (a' & b' & Ha' & Hb' & H). left. congruence.
    + intros [H|[H _]]; [|contradiction]. now exists a, b.
Qed.

(** The prices of [l] being no NaN, every listing has a rank. *)
Lemma price_rank (l : Listing.t) :
  is_nan (Listing.price l) = false ->
  exists a, frank (Listing.price l) = Some a.
Proof. apply is_nan_frank. Qed.

Lemma key_lt_rank (x y : Listing.t) (a b : Z * Z * Z) :
  frank (Listing.price x) = Some a -> frank (Listing.price y) = Some b ->
  tuple_lt (best_deal_key x) (best_deal_key y) = true <->
  lt3 a b \/ (a = b /\ lt2 (mileage_rank (snd (best_deal_key x)))
                            (mileage_rank (snd (best_deal_key y)))).
Proof. intros Ha Hb. unfold best_deal_key. cbn [snd]. now apply tuple_lt_rank. Qed.

Lemma key_lt_irrefl (x : Listing.t) :
  tuple_lt (best_deal_key x) (best_deal_key x) = false.
Proof.
  unfold tuple_lt. destruct (fst (best_deal_key x) =? fst (best_deal_key x))%float;
    cbn [negb]; [|apply ltb_irrefl].
  destruct (snd (best_deal_key x)) as [m|]; cbn; [|reflexivity].
  now rewrite Z.eqb_refl.
Qed.

Lemma key_lt_asym (x y : Listing.t) :
  is_nan (Listing.price x) = false -> is_nan (Listing.price y) = false ->
  tuple_lt (best_deal_key x) (best_deal_key y) = true ->
  tuple_lt (best_deal_key y) (best_deal_key x) = false.
Proof.
  intros Hx Hy H. apply not_true_is_false. revert H.
  destruct (price_rank _ Hx) as (a & Ha), (price_rank _ Hy) as (b & Hb).
  rewrite (key_lt_rank _ _ Ha Hb), (key_lt_rank _ _ Hb Ha).
  generalize (mileage_rank (snd (best_deal_key x))) as m.
  generalize (mileage_rank (snd (best_deal_key y))) as n.
  intros n m. rank_arith.
Qed.

Lemma key_lt_negtrans (x y z : Listing.t) :
  is_nan (Listing.price x) = false -> is_nan (Listing.price y) = false ->
  is_nan (Listing.price z) = false ->
  tuple_lt (best_deal_key x) (best_deal_key y) = false ->
  tuple_lt (best_deal_key y) (best_deal_key z) = false ->
  tuple_lt (best_deal_key x) (best_deal_key z) = false.
Proof.
  intros Hx Hy Hz Hxy Hyz. apply not_true_is_false.
  apply not_true_iff_false in Hxy, Hyz. revert Hxy Hyz.
  destruct (price_rank _ Hx) as (a & Ha), (price_rank _ Hy) as (b & Hb),
           (price_rank _ Hz) as (c & Hc).
  rewrite (key_lt_rank _ _ Ha Hb), (key_lt_rank _ _ Hb Hc), (key_lt_rank _ _ Ha Hc).
  generalize (mileage_rank (snd (best_deal_key x))) as m.
  generalize (mileage_rank (snd (best_deal_key y))) as n.
  generalize (mileage_rank (snd (best_deal_key z))) as o.
  intros o n m. rank_arith.
Qed.

(** ** The head of a sorted list *)

Section SortedHead.
Variables (A K : Type) (lt : K -> K -> bool) (key : A -> K).
Variable good : A -> Prop.
Hypothesis lt_irrefl : forall x, lt (key x) (key x) = false.
Hypothesis lt_asym : forall x y, good x -> good y ->
  lt (key x) (key y) = true -> lt (key y) (key x) = false.
Hypothesis lt_negtrans : forall x y z, good x -> good y -> good z ->
  lt (key x) (key y) = false -> lt (key y) (key z) = false ->
  lt (key x) (key z) = false.

Lemma getitem0_insert (x : A) (s : list A) :
  Py.getitem0 (Py.insert lt key x s) =
  match s with
  | [] => Py.Ok x
  | y :: _ => if lt (key y) (key x) then Py.Ok y else Py.Ok x
  end.
Proof. destruct s as [|y s]; cbn; [reflexivity|]. now destruct (lt (key y) (key x)). Qed.

(** The first element of [sorted xs] is the earliest element of [xs]
    that no element is below. *)
Lemma sorted_head (xs : list A) :
  xs <> [] -> (forall x, In x xs -> good x) ->
  exists pre best post,
    xs = pre ++ best :: post /\
    Py.getitem0 (Py.sorted lt key xs) = Py.Ok best /\
    (forall x, In x xs -> lt (key x) (key best) = false) /\
    (forall x, In x pre -> lt (key best) (key x) = true).
Proof.
  induction xs as [|x r IH]; [congruence|]. intros _ Hgood.
  destruct r as [|y r'].
  - exists [], x, []. cbn. repeat split; try reflexivity.
    + intros z [<-|[]]. apply lt_irrefl.
    + intros z [].
  - destruct IH as (pre & best & post & Hsplit & Hhead & Hmin & Hpre);
      [discriminate | intros z Hz; apply Hgood; now right |].
    assert (good x) as Gx by (apply Hgood; now left).
    assert (good best) as Gb.
    { apply Hgood. right. rewrite Hsplit. apply in_elt. }
    change (Py.sorted lt key (x :: y :: r'))
      with (Py.insert lt key x (Py.sorted lt key (y :: r'))).
    rewrite getitem0_insert.
    destruct (Py.sorted lt key (y :: r')) as [|h s] eqn:Es; [discriminate|].
    cbn in Hhead. injection Hhead as ->.
    destruct (lt (key best) (key x)) eqn:E.
    + exists (x :: pre), best, post. rewrite Hsplit. repeat split.
      * intros z [<-|Hz]; [now apply lt_asym | apply Hmin; now rewrite Hsplit].
      * intros z [<-|Hz]; [exact E | now apply Hpre].
    + exists [], x, (y :: r'). repeat split.
      * intros z [<-|Hz]; [apply lt_irrefl|].
        apply lt_negtrans with (y := best); auto.
        apply Hgood. now right.
      * intros z [].
Qed.

End SortedHead.

(** ** [min], [max] and list comprehensions *)

Section MinMax.
Variables (A : Type) (key : A -> Py.result float) (k : A -> float).

Lemma min_scan_spec (xs : list A) : forall (cur : A),
  (forall x, In x (cur :: xs) -> key x = Py.Ok (k x)) ->
  exists best,
    Py.min_scan key cur (k cur) xs = Py.Ok best /\
    In best (cur :: xs) /\
    ((k best <? k cur)%float = true \/ k best = k cur) /\
    (forall x, In x xs -> (k x <? k best)%float = false).
Proof.
  induction xs as [|x rest IH]; intros cur Hkey.
  - exists cur. cbn. repeat split; auto. intros x [].
  - cbn [Py.min_scan]. rewrite (Hkey x) by (right; now left). cbn [Py.bind].
    destruct (k x <? k cur)%float eqn:E.
    + destruct (IH x) as (best & Hrun & Hin & Hle & Hmin).
      { intros z [<-|Hz]; apply Hkey; right; [now left | now right]. }
      exists best. repeat split.
      * exact Hrun.
      * right. exact Hin.
      * left. destruct Hle as [Hlt|Heq]; [now apply ltb_trans with (y := k x)|].
        now rewrite Heq.
      * intros z [<-|Hz]; [|now apply Hmin].
        destruct Hle as [Hlt|Heq]; [now apply ltb_asym|].
        rewrite Heq. apply ltb_irrefl.
    + destruct (IH cur) as (best & Hrun & Hin & Hle & Hmin).
      { intros z [<-|Hz]; apply Hkey; [now left | right; now right]. }
      exists best. repeat split.
      * exact Hrun.
      * destruct Hin as [<-|Hin]; [now left | right; now right].
      * exact Hle.
      * intros z [<-|Hz]; [|now apply Hmin].
        destruct Hle as [Hlt|Heq]; [|now rewrite Heq].
        destruct (k x <? k best)%float eqn:E'; [|reflexivity].
        now rewrite (ltb_trans E' Hlt) in E.
Qed.

Lemma min_key_spec (xs : list A) :
  xs <> [] -> (forall x, In x xs -> key x = Py.Ok (k x)) ->
  exists best,
    Py.min_key key xs = Py.Ok best /\
    In best xs /\
    (forall x, In x xs -> (k x <? k best)%float = false).
Proof.
  destruct xs as [|x rest]; [congruence|]. intros _ Hkey.
  cbn [Py.min_key]. rewrite (Hkey x) by now left. cbn [Py.bind].
  destruct (min_scan_spec Hkey) as (best & Hrun & Hin & Hle & Hmin).
  exists best. repeat split; auto.
  intros z [<-|Hz]; [|now apply Hmin].
  destruct Hle as [Hlt|Heq]; [now apply ltb_asym | rewrite Heq; apply ltb_irrefl].
Qed.

End MinMax.

Lemma min_spec (xs : list float) :
  xs <> [] ->
  exists lo, Py.min xs = Py.Ok lo /\ In lo xs /\
             (forall x, In x xs -> (x <? lo)%float = false).
Proof.
  intros H. unfold Py.min.
  apply (@min_key_spec float (fun x => Py.Ok x) (fun x => x) xs H).
  reflexivity.
Qed.

Lemma max_scan_spec (xs : list float) : forall cur,
  In (Py.max_scan cur xs) (cur :: xs) /\
  ((cur <? Py.max_scan cur xs)%float = true \/ Py.max_scan cur xs = cur) /\
  (forall x, In x xs -> (Py.max_scan cur xs <? x)%float = false).
Proof.
  induction xs as [|x rest IH]; intros cur; cbn [Py.max_scan].
  - split; [now left | split; [now right | intros x []]].
  - destruct (cur <? x)%float eqn:E.
    + destruct (IH x) as (Hin & Hle & Hmax). repeat split.
      * now right.
      * left. destruct Hle as [Hlt|Heq]; [now apply ltb_trans with (y := x)|].
        now rewrite Heq.
      * intros z [<-|Hz]; [|now apply Hmax].
        destruct Hle as [Hlt|Heq]; [now apply ltb_asym | rewrite Heq; apply ltb_irrefl].
    + destruct (IH cur) as (Hin & Hle & Hmax). repeat split.
      * destruct Hin as [Hin|Hin]; [now left | right; now right].
      * exact Hle.
      * intros z [<-|Hz]; [|now apply Hmax].
        destruct Hle as [Hlt|Heq]; [|now rewrite Heq].
        destruct (Py.max_scan cur rest <? x)%float eqn:E'; [|reflexivity].
        now rewrite (ltb_trans Hlt E') in E.
Qed.

Lemma max_spec (xs : list float) :
  xs <> [] ->
  exists hi, Py.max xs = Py.Ok hi /\ In hi xs /\
             (forall x, In x xs -> (hi <? x)%float = false).
Proof.
  destruct xs as [|x rest]; [congruence|]. intros _.
  destruct (max_scan_spec rest x) as (Hin & Hle & Hmax).
  exists (Py.max_scan x rest). repeat split; auto.
  intros z [<-|Hz]; [|now apply Hmax].
  destruct Hle as [Hlt|Heq]; [now apply ltb_asym | rewrite Heq; apply ltb_irrefl].
Qed.

Lemma comprehension_map (A B : Type) (f : A -> Py.result B) (g : A -> B)
      (xs : list A) :
  (forall x, In x xs -> f x = Py.Ok (g x)) ->
  Py.comprehension f xs = Py.Ok (map g xs).
Proof.
  induction xs as [|x rest IH]; intros H; cbn; [reflexivity|].
  rewrite (H x) by now left. cbn.
  rewrite IH by (intros z Hz; apply H; now right). reflexivity.
Qed.

(* ================================================================== *)
(** * What the two computations return *)
(* ================================================================== *)

Lemma len_nonzero (A : Type) (xs : list A) :
  xs <> [] -> (Py.len xs =? 0)%Z = false.
Proof.
  destruct xs; [congruence|]. intros _. unfold Py.len. cbn [List.length].
  apply Z.eqb_neq. lia.
Qed.

Lemma truediv_len (A : Type) (x : float) (xs : list A) :
  xs <> [] -> Py.truediv x (Py.len xs) = Py.Ok (x / Py.float_of_int (Py.len xs))%float.
Proof. intros H. unfold Py.truediv. now rewrite (len_nonzero H). Qed.

Lemma len_map (A B : Type) (f : A -> B) (xs : list A) :
  Py.len (map f xs) = Py.len xs.
Proof. unfold Py.len. now rewrite length_map. Qed.

Lemma truthy_and_positive_eq (l : Listing.t) :
  truthy_and_positive l = has_mileage l.
Proof.
  unfold truthy_and_positive, has_mileage, Py.truthy_int_opt.
  destruct (Listing.mileage l) as [m|]; [|reflexivity].
  destruct (Z.ltb_spec 0 m), (Z.eqb_spec m 0); cbn; try reflexivity; lia.
Qed.

Lemma price_per_mile_ratio (l : Listing.t) :
  has_mileage l = true -> price_per_mile l = Py.Ok (ratio l).
Proof.
  unfold has_mileage, price_per_mile, ratio, Py.truediv_opt, Py.truediv.
  destruct (Listing.mileage l) as [m|]; [|discriminate].
  intros H. apply Z.ltb_lt in H.
  destruct (Z.eqb_spec m 0); [lia | reflexivity].
Qed.

Lemma mean_price_per_mile_spec (lwm : list Listing.t) :
  (forall l, In l lwm -> has_mileage l = true) ->
  mean_price_per_mile lwm = Py.Ok (mean_ratio lwm).
Proof.
  intros H. destruct lwm as [|l rest]; [reflexivity|].
  unfold mean_price_per_mile, mean_ratio.
  rewrite (comprehension_map price_per_mile ratio)
    by (intros x Hx; apply price_per_mile_ratio, H, Hx).
  cbn [Py.bind]. rewrite truediv_len by discriminate.
  cbn [Py.bind]. now rewrite len_map.
Qed.

Lemma filter_has_mileage (listings : list Listing.t) :
  forall l, In l (filter has_mileage listings) -> has_mileage l = true.
Proof. intros l H. now apply filter_In in H. Qed.

Lemma sorted_getitem0 (A K : Type) (lt : K -> K -> bool) (key : A -> K)
      (xs : list A) :
  xs <> [] ->
  exists best, Py.getitem0 (Py.sorted lt key xs) = Py.Ok best /\ In best xs.
Proof.
  induction xs as [|x r IH]; [congruence|]. intros _.
  change (Py.sorted lt key (x :: r)) with (Py.insert lt key x (Py.sorted lt key r)).
  rewrite getitem0_insert.
  destruct r as [|y r'].
  - exists x. split; [reflexivity | now left].
  - destruct IH as (best & Hhead & Hin); [discriminate|].
    destruct (Py.sorted lt key (y :: r')) as [|h s]; [discriminate|].
    cbn in Hhead. injection Hhead as ->.
    destruct (lt (key best) (key x)).
    + exists best. split; [reflexivity | now right].
    + exists x. split; [reflexivity | now left].
Qed.

(** The endpoint on a non-empty list: no builtin raises, and every
    field is given by the pure functions above. *)
Lemma compare_nonempty (listings : list Listing.t) :
  listings <> [] ->
  exists lo hi best,
    Py.min (map Listing.price listings) = Py.Ok lo /\
    Py.max (map Listing.price listings) = Py.Ok hi /\
    Py.getitem0 (Py.sorted tuple_lt best_deal_key listings) = Py.Ok best /\
    compare listings =
    Py.Ok (mkStats (Py.len listings)
                   (Some (Py.round lo 2))
                   (Some (Py.round hi 2))
                   (Some (Py.round (mean_price listings) 2))
                   (round_if_truthy (mean_ratio (filter has_mileage listings)))
                   (Some (Listing.id best))).
Proof.
  intros H.
  assert (map Listing.price listings <> []) as Hp.
  { destruct listings; [congruence | discriminate]. }
  destruct (min_spec Hp) as (lo & Hlo & _).
  destruct (max_spec Hp) as (hi & Hhi & _).
  destruct (sorted_getitem0 tuple_lt best_deal_key H) as (best & Hbest & _).
  exists lo, hi, best. repeat split; try assumption.
  unfold compare. rewrite (len_nonzero H), Hlo, Hhi. cbn [Py.bind].
  rewrite (truediv_len _ H). cbn [Py.bind].
  rewrite (@mean_price_per_mile_spec _ (filter_has_mileage listings)).
  cbn [Py.bind]. rewrite Hbest. reflexivity.
Qed.

Lemma helper_best_deal_spec (lwm : list Listing.t) :
  (forall l, In l lwm -> has_mileage l = true) ->
  (lwm = [] /\ helper_best_deal lwm = Py.Ok None) \/
  (exists best,
      In best lwm /\
      helper_best_deal lwm = Py.Ok (Some (Listing.id best)) /\
      forall l, In l lwm -> (ratio l <? ratio best)%float = false).
Proof.
  intros H. destruct lwm as [|l0 rest]; [left; now split | right].
  destruct (@min_key_spec _ price_per_mile ratio (l0 :: rest)) as (best & Hrun & Hin & Hmin).
  - discriminate.
  - intros x Hx. apply price_per_mile_ratio, H, Hx.
  - exists best. repeat split; try assumption.
    unfold helper_best_deal. now rewrite Hrun.
Qed.

Lemma helper_nonempty (listings : list Listing.t) :
  listings <> [] ->
  exists lo hi bd,
    Py.min (map Listing.price listings) = Py.Ok lo /\
    Py.max (map Listing.price listings) = Py.Ok hi /\
    helper_best_deal (filter has_mileage listings) = Py.Ok bd /\
    compute_comparison_stats listings =
    Py.Ok (mkStats (Py.len listings)
                   (Some (Py.round lo 2))
                   (Some (Py.round hi 2))
                   (Some (Py.round (mean_price listings) 2))
                   (round_if_truthy (mean_ratio (filter has_mileage listings)))
                   bd).
Proof.
  intros H.
  assert (map Listing.price listings <> []) as Hp.
  { destruct listings; [congruence | discriminate]. }
  destruct (min_spec Hp) as (lo & Hlo & _).
  destruct (max_spec Hp) as (hi & Hhi & _).
  assert (exists bd, helper_best_deal (filter has_mileage listings) = Py.Ok bd)
    as (bd & Hbd).
  { destruct (@helper_best_deal_spec _ (filter_has_mileage listings))
      as [[_ Hn]|(best & _ & Hb & _)]; eauto. }
  exists lo, hi, bd. repeat split; try assumption.
  destruct listings as [|l0 rest]; [congruence|].
  unfold compute_comparison_stats.
  rewrite (filter_ext _ _ truthy_and_positive_eq).
  rewrite Hlo, Hhi. cbn [Py.bind].
  rewrite (truediv_len _ H). cbn [Py.bind].
  rewrite (@mean_price_per_mile_spec _ (filter_has_mileage (l0 :: rest))).
  cbn [Py.bind]. fold (helper_best_deal (filter has_mileage (l0 :: rest))).
  rewrite Hbd. reflexivity.
Qed.

(* ================================================================== *)
(** * The request handler and the session *)
(* ================================================================== *)

(** The handler only queries: the session it leaves is the session it
    was given. *)
Lemma handler_keeps_session (car_id : option uuid) (current_user : uuid)
      (db : Session) :
  snd (compare_car_listings car_id current_user db) = db.
Proof.
  unfold compare_car_listings.
  destruct car_id as [car_uuid|]; [|reflexivity].
  unfold hbind, query_first_car, query_all_listings, hraise, hlift.
  destruct (find _ (cars db)); [|reflexivity].
  destruct (compare _); reflexivity.
Qed.

(** C8: the comparison has no side effect.  Whatever the request and
    the session, the session after [compare_car_listings] is the session
    before it: the same cars and the same listings, field by field. *)
Theorem compare_car_listings_read_only
        (car_id : option uuid) (current_user : uuid) (db : Session) :
  let db' := snd (compare_car_listings car_id current_user db) in
  db' = db /\ listings db' = listings db /\ cars db' = cars db.
Proof.
  cbv zeta. rewrite handler_keeps_session. repeat split.
Qed.

(** C7: the comparison is deterministic.  A second request, served on
    the session the first one left, gets the same response as the first
    (the same statistics in every field, or the same error). *)
Theorem compare_car_listings_deterministic
        (car_id : option uuid) (current_user : uuid) (db : Session) :
  let first := compare_car_listings car_id current_user db in
  let second := compare_car_listings car_id current_user (snd first) in
  fst second = fst first.
Proof.
  cbv zeta. now rewrite handler_keeps_session.
Qed.

(** The response depends on the session only through the cars and the
    listings of the requested car: listings of other cars do not reach
    the statistics. *)
Lemma response_depends_on_car_listings (car_uuid current_user : uuid)
      (db1 db2 : Session) :
  cars db1 = cars db2 ->
  filter (fun l => (Listing.car_id l =? car_uuid)%N) (listings db1)
  = filter (fun l => (Listing.car_id l =? car_uuid)%N) (listings db2) ->
  fst (compare_car_listings (Some car_uuid) current_user db1)
  = fst (compare_car_listings (Some car_uuid) current_user db2).
Proof.
  intros Hc Hl. unfold compare_car_listings, hbind, query_first_car,
    query_all_listings, hraise, hlift.
  rewrite Hc. destruct (find _ (cars db2)); [|reflexivity].
  rewrite Hl. destruct (compare _); reflexivity.
Qed.

(** By contrast the session does change when a listing is created. *)
Example create_listing_changes_session :
  let db := mkSession [Car.mk 9%N 7%N] [] in
  snd (create_listing_for_car (Some 9%N) (ListingCreate.mk 9%N 25000%float (Some 50000%Z))
                              7%N 1%N db)
  = mkSession [Car.mk 9%N 7%N] [create_test_listing 1 25000 (Some 50000%Z)] /\
  fst (compare_car_listings (Some 9%N) 7%N db)
  = Returned (mkStats 0 None None None None None).
Proof. split; reflexivity. Qed.

(* ================================================================== *)
(** * Empty input *)
(* ================================================================== *)

(** C5: on the empty list the endpoint's computation and the test
    helper both return count 0 and [None] in every other field. *)
Theorem compare_empty :
  compare [] = Py.Ok (mkStats 0 None None None None None) /\
  compute_comparison_stats [] = Py.Ok (mkStats 0 None None None None None).
Proof. split; reflexivity. Qed.

(* ================================================================== *)
(** * Two best-deal rules *)
(* ================================================================== *)

(** C3: the endpoint's best deal and the test helper's best deal differ
    on some input.  On three listings of equal price (the data of
    [test_compare_identical_prices]) the endpoint picks the lowest
    mileage, the helper the lowest price per mile, that is the highest
    mileage. *)
Theorem best_deal_rules_disagree :
  exists listings s_endpoint s_helper,
    compare listings = Py.Ok s_endpoint /\
    compute_comparison_stats listings = Py.Ok s_helper /\
    best_deal_listing_id s_endpoint <> best_deal_listing_id s_helper.
Proof.
  exists [create_test_listing 1 24000 (Some 45000%Z);
          create_test_listing 2 24000 (Some 50000%Z);
          create_test_listing 3 24000 (Some 55000%Z)].
  eexists. eexists. split; [vm_compute; reflexivity|].
  split; [vm_compute; reflexivity|]. cbn. discriminate.
Qed.

(* ================================================================== *)
(** * Count and price statistics *)
(* ================================================================== *)





#[local] Set Warnings "-inexact-float".



(* ================================================================== *)
(** * Average price per mile *)
(* ================================================================== *)

(** The average price per mile of either computation: the mean of the
    ratios of the listings with a positive mileage, rounded, provided it
    is not zero. *)
Lemma avg_price_per_mile_spec (listings : list Listing.t) :
  listings <> [] ->
  exists s s',
    compare listings = Py.Ok s /\
    compute_comparison_stats listings = Py.Ok s' /\
    avg_price_per_mile s =
      round_if_truthy (mean_ratio (filter has_mileage listings)) /\
    avg_price_per_mile s' =
      round_if_truthy (mean_ratio (filter has_mileage listings)).
Proof.
  intros H.
  destruct (compare_nonempty H) as (lo & hi & best & _ & _ & _ & Hrun).
  destruct (helper_nonempty H) as (lo' & hi' & bd & _ & _ & _ & Hrun').
  do 2 eexists. split; [exact Hrun|]. split; [exact Hrun'|]. split; reflexivity.
Qed.

#[local] Set Warnings "-inexact-float".

(** C2, where the code departs from it: a listing with a positive
    mileage qualifies, yet [avg_price_per_mile] is [None] when the mean
    of the ratios is zero, because the result is tested for truth and
    not for [None].  This happens for a stored price of 0.0, which is
    what the price validator stores for a requested price of 0.004, and
    for a positive price so small that the ratio underflows. *)
Theorem zero_mean_price_per_mile_is_none :
  ListingBase.validate_price 0.004 = Py.Ok 0%float /\
  has_mileage (create_test_listing 1 0 (Some 100%Z)) = true /\
  compare [create_test_listing 1 0 (Some 100%Z)] =
    Py.Ok (mkStats 1 (Some 0%float) (Some 0%float) (Some 0%float) None (Some 1%N)) /\
  compute_comparison_stats [create_test_listing 1 0 (Some 100%Z)] =
    Py.Ok (mkStats 1 (Some 0%float) (Some 0%float) (Some 0%float) None (Some 1%N)) /\
  (0 <? 0x1p-1074)%float = true /\
  has_mileage (create_test_listing 1 0x1p-1074 (Some 2%Z)) = true /\
  (exists s, compare [create_test_listing 1 0x1p-1074 (Some 2%Z)] = Py.Ok s /\
             avg_price_per_mile s = None) /\
  mean_ratio [create_test_listing 1 0 (Some 100%Z)] = Some 0%float.
Proof.
  repeat split; try (vm_compute; reflexivity).
  eexists. split; vm_compute; reflexivity.
Qed.

(* ================================================================== *)
(** * Best deal by price per mile: the test helper *)
(* ================================================================== *)

(** C1 fails for the endpoint.  On the two listings without mileage of
    [test_compare_listings_with_no_mileage] the endpoint names a best
    deal although no listing has a positive mileage; and on two listings
    of equal price it names the one with the higher price per mile. *)
Lemma endpoint_best_deal_ignores_price_per_mile :
  (filter has_mileage [create_test_listing 1 30000 None;
                       create_test_listing 2 32000 None] = [] /\
   exists s, compare [create_test_listing 1 30000 None;
                      create_test_listing 2 32000 None] = Py.Ok s /\
             best_deal_listing_id s = Some 1%N) /\
  ((ratio (create_test_listing 2 24000 (Some 55000%Z))
    <? ratio (create_test_listing 1 24000 (Some 45000%Z)))%float = true /\
   exists s, compare [create_test_listing 1 24000 (Some 45000%Z);
                      create_test_listing 2 24000 (Some 55000%Z)] = Py.Ok s /\
             best_deal_listing_id s = Some 1%N).
Proof.
  repeat split; try (vm_compute; reflexivity);
    eexists; split; vm_compute; reflexivity.
Qed.

(** C1, as the test helper implements it: for every input list
    [compute_comparison_stats] returns without raising; if some listing
    has a mileage greater than 0, its [best_deal_listing_id] is the id of
    a listing with a mileage greater than 0 whose ratio price / mileage
    no such listing undercuts; if no listing has a mileage greater than
    0, it is [None]. *)
Theorem helper_best_deal_is_lowest_price_per_mile (listings : list Listing.t) :
  exists s,
    compute_comparison_stats listings = Py.Ok s /\
    ((exists l, In l listings /\ has_mileage l = true) ->
     exists best,
       In best listings /\ has_mileage best = true /\
       best_deal_listing_id s = Some (Listing.id best) /\
       forall l, In l listings -> has_mileage l = true ->
         price_per_mile l = Py.Ok (ratio l) /\
         (ratio l <? ratio best)%float = false) /\
    ((forall l, In l listings -> has_mileage l = false) ->
     best_deal_listing_id s = None).
Proof.
  destruct listings as [|l0 rest].
  - eexists. split; [reflexivity|]. split.
    + intros (l & [] & _).
    + reflexivity.
  - destruct (@helper_nonempty (l0 :: rest)) as (lo & hi & bd & _ & _ & Hbd & Hrun);
      [discriminate|].
    eexists. split; [exact Hrun|]. cbn [best_deal_listing_id].
    destruct (@helper_best_deal_spec _ (filter_has_mileage (l0 :: rest)))
      as [[Hnil Hn]|(best & Hin & Hb & Hmin)].
    + rewrite Hn in Hbd. injection Hbd as <-. split; [|reflexivity].
      intros (l & Hl & Hm).
      assert (In l (filter has_mileage (l0 :: rest))) as Hf by (apply filter_In; now split).
      rewrite Hnil in Hf. destruct Hf.
    + rewrite Hb in Hbd. injection Hbd as <-. split.
      * intros _. apply filter_In in Hin. destruct Hin as [Hin Hm].
        exists best. repeat split; try assumption.
        -- now apply price_per_mile_ratio.
        -- apply Hmin. apply filter_In. now split.
      * intros Hnone. apply filter_In in Hin. destruct Hin as [Hin Hm].
        rewrite (Hnone _ Hin) in Hm. discriminate.
Qed.

(* ================================================================== *)
(** * Best deal by price: the endpoint *)
(* ================================================================== *)

Lemma eqb_not_ltb (x y : float) :
  (x =? y)%float = true -> (x <? y)%float = false.
Proof.
  intros H. apply not_true_is_false. revert H. rewrite eqb_frank, ltb_frank.
  intros (c & Hx & Hy) (a & b & Ha & Hb & Hlt).
  assert (a = c) by congruence. assert (b = c) by congruence. subst a b.
  rank_arith.
Qed.

Lemma eqb_sym (x y : float) : (x =? y)%float = true -> (y =? x)%float = true.
Proof. rewrite !eqb_frank. intros (c & Hx & Hy). now exists c. Qed.

Lemma tuple_lt_price (a b : float * mileage_key) :
  tuple_lt a b = false -> (fst a <? fst b)%float = false.
Proof.
  unfold tuple_lt. destruct (fst a =? fst b)%float eqn:E; cbn [negb].
  - intros _. now apply eqb_not_ltb.
  - auto.
Qed.

Lemma tuple_lt_mileage (a b : float * mileage_key) :
  tuple_lt a b = false -> (fst a =? fst b)%float = true ->
  mileage_key_ltb (snd a) (snd b) = false.
Proof.
  unfold tuple_lt. intros H E. rewrite E in H. cbn [negb] in H.
  destruct (snd a) as [m|], (snd b) as [n|]; cbn in *; try reflexivity;
    try discriminate.
  destruct (Z.eqb_spec m n); cbn in H; [|exact H]. apply Z.ltb_ge. lia.
Qed.

Lemma tuple_lt_same_key (a b : float * mileage_key) :
  (fst a =? fst b)%float = true -> snd a = snd b -> tuple_lt a b = false.
Proof.
  unfold tuple_lt. intros E ->. rewrite E. cbn [negb].
  destruct (snd b) as [n|]; cbn; [|reflexivity]. now rewrite Z.eqb_refl.
Qed.

(** C9: the endpoint's best deal.  For every non-empty list [compare]
    returns the id of a listing [best] of the list, never [None].  If
    the prices are numbers (no NaN), then no price is below the price of
    [best]; among the listings with the price of [best] none has a
    smaller mileage, where a missing mileage counts as infinity, so that
    [best] has no mileage only if none of them has one; and every
    listing before [best] in input order differs from it in price or in
    mileage. *)
Theorem endpoint_best_deal (listings : list Listing.t) :
  listings <> [] ->
  exists s best,
    compare listings = Py.Ok s /\
    In best listings /\
    best_deal_listing_id s = Some (Listing.id best) /\
    ((forall l, In l listings -> is_nan (Listing.price l) = false) ->
     exists pre post,
       listings = pre ++ best :: post /\
       (forall l, In l listings ->
          (Listing.price l <? Listing.price best)%float = false) /\
       (forall l, In l listings ->
          (Listing.price l =? Listing.price best)%float = true ->
          mileage_key_ltb (snd (best_deal_key l)) (snd (best_deal_key best))
          = false) /\
       (forall l, In l listings ->
          (Listing.price l =? Listing.price best)%float = true ->
          Listing.mileage best = None -> Listing.mileage l = None) /\
       (forall l, In l pre ->
          (Listing.price l =? Listing.price best)%float = true ->
          Listing.mileage l <> Listing.mileage best)).
Proof.
  intros Hne.
  destruct (compare_nonempty Hne) as (lo & hi & best & _ & _ & Hhead & Hrun).
  destruct (sorted_getitem0 tuple_lt best_deal_key Hne) as (best' & Hhead' & Hin).
  assert (best' = best) by congruence. subst best'.
  eexists. exists best.
  split; [exact Hrun|]. split; [exact Hin|]. split; [reflexivity|].
  intros Hnan.
  destruct (@sorted_head _ _ tuple_lt best_deal_key
              (fun l => is_nan (Listing.price l) = false)
              key_lt_irrefl key_lt_asym key_lt_negtrans listings Hne Hnan)
    as (pre & best' & post & Hsplit & Hhead'' & Hmin & Hpre).
  assert (best' = best) by congruence. subst best'.
  exists pre, post. split; [exact Hsplit|].
  assert (forall l, In l listings ->
            (Listing.price l =? Listing.price best)%float = true ->
            mileage_key_ltb (snd (best_deal_key l)) (snd (best_deal_key best)) = false)
    as Hmiles.
  { intros l Hl E. apply tuple_lt_mileage; [now apply Hmin | exact E]. }
  split; [|split; [exact Hmiles|split]].
  - intros l Hl. apply (tuple_lt_price _ _ (Hmin l Hl)).
  - intros l Hl E Hbest. specialize (Hmiles l Hl E).
    unfold best_deal_key in Hmiles. cbn [snd] in Hmiles. rewrite Hbest in Hmiles.
    destruct (Listing.mileage l); [discriminate | reflexivity].
  - intros l Hl E Hsame. specialize (Hpre l Hl).
    rewrite tuple_lt_same_key in Hpre; [discriminate| |].
    + apply eqb_sym. exact E.
    + unfold best_deal_key. cbn [snd]. now rewrite Hsame.
Qed.

(** The theorem at three listings of one price: the first has no
    mileage, the other two the same mileage; the best deal is a listing
    of the list, it has a mileage, and none of the listings before it
    has its mileage. *)
Lemma endpoint_best_deal_witness :
  exists s best pre post,
    compare [create_test_listing 1 24000 None;
             create_test_listing 2 24000 (Some 50000%Z);
             create_test_listing 3 24000 (Some 50000%Z)] = Py.Ok s /\
    best_deal_listing_id s = Some (Listing.id best) /\
    [create_test_listing 1 24000 None;
     create_test_listing 2 24000 (Some 50000%Z);
     create_test_listing 3 24000 (Some 50000%Z)] = pre ++ best :: post /\
    (forall l, In l [create_test_listing 1 24000 None;
                     create_test_listing 2 24000 (Some 50000%Z);
                     create_test_listing 3 24000 (Some 50000%Z)] ->
       (Listing.price l =? Listing.price best)%float = true ->
       Listing.mileage best = None -> Listing.mileage l = None) /\
    (forall l, In l pre ->
       (Listing.price l =? Listing.price best)%float = true ->
       Listing.mileage l <> Listing.mileage best).
Proof.
  destruct (@endpoint_best_deal
              [create_test_listing 1 24000 None;
               create_test_listing 2 24000 (Some 50000%Z);
               create_test_listing 3 24000 (Some 50000%Z)])
    as (s & best & Hrun & _ & Hid & Horder).
  - discriminate.
  - destruct Horder as (pre & post & Hsplit & _ & _ & Hnone & Hfirst).
    + intros l [<-|[<-|[<-|[]]]]; reflexivity.
    + exists s, best, pre, post. repeat split; assumption.
Defined.

Example endpoint_best_deal_example :
  compare [create_test_listing 1 24000 None;
           create_test_listing 2 24000 (Some 50000%Z);
           create_test_listing 3 24000 (Some 50000%Z)]
  = Py.Ok (mkStats 3 (Some 24000%float) (Some 24000%float) (Some 24000%float)
                   (Some 0.48%float) (Some 2%N)).
Proof. vm_compute. reflexivity. Qed.

(* ================================================================== *)
(** * Mileage zero *)
(* ================================================================== *)

Lemma null_zero_price (l : Listing.t) :
  Listing.price (null_zero_mileage l) = Listing.price l.
Proof.
  unfold null_zero_mileage. destruct (Listing.mileage l) as [[| |]|]; reflexivity.
Qed.

Lemma null_zero_has_mileage (l : Listing.t) :
  has_mileage (null_zero_mileage l) = has_mileage l.
Proof.
  unfold null_zero_mileage, has_mileage.
  destruct (Listing.mileage l) as [[| |]|] eqn:E; cbn; rewrite ?E; reflexivity.
Qed.

Lemma null_zero_qualifying (l : Listing.t) :
  has_mileage l = true -> null_zero_mileage l = l.
Proof.
  unfold null_zero_mileage, has_mileage.
  destruct (Listing.mileage l) as [[| |]|]; try reflexivity; discriminate.
Qed.

Lemma null_zero_prices (listings : list Listing.t) :
  map Listing.price (map null_zero_mileage listings) = map Listing.price listings.
Proof. rewrite map_map. apply map_ext, null_zero_price. Qed.

Lemma null_zero_filter (listings : list Listing.t) :
  filter has_mileage (map null_zero_mileage listings) = filter has_mileage listings.
Proof.
  induction listings as [|l rest IH]; [reflexivity|]. cbn [map filter].
  rewrite null_zero_has_mileage, IH.
  destruct (has_mileage l) eqn:E; [|reflexivity].
  now rewrite (null_zero_qualifying _ E).
Qed.

(** The helper reads its input only through the prices, the length and
    the listings with a mileage. *)
Lemma compute_comparison_stats_ext (xs ys : list Listing.t) :
  map Listing.price xs = map Listing.price ys ->
  filter has_mileage xs = filter has_mileage ys ->
  compute_comparison_stats xs = compute_comparison_stats ys.
Proof.
  intros Hp Hf.
  assert (Py.len xs = Py.len ys) as Hl.
  { rewrite <- (len_map Listing.price xs), <- (len_map Listing.price ys). now rewrite Hp. }
  destruct xs as [|x xs'], ys as [|y ys']; try discriminate; [reflexivity|].
  unfold compute_comparison_stats.
  rewrite !(filter_ext _ _ truthy_and_positive_eq).
  now rewrite Hp, Hf, Hl.
Qed.

(** C6 fails for the endpoint's best deal.  A listing with mileage 0 is
    the best deal when its price is the lowest, and on two listings of
    one price a mileage of 0 wins the tie that a missing mileage loses. *)
Lemma endpoint_best_deal_counts_zero_mileage :
  (exists s, compare [create_test_listing 1 20000 (Some 0%Z);
                      create_test_listing 2 28000 (Some 40000%Z)] = Py.Ok s /\
             best_deal_listing_id s = Some 1%N) /\
  (exists s s',
      compare [create_test_listing 1 100 (Some 5%Z);
               create_test_listing 2 100 (Some 0%Z)] = Py.Ok s /\
      compare [create_test_listing 1 100 (Some 5%Z);
               create_test_listing 2 100 None] = Py.Ok s' /\
      best_deal_listing_id s = Some 2%N /\
      best_deal_listing_id s' = Some 1%N).
Proof.
  split.
  - eexists. split; vm_compute; reflexivity.
  - do 2 eexists. repeat split; vm_compute; reflexivity.
Qed.

(** C6, as the code has it: no input makes either computation raise (a
    division happens only for a listing whose mileage is greater than
    0); the average price per mile is computed from the listings with a
    mileage greater than 0 alone; replacing every mileage 0 by [None]
    changes nothing in the result of the test helper, and nothing but
    possibly the best deal in the result of the endpoint. *)
Theorem zero_mileage_is_excluded (listings : list Listing.t) :
  (forall l, In l (filter has_mileage listings) ->
     exists m, Listing.mileage l = Some m /\ (0 < m)%Z /\
               price_per_mile l = Py.Ok (ratio l)) /\
  (exists s s',
     compare listings = Py.Ok s /\
     compare (map null_zero_mileage listings) = Py.Ok s' /\
     (listings <> [] ->
      avg_price_per_mile s =
        round_if_truthy (mean_ratio (filter has_mileage listings))) /\
     count s' = count s /\ min_price s' = min_price s /\
     max_price s' = max_price s /\ avg_price s' = avg_price s /\
     avg_price_per_mile s' = avg_price_per_mile s) /\
  (exists s, compute_comparison_stats listings = Py.Ok s /\
     (listings <> [] ->
      avg_price_per_mile s =
        round_if_truthy (mean_ratio (filter has_mileage listings)))) /\
  compute_comparison_stats (map null_zero_mileage listings)
  = compute_comparison_stats listings.
Proof.
  split; [|split; [|split]].
  - intros l Hl. apply filter_In in Hl. destruct Hl as [_ Hm].
    pose proof (price_per_mile_ratio _ Hm) as Hr.
    unfold has_mileage in Hm. destruct (Listing.mileage l) as [m|]; [|discriminate].
    exists m. repeat split; [now apply Z.ltb_lt | exact Hr].
  - destruct listings as [|l0 rest].
    + do 2 eexists. repeat split; reflexivity.
    + destruct (@compare_nonempty (l0 :: rest)) as (lo & hi & best & Hlo & Hhi & _ & Hrun);
        [discriminate|].
      destruct (@compare_nonempty (map null_zero_mileage (l0 :: rest)))
        as (lo' & hi' & best' & Hlo' & Hhi' & _ & Hrun'); [discriminate|].
      rewrite null_zero_prices in Hlo', Hhi'.
      assert (lo' = lo) by congruence. assert (hi' = hi) by congruence. subst lo' hi'.
      rewrite null_zero_filter in Hrun'.
      do 2 eexists. split; [exact Hrun|]. split; [exact Hrun'|].
      cbn [count min_price max_price avg_price avg_price_per_mile].
      repeat split.
      * apply len_map.
      * unfold mean_price. now rewrite null_zero_prices, len_map.
  - destruct listings as [|l0 rest].
    + eexists. split; [reflexivity|congruence].
    + destruct (@helper_nonempty (l0 :: rest)) as (lo & hi & bd & _ & _ & _ & Hrun);
        [discriminate|].
      eexists. split; [exact Hrun|]. reflexivity.
  - apply compute_comparison_stats_ext; [apply null_zero_prices | apply null_zero_filter].
Qed.

(* ================================================================== *)
(** * Limits of the listing validators *)
(* ================================================================== *)

Lemma leb_frank (x y : float) :
  (x <=? y)%float = true <->
  exists a b, frank x = Some a /\ frank y = Some b /\ (lt3 a b \/ a = b).
Proof.
  rewrite FloatAxioms.leb_spec. unfold SFleb, frank. rewrite SFcompare_rank.
  destruct (rank (Prim2SF x)) as [a|], (rank (Prim2SF y)) as [b|].
  - destruct (lex3 a b) eqn:E.
    + split; [|reflexivity]. intros _. exists a, b. apply lex3_Eq in E. auto.
    + split; [|reflexivity]. intros _. exists a, b. apply lex3_Lt in E. auto.
    + split; [discriminate|]. intros (a' & b' & Ha & Hb & [H|H]).
      * assert (a' = a) by congruence. assert (b' = b) by congruence. subst.
        apply lex3_Lt in H. congruence.
      * assert (a' = a) by congruence. assert (b' = b) by congruence. subst.
        rewrite (proj2 (lex3_Eq b b) eq_refl) in E. discriminate.
  - split; [discriminate|]. intros (a' & b' & _ & [= ] & _).
  - split; [discriminate|]. intros (a' & b' & [= ] & _).
  - split; [discriminate|]. intros (a' & b' & [= ] & _).
Qed.








Example accepted_price_is_rounded :
  ListingBase.validate_price 19999.999 = Py.Ok 20000%float /\
  ListingBase.validate_price 25000.005 = Py.Ok 25000.01%float /\
  ListingBase.validate_price 10000000 = Py.Ok 10000000%float /\
  ListingBase.validate_mileage (Some 1000000%Z) = Py.Ok (Some 1000000%Z).
Proof. repeat split; vm_compute; reflexivity. Qed.

(* ================================================================== *)
(** * The data of the integration tests *)
(* ================================================================== *)

(** [test_compare_single_listing]. *)
Example single_listing :
  compute_comparison_stats [create_test_listing 1 25000 (Some 50000%Z)]
  = Py.Ok (mkStats 1 (Some 25000%float) (Some 25000%float) (Some 25000%float)
                   (Some 0.5%float) (Some 1%N)) /\
  compare [create_test_listing 1 25000 (Some 50000%Z)]
  = compute_comparison_stats [create_test_listing 1 25000 (Some 50000%Z)].
Proof. split; vm_compute; reflexivity. Qed.

(** [test_compare_listings_mixed_mileage]: only the first and the third
    listing have a ratio, 0.50 and 0.3833..., and the third is the best
    deal of both rules. *)
Example mixed_mileage :
  compute_comparison_stats [create_test_listing 1 25000 (Some 50000%Z);
                            create_test_listing 2 27000 None;
                            create_test_listing 3 23000 (Some 60000%Z)]
  = Py.Ok (mkStats 3 (Some 23000%float) (Some 27000%float) (Some 25000%float)
                   (Some 0.44%float) (Some 3%N)) /\
  compare [create_test_listing 1 25000 (Some 50000%Z);
           create_test_listing 2 27000 None;
           create_test_listing 3 23000 (Some 60000%Z)]
  = Py.Ok (mkStats 3 (Some 23000%float) (Some 27000%float) (Some 25000%float)
                   (Some 0.44%float) (Some 3%N)).
Proof. split; vm_compute; reflexivity. Qed.

(** [test_compare_listings_with_no_mileage]: the helper has no best
    deal, the price statistics are still computed. *)
Example no_mileage :
  compute_comparison_stats [create_test_listing 1 30000 None;
                            create_test_listing 2 32000 None]
  = Py.Ok (mkStats 2 (Some 30000%float) (Some 32000%float) (Some 31000%float)
                   None None).
Proof. vm_compute. reflexivity. Qed.

(** [test_compare_listings_with_zero_mileage]. *)
Example zero_mileage :
  compute_comparison_stats [create_test_listing 1 35000 (Some 0%Z);
                            create_test_listing 2 28000 (Some 40000%Z)]
  = Py.Ok (mkStats 2 (Some 28000%float) (Some 35000%float) (Some 31500%float)
                   (Some 0.7%float) (Some 2%N)) /\
  compare [create_test_listing 1 35000 (Some 0%Z);
           create_test_listing 2 28000 (Some 40000%Z)]
  = Py.Ok (mkStats 2 (Some 28000%float) (Some 35000%float) (Some 31500%float)
                   (Some 0.7%float) (Some 2%N)).
Proof. split; vm_compute; reflexivity. Qed.

(** The average is an average of ratios, not a ratio of sums: for the
    ratios 1/1 and 3/2 it is 1.25, where total price over total mileage
    would be 4/3. *)
Example average_of_ratios :
  compare [create_test_listing 1 1 (Some 1%Z); create_test_listing 2 3 (Some 2%Z)]
  = Py.Ok (mkStats 2 (Some 1%float) (Some 3%float) (Some 2%float)
                   (Some 1.25%float) (Some 1%N)) /\
  Py.round ((1 + 3) / (1 + 2)) 2 = 1.33%float.
Proof. split; vm_compute; reflexivity. Qed.

(* ================================================================== *)
(** * The other car and listing handlers of app/main.py *)
(* ================================================================== *)

(** [db.query(Listing).filter(...).first()]. *)
Definition query_first_listing (p : Listing.t -> bool)
  : Handler (option Listing.t) :=
  fun db => (Returned (find p (listings db)), db).

(** [db.query(Car).filter(...).all()]. *)
Definition query_all_cars (p : Car.t -> bool) : Handler (list Car.t) :=
  fun db => (Returned (filter p (cars db)), db).

(** [db.add(new_car); db.commit(); db.refresh(new_car)].  As for
    [add_listing], the place of the new row in the list is the choice
    of the model: [get_user_cars] has no [ORDER BY]. *)
Definition add_car (new_car : Car.t) : Handler Car.t :=
  fun db => (Returned new_car, mkSession (cars db ++ [new_car]) (listings db)).

(** [db.delete(listing); db.commit()]: the row goes by its primary key. *)
Definition delete_listing_row (listing : Listing.t) : Handler unit :=
  fun db =>
    (Returned tt,
     mkSession (cars db)
               (filter (fun l => negb (Listing.id l =? Listing.id listing)%N)
                       (listings db))).

(** [db.delete(car); db.commit()]: the car goes by its primary key, and
    with it the rows of its [listings] relationship (cascade
    "all, delete-orphan", and ON DELETE CASCADE on [listings.car_id]). *)
Definition delete_car_row (car : Car.t) : Handler unit :=
  fun db =>
    (Returned tt,
     mkSession (filter (fun c => negb (Car.id c =? Car.id car)%N) (cars db))
               (filter (fun l => negb (Listing.car_id l =? Car.id car)%N)
                       (listings db))).

(** [create_car].  The columns of the request body (year, make, model,
    trim, vin) are not part of the row model; [new_id] is the UUID the
    [id] column draws. *)
Definition create_car (current_user new_id : uuid) : Handler Car.t :=
  add_car (Car.mk new_id current_user).

(** [get_user_cars]. *)
Definition get_user_cars (current_user : uuid) : Handler (list Car.t) :=
  query_all_cars (fun c => (Car.user_id c =? current_user)%N).

(** [get_car]. *)
Definition get_car (car_id : option uuid) (current_user : uuid) : Handler Car.t :=
  match car_id with
  | None => hraise 400 "Invalid car ID format"%string
  | Some car_uuid =>
      car <~ query_first_car
               (fun c => (Car.id c =? car_uuid)%N
                         && (Car.user_id c =? current_user)%N) ;;
      match car with
      | None => hraise 404 "Car not found"%string
      | Some c => fun db => (Returned c, db)
      end
  end.

(** [delete_car]. *)
Definition delete_car (car_id : option uuid) (current_user : uuid) : Handler unit :=
  match car_id with
  | None => hraise 400 "Invalid car ID format"%string
  | Some car_uuid =>
      car <~ query_first_car
               (fun c => (Car.id c =? car_uuid)%N
                         && (Car.user_id c =? current_user)%N) ;;
      match car with
      | None => hraise 404 "Car not found"%string
      | Some c => delete_car_row c
      end
  end.

(** [list_listings_for_car]. *)
Definition list_listings_for_car (car_id : option uuid) (current_user : uuid)
  : Handler (list Listing.t) :=
  match car_id with
  | None => hraise 400 "Invalid car id format."%string
  | Some car_uuid =>
      car <~ query_first_car
               (fun c => (Car.id c =? car_uuid)%N
                         && (Car.user_id c =? current_user)%N) ;;
      match car with
      | None => hraise 404 "Car not found."%string
      | Some _ =>
          query_all_listings (fun l => (Listing.car_id l =? car_uuid)%N)
      end
  end.

(** The listing of [get_listing] and [delete_listing]: both ids parse,
    the car is the user's, and the listing has the id, the car and the
    user. *)
Definition find_listing (car_id listing_id : option uuid) (current_user : uuid)
  : Handler Listing.t :=
  match car_id, listing_id with
  | Some car_uuid, Some listing_uuid =>
      car <~ query_first_car
               (fun c => (Car.id c =? car_uuid)%N
                         && (Car.user_id c =? current_user)%N) ;;
      match car with
      | None => hraise 404 "Car not found."%string
      | Some _ =>
          listing <~ query_first_listing
                       (fun l => (Listing.id l =? listing_uuid)%N
                                 && (Listing.car_id l =? car_uuid)%N
                                 && (Listing.user_id l =? current_user)%N) ;;
          match listing with
          | None => hraise 404 "Listing not found."%string
          | Some l => fun db => (Returned l, db)
          end
      end
  | _, _ => hraise 400 "Invalid car or listing id format."%string
  end.

(** [get_listing]. *)
Definition get_listing (car_id listing_id : option uuid) (current_user : uuid)
  : Handler Listing.t :=
  find_listing car_id listing_id current_user.

(** [delete_listing]. *)
Definition delete_listing (car_id listing_id : option uuid) (current_user : uuid)
  : Handler unit :=
  listing <~ find_listing car_id listing_id current_user ;;
  delete_listing_row listing.

(** The state of the tables that the handlers keep: primary keys are
    unique, and every listing belongs to a car of the table and to the
    owner of that car. *)
Definition consistent (db : Session) : Prop :=
  NoDup (map Car.id (cars db)) /\
  NoDup (map Listing.id (listings db)) /\
  forall l, In l (listings db) ->
    exists c, In c (cars db) /\ Car.id c = Listing.car_id l /\
              Car.user_id c = Listing.user_id l.

(** The car [car_uuid] is in the table and is [current_user]'s. *)
Definition owns (db : Session) (current_user car_uuid : uuid) : Prop :=
  exists c, In c (cars db) /\ Car.id c = car_uuid /\ Car.user_id c = current_user.

(** ** Looking up the car of a request *)

Lemma find_car_some (db : Session) (current_user car_uuid : uuid) (c : Car.t) :
  find (fun c => (Car.id c =? car_uuid)%N && (Car.user_id c =? current_user)%N)
       (cars db) = Some c ->
  In c (cars db) /\ Car.id c = car_uuid /\ Car.user_id c = current_user.
Proof.
  intros H. apply find_some in H. destruct H as [Hin H].
  apply andb_prop in H. destruct H as [H1 H2].
  apply N.eqb_eq in H1, H2. auto.
Qed.

Lemma find_car_owns (db : Session) (current_user car_uuid : uuid) :
  owns db current_user car_uuid ->
  exists c,
    find (fun c => (Car.id c =? car_uuid)%N && (Car.user_id c =? current_user)%N)
         (cars db) = Some c.
Proof.
  intros (c & Hin & Hid & Hu).
  destruct (find _ (cars db)) as [c'|] eqn:E; [now exists c'|].
  pose proof (find_none _ _ E c Hin) as Hn. cbn in Hn.
  rewrite Hid, Hu, !N.eqb_refl in Hn. discriminate.
Qed.

Lemma find_car_not_owned (db : Session) (current_user car_uuid : uuid) :
  ~ owns db current_user car_uuid ->
  find (fun c => (Car.id c =? car_uuid)%N && (Car.user_id c =? current_user)%N)
       (cars db) = None.
Proof.
  intros Hn. destruct (find _ (cars db)) as [c|] eqn:E; [|reflexivity].
  exfalso. apply Hn. exists c. now apply find_car_some.
Qed.

(** ** A car of somebody else *)

(** A session with one car of user 7 and one listing of it. *)
Definition one_car_session : Session :=
  mkSession [Car.mk 9%N 7%N] [create_test_listing 1 25000 (Some 50000%Z)].

(** X1: every handler answers 404 for a car that is not the user's (a car of
    another user, or no car at all), and leaves the tables as they are:
    nothing of another user's car is read, created or deleted. *)
Theorem foreign_car_is_not_found
        (db : Session) (current_user car_uuid listing_uuid new_id : uuid)
        (listing_data : ListingCreate.t) :
  ~ owns db current_user car_uuid ->
  ListingCreate.car_id listing_data = car_uuid ->
  compare_car_listings (Some car_uuid) current_user db
    = (HTTPException 404 "Car not found.", db) /\
  list_listings_for_car (Some car_uuid) current_user db
    = (HTTPException 404 "Car not found.", db) /\
  create_listing_for_car (Some car_uuid) listing_data current_user new_id db
    = (HTTPException 404 "Car not found.", db) /\
  get_listing (Some car_uuid) (Some listing_uuid) current_user db
    = (HTTPException 404 "Car not found.", db) /\
  delete_listing (Some car_uuid) (Some listing_uuid) current_user db
    = (HTTPException 404 "Car not found.", db) /\
  get_car (Some car_uuid) current_user db
    = (HTTPException 404 "Car not found", db) /\
  delete_car (Some car_uuid) current_user db
    = (HTTPException 404 "Car not found", db).
Proof.
  intros Hn Hbody. pose proof (find_car_not_owned Hn) as Hf.
  unfold compare_car_listings, list_listings_for_car, create_listing_for_car,
    get_listing, delete_listing, find_listing, get_car, delete_car,
    hbind, query_first_car, hraise.
  rewrite Hbody, N.eqb_refl, Hf. cbn. rewrite ?Hf. repeat split.
Qed.

Lemma foreign_car_is_not_found_witness :
  compare_car_listings (Some 9%N) 8%N one_car_session
    = (HTTPException 404 "Car not found.", one_car_session) /\
  list_listings_for_car (Some 9%N) 8%N one_car_session
    = (HTTPException 404 "Car not found.", one_car_session) /\
  create_listing_for_car (Some 9%N) (ListingCreate.mk 9%N 100%float None) 8%N 2%N
                         one_car_session
    = (HTTPException 404 "Car not found.", one_car_session) /\
  get_listing (Some 9%N) (Some 1%N) 8%N one_car_session
    = (HTTPException 404 "Car not found.", one_car_session) /\
  delete_listing (Some 9%N) (Some 1%N) 8%N one_car_session
    = (HTTPException 404 "Car not found.", one_car_session) /\
  get_car (Some 9%N) 8%N one_car_session
    = (HTTPException 404 "Car not found", one_car_session) /\
  delete_car (Some 9%N) 8%N one_car_session
    = (HTTPException 404 "Car not found", one_car_session).
Proof.
  apply (@foreign_car_is_not_found one_car_session 8%N 9%N 1%N 2%N
           (ListingCreate.mk 9%N 100%float None)).
  - intros (c & [<-|[]] & _ & Hu). discriminate.
  - reflexivity.
Defined.

(** ** What a request that writes can do *)

Lemma create_listing_cases (car_id : option uuid) (listing_data : ListingCreate.t)
      (current_user new_id : uuid) (db : Session) :
  (exists car_uuid,
      car_id = Some car_uuid /\
      ListingCreate.car_id listing_data = car_uuid /\
      owns db current_user car_uuid /\
      create_listing_for_car car_id listing_data current_user new_id db
      = (Returned (Listing.mk new_id current_user car_uuid
                              (ListingCreate.price listing_data)
                              (ListingCreate.mileage listing_data)),
         mkSession (cars db)
                   (listings db ++
                    [Listing.mk new_id current_user car_uuid
                                (ListingCreate.price listing_data)
                                (ListingCreate.mileage listing_data)]))) \/
  (exists status_code detail,
      create_listing_for_car car_id listing_data current_user new_id db
      = (HTTPException status_code detail, db)).
Proof.
  unfold create_listing_for_car.
  destruct car_id as [car_uuid|]; [|right; now do 2 eexists].
  destruct (N.eqb_spec (ListingCreate.car_id listing_data) car_uuid) as [He|He];
    cbn [negb]; [|right; now do 2 eexists].
  unfold hbind, query_first_car, hraise, add_listing.
  destruct (find _ (cars db)) as [c|] eqn:E; [|right; now do 2 eexists].
  left. exists car_uuid. repeat split; try assumption.
  exists c. now apply find_car_some.
Qed.

Lemma find_listing_cases (car_id listing_id : option uuid) (current_user : uuid)
      (db : Session) :
  (exists car_uuid listing_uuid row,
      car_id = Some car_uuid /\ listing_id = Some listing_uuid /\
      owns db current_user car_uuid /\
      In row (listings db) /\ Listing.id row = listing_uuid /\
      Listing.car_id row = car_uuid /\ Listing.user_id row = current_user /\
      find_listing car_id listing_id current_user db = (Returned row, db)) \/
  (exists status_code detail,
      find_listing car_id listing_id current_user db
      = (HTTPException status_code detail, db)).
Proof.
  unfold find_listing.
  destruct car_id as [car_uuid|]; [|right; now do 2 eexists].
  destruct listing_id as [listing_uuid|]; [|right; now do 2 eexists].
  unfold hbind, query_first_car, query_first_listing, hraise.
  destruct (find _ (cars db)) as [c|] eqn:E; [|right; now do 2 eexists].
  destruct (find _ (listings db)) as [row|] eqn:El; [|right; now do 2 eexists].
  left. exists car_uuid, listing_uuid, row.
  apply find_some in El. destruct El as [Hin Hp].
  apply andb_prop in Hp. destruct Hp as [Hp Hu].
  apply andb_prop in Hp. destruct Hp as [Hi Hc].
  apply N.eqb_eq in Hi, Hc, Hu.
  repeat split; try assumption.
  exists c. now apply find_car_some.
Qed.

Lemma delete_listing_cases (car_id listing_id : option uuid) (current_user : uuid)
      (db : Session) :
  (exists car_uuid listing_uuid row,
      car_id = Some car_uuid /\ listing_id = Some listing_uuid /\
      owns db current_user car_uuid /\
      In row (listings db) /\ Listing.id row = listing_uuid /\
      Listing.car_id row = car_uuid /\ Listing.user_id row = current_user /\
      delete_listing car_id listing_id current_user db
      = (Returned tt,
         mkSession (cars db)
                   (filter (fun l => negb (Listing.id l =? listing_uuid)%N)
                           (listings db)))) \/
  (exists status_code detail,
      delete_listing car_id listing_id current_user db
      = (HTTPException status_code detail, db)).
Proof.
  unfold delete_listing, hbind.
  destruct (find_listing_cases car_id listing_id current_user db)
    as [(c & i & row & Hc & Hi & Ho & Hin & Hid & Hcar & Hu & Hrun)
       |(code & d & Hrun)]; rewrite Hrun.
  - left. exists c, i, row. repeat split; try assumption.
    unfold delete_listing_row. now rewrite Hid.
  - right. now do 2 eexists.
Qed.

Lemma delete_car_cases (car_id : option uuid) (current_user : uuid) (db : Session) :
  (exists car_uuid,
      car_id = Some car_uuid /\ owns db current_user car_uuid /\
      delete_car car_id current_user db
      = (Returned tt,
         mkSession (filter (fun c => negb (Car.id c =? car_uuid)%N) (cars db))
                   (filter (fun l => negb (Listing.car_id l =? car_uuid)%N)
                           (listings db)))) \/
  (exists status_code detail,
      delete_car car_id current_user db = (HTTPException status_code detail, db)).
Proof.
  unfold delete_car.
  destruct car_id as [car_uuid|]; [|right; now do 2 eexists].
  unfold hbind, query_first_car, hraise, delete_car_row.
  destruct (find _ (cars db)) as [c|] eqn:E; [|right; now do 2 eexists].
  left. exists car_uuid. destruct (find_car_some _ _ _ E) as (Hin & Hid & Hu).
  repeat split; [exists c; auto | now rewrite Hid].
Qed.



(** ** The tables stay consistent *)

Lemma NoDup_map_filter (A B : Type) (f : A -> B) (p : A -> bool) (xs : list A) :
  NoDup (map f xs) -> NoDup (map f (filter p xs)).
Proof.
  induction xs as [|x r IH]; cbn; [auto|]. intros H.
  inversion H as [|y ys Hnin Hnd]; subst.
  destruct (p x); cbn; [|auto]. constructor; [|auto].
  intros Hin. apply Hnin. apply in_map_iff in Hin.
  destruct Hin as (z & Hz & Hzin). apply filter_In in Hzin.
  apply in_map_iff. exists z. tauto.
Qed.

Lemma NoDup_map_snoc (A B : Type) (f : A -> B) (xs : list A) (x : A) :
  NoDup (map f xs) -> ~ In (f x) (map f xs) -> NoDup (map f (xs ++ [x])).
Proof.
  intros Hnd Hnin. rewrite map_app. cbn.
  apply NoDup_app; [assumption | repeat constructor; intros [] |].
  intros y Hy [<-|[]]. contradiction.
Qed.

(** X3: every handler that writes takes consistent tables to consistent
    tables, provided the ids drawn for new rows are not in use. *)
Theorem handlers_keep_tables_consistent
        (car_id listing_id : option uuid) (current_user : uuid)
        (new_listing_id new_car_id : uuid)
        (listing_data : ListingCreate.t) (db : Session) :
  consistent db ->
  ~ In new_listing_id (map Listing.id (listings db)) ->
  ~ In new_car_id (map Car.id (cars db)) ->
  consistent (snd (create_listing_for_car car_id listing_data current_user
                                          new_listing_id db)) /\
  consistent (snd (delete_listing car_id listing_id current_user db)) /\
  consistent (snd (delete_car car_id current_user db)) /\
  consistent (snd (create_car current_user new_car_id db)).
Proof.
  intros (Hcars & Hlistings & Hrefs) Hfresh_l Hfresh_c.
  assert (consistent db) as Hdb by (repeat split; assumption).
  split; [|split; [|split]].
  - destruct (create_listing_cases car_id listing_data current_user
                                   new_listing_id db)
      as [(c & _ & _ & (car & Hin & Hid & Hu) & Hrun)|(code & d & Hrun)];
      rewrite Hrun; cbn [snd]; [|exact Hdb].
    split; [exact Hcars|]. split.
    + cbn [listings]. apply NoDup_map_snoc; assumption.
    + cbn [listings cars]. intros l Hl. apply in_app_or in Hl.
      destruct Hl as [Hl|[<-|[]]]; [now apply Hrefs|].
      exists car. cbn. auto.
  - destruct (delete_listing_cases car_id listing_id current_user db)
      as [(c & i & row & _ & _ & _ & _ & _ & _ & _ & Hrun)|(code & d & Hrun)];
      rewrite Hrun; cbn [snd]; [|exact Hdb].
    split; [exact Hcars|]. split.
    + cbn [listings]. now apply NoDup_map_filter.
    + cbn [listings cars]. intros l Hl. apply filter_In in Hl. now apply Hrefs.
  - destruct (delete_car_cases car_id current_user db)
      as [(c & _ & _ & Hrun)|(code & d & Hrun)];
      rewrite Hrun; cbn [snd]; [|exact Hdb].
    split; [cbn [cars]; now apply NoDup_map_filter|]. split.
    + cbn [listings]. now apply NoDup_map_filter.
    + cbn [listings cars]. intros l Hl. apply filter_In in Hl.
      destruct Hl as [Hl Hne]. destruct (Hrefs l Hl) as (car & Hin & Hid & Hu).
      exists car. repeat split; try assumption.
      apply filter_In. split; [assumption|]. now rewrite Hid.
  - unfold create_car, add_car. cbn [snd]. split.
    + cbn [cars]. apply NoDup_map_snoc; assumption.
    + split; [exact Hlistings|]. cbn [listings cars]. intros l Hl.
      destruct (Hrefs l Hl) as (car & Hin & Hid & Hu).
      exists car. repeat split; try assumption. apply in_or_app. now left.
Qed.

Lemma one_car_session_consistent : consistent one_car_session.
Proof.
  repeat split.
  - repeat constructor. intros [].
  - repeat constructor. intros [].
  - intros l [<-|[]]. exists (Car.mk 9%N 7%N). repeat split. now left.
Qed.

(** The theorem at the session with one car and one listing, for a
    request of the owner and the new ids 2 and 10. *)
Lemma handlers_keep_tables_consistent_witness :
  consistent (snd (create_listing_for_car
                     (Some 9%N) (ListingCreate.mk 9%N 100%float None) 7%N 2%N
                     one_car_session)) /\
  consistent (snd (delete_listing (Some 9%N) (Some 1%N) 7%N one_car_session)) /\
  consistent (snd (delete_car (Some 9%N) 7%N one_car_session)) /\
  consistent (snd (create_car 7%N 10%N one_car_session)).
Proof.
  apply (@handlers_keep_tables_consistent
           (Some 9%N) (Some 1%N) 7%N 2%N 10%N
           (ListingCreate.mk 9%N 100%float None) one_car_session).
  - exact one_car_session_consistent.
  - cbn. intros [H|[]]. discriminate.
  - cbn. intros [H|[]]. discriminate.
Defined.

(** ** Creating, reading and deleting *)

Lemma compare_total_count (rows : list Listing.t) :
  exists s, compare rows = Py.Ok s /\ count s = Py.len rows.
Proof.
  destruct rows as [|l0 rest].
  - eexists. split; reflexivity.
  - destruct (@compare_nonempty (l0 :: rest)) as (lo & hi & best & _ & _ & _ & Hrun);
      [discriminate|].
    eexists. split; [exact Hrun | reflexivity].
Qed.

(** The statistics of a car of the user: the computation over the
    listings of that car, which never raises. *)
Lemma compare_car_listings_owned (db : Session) (current_user car_uuid : uuid) :
  owns db current_user car_uuid ->
  exists s,
    compare_car_listings (Some car_uuid) current_user db = (Returned s, db) /\
    compare (filter (fun l => (Listing.car_id l =? car_uuid)%N) (listings db))
    = Py.Ok s /\
    count s
    = Py.len (filter (fun l => (Listing.car_id l =? car_uuid)%N) (listings db)).
Proof.
  intros Ho. destruct (find_car_owns Ho) as (c & Hf).
  destruct (compare_total_count
              (filter (fun l => (Listing.car_id l =? car_uuid)%N) (listings db)))
    as (s & Hrun & Hcount).
  exists s. split; [|split; assumption].
  unfold compare_car_listings, hbind, query_first_car, query_all_listings, hlift.
  now rewrite Hf, Hrun.
Qed.

(** X4: after a listing is created for a car, the statistics of that car
    count one listing more, and the statistics of every other car are
    what they were. *)
Theorem create_listing_adds_one_to_count
        (car_id : option uuid) (listing_data : ListingCreate.t)
        (current_user new_id : uuid) (db db' : Session) (row : Listing.t) :
  create_listing_for_car car_id listing_data current_user new_id db
  = (Returned row, db') ->
  exists car_uuid s s',
    car_id = Some car_uuid /\
    compare_car_listings car_id current_user db = (Returned s, db) /\
    compare_car_listings car_id current_user db' = (Returned s', db') /\
    (count s' = count s + 1)%Z /\
    forall other_car other_user,
      other_car <> car_uuid ->
      fst (compare_car_listings (Some other_car) other_user db')
      = fst (compare_car_listings (Some other_car) other_user db).
Proof.
  intros Hrun.
  destruct (create_listing_cases car_id listing_data current_user new_id db)
    as [(c & -> & Hbody & Ho & Hrun')|(code & d & Hrun')];
    rewrite Hrun' in Hrun; [|discriminate].
  injection Hrun as <- <-.
  destruct (compare_car_listings_owned Ho) as (s & Hs & _ & Hcount).
  match goal with
  | |- context [mkSession (cars db) ?ls] => set (db' := mkSession (cars db) ls)
  end.
  assert (owns db' current_user c) as Ho' by exact Ho.
  destruct (compare_car_listings_owned Ho') as (s' & Hs' & _ & Hcount').
  exists c, s, s'. repeat split; try assumption.
  - rewrite Hcount, Hcount'. unfold db'. cbn [listings].
    rewrite filter_app. cbn [filter Listing.car_id]. rewrite N.eqb_refl.
    unfold Py.len. rewrite length_app. cbn [List.length]. lia.
  - intros c' u' Hne. apply response_depends_on_car_listings; [reflexivity|].
    unfold db'. cbn [listings]. rewrite filter_app. cbn [filter Listing.car_id].
    destruct (N.eqb_spec c c'); [congruence|]. now rewrite app_nil_r.
Qed.

Lemma create_listing_adds_one_to_count_witness :
  exists car_uuid s s',
    Some 9%N = Some car_uuid /\
    compare_car_listings (Some 9%N) 7%N one_car_session
    = (Returned s, one_car_session) /\
    compare_car_listings
      (Some 9%N) 7%N
      (mkSession (cars one_car_session)
                 (listings one_car_session ++ [create_test_listing 2 100 None]))
    = (Returned s',
       mkSession (cars one_car_session)
                 (listings one_car_session ++ [create_test_listing 2 100 None])) /\
    (count s' = count s + 1)%Z /\
    forall other_car other_user,
      other_car <> car_uuid ->
      fst (compare_car_listings
             (Some other_car) other_user
             (mkSession (cars one_car_session)
                        (listings one_car_session
                         ++ [create_test_listing 2 100 None])))
      = fst (compare_car_listings (Some other_car) other_user one_car_session).
Proof.
  apply (@create_listing_adds_one_to_count
           (Some 9%N) (ListingCreate.mk 9%N 100%float None) 7%N 2%N
           one_car_session _ (create_test_listing 2 100 None)).
  reflexivity.
Defined.

(** X5: a listing that was created can be read back: with an id that was
    not in use, [get_listing] returns the created row, and
    [list_listings_for_car] returns the earlier listings of the car and
    the new row, in an order the theorem leaves open (the query has no
    [ORDER BY]). *)
Theorem created_listing_can_be_read
        (car_id : option uuid) (listing_data : ListingCreate.t)
        (current_user new_id : uuid) (db db' : Session) (row : Listing.t) :
  ~ In new_id (map Listing.id (listings db)) ->
  create_listing_for_car car_id listing_data current_user new_id db
  = (Returned row, db') ->
  get_listing car_id (Some new_id) current_user db' = (Returned row, db') /\
  Listing.price row = ListingCreate.price listing_data /\
  Listing.mileage row = ListingCreate.mileage listing_data /\
  exists earlier later,
    list_listings_for_car car_id current_user db = (Returned earlier, db) /\
    list_listings_for_car car_id current_user db' = (Returned later, db') /\
    Permutation later (row :: earlier).
Proof.
  intros Hfresh Hrun.
  destruct (create_listing_cases car_id listing_data current_user new_id db)
    as [(c & -> & Hbody & Ho & Hrun')|(code & d & Hrun')];
    rewrite Hrun' in Hrun; [|discriminate].
  injection Hrun as <- <-.
  destruct (find_car_owns Ho) as (car & Hf).
  split; [|split; [reflexivity|split; [reflexivity|]]].
  - unfold get_listing, find_listing, hbind, query_first_car, query_first_listing.
    cbn [cars listings fst snd]. rewrite Hf.
    assert (find (fun l => (Listing.id l =? new_id)%N
                           && (Listing.car_id l =? c)%N
                           && (Listing.user_id l =? current_user)%N)
                 (listings db) = None) as Hnone.
    { destruct (find _ (listings db)) as [l|] eqn:E; [|reflexivity].
      apply find_some in E. destruct E as [Hin Hp].
      apply andb_prop in Hp. destruct Hp as [Hp _].
      apply andb_prop in Hp. destruct Hp as [Hi _]. apply N.eqb_eq in Hi.
      exfalso. apply Hfresh. rewrite <- Hi. now apply in_map. }
    assert (forall (p : Listing.t -> bool) xs x,
               find p xs = None -> p x = true -> find p (xs ++ [x]) = Some x)
      as Hsnoc.
    { intros p xs x. induction xs as [|y r IH]; cbn; intros Hn Hp.
      - now rewrite Hp.
      - destruct (p y); [discriminate | now apply IH]. }
    cbn [listings]. rewrite (Hsnoc _ _ _ Hnone); [reflexivity|].
    cbn. now rewrite !N.eqb_refl.
  - do 2 eexists. unfold list_listings_for_car, hbind, query_first_car,
      query_all_listings. cbn [cars listings]. rewrite Hf.
    split; [reflexivity|]. cbn [listings]. rewrite filter_app.
    cbn [filter Listing.car_id]. rewrite N.eqb_refl.
    split; [reflexivity|]. apply Permutation_sym, Permutation_cons_append.
Qed.

Lemma created_listing_can_be_read_witness :
  get_listing (Some 9%N) (Some 2%N) 7%N
              (mkSession (cars one_car_session)
                         (listings one_car_session
                          ++ [create_test_listing 2 100 None]))
  = (Returned (create_test_listing 2 100 None),
     mkSession (cars one_car_session)
               (listings one_car_session ++ [create_test_listing 2 100 None])) /\
  Listing.price (create_test_listing 2 100 None) = 100%float /\
  Listing.mileage (create_test_listing 2 100 None) = None /\
  exists earlier later,
    list_listings_for_car (Some 9%N) 7%N one_car_session
    = (Returned earlier, one_car_session) /\
    list_listings_for_car
      (Some 9%N) 7%N
      (mkSession (cars one_car_session)
                 (listings one_car_session ++ [create_test_listing 2 100 None]))
    = (Returned later,
       mkSession (cars one_car_session)
                 (listings one_car_session ++ [create_test_listing 2 100 None])) /\
    Permutation later (create_test_listing 2 100 None :: earlier).
Proof.
  apply (@created_listing_can_be_read
           (Some 9%N) (ListingCreate.mk 9%N 100%float None) 7%N 2%N
           one_car_session _ (create_test_listing 2 100 None)).
  - cbn. intros [H|[]]. discriminate.
  - reflexivity.
Defined.

Lemma filter_all (A : Type) (p : A -> bool) (xs : list A) :
  (forall x, In x xs -> p x = true) -> filter p xs = xs.
Proof.
  induction xs as [|x r IH]; cbn; intros H; [reflexivity|].
  rewrite (H x) by now left. f_equal. apply IH. intros y Hy. apply H. now right.
Qed.

Lemma filter_without_row (p : Listing.t -> bool) (row : Listing.t)
      (rows : list Listing.t) :
  NoDup (map Listing.id rows) -> In row rows -> p row = true ->
  S (List.length
       (filter p (filter (fun l => negb (Listing.id l =? Listing.id row)%N) rows)))
  = List.length (filter p rows).
Proof.
  induction rows as [|x r IH]; [intros _ []|].
  intros Hnd Hin Hp. inversion Hnd as [|y ys Hnin Hnd']; subst.
  destruct Hin as [->|Hin].
  - cbn [filter]. rewrite N.eqb_refl, Hp. cbn [negb List.length]. f_equal.
    assert (filter (fun l => negb (Listing.id l =? Listing.id row)%N) r = r)
      as ->; [|reflexivity].
    apply filter_all.
    intros l Hl. apply negb_true_iff, N.eqb_neq. intros He.
    apply Hnin. rewrite <- He. now apply in_map.
  - assert (Listing.id x <> Listing.id row) as Hne.
    { intros He. apply Hnin. rewrite He. now apply in_map. }
    cbn [filter]. apply N.eqb_neq in Hne. rewrite Hne. cbn [negb filter].
    destruct (p x); cbn [List.length]; rewrite <- (IH Hnd' Hin Hp); reflexivity.
Qed.

Lemma find_filter (A : Type) (p q : A -> bool) (xs : list A) :
  (forall x, p x = true -> q x = true) -> find p (filter q xs) = find p xs.
Proof.
  intros H. induction xs as [|x r IH]; cbn; [reflexivity|].
  destruct (q x) eqn:Eq; cbn.
  - now rewrite IH.
  - destruct (p x) eqn:Ep; [|exact IH]. rewrite (H x Ep) in Eq. discriminate.
Qed.

Lemma filter_filter_implied (A : Type) (p q : A -> bool) (xs : list A) :
  (forall x, p x = true -> q x = true) -> filter p (filter q xs) = filter p xs.
Proof.
  intros H. induction xs as [|x r IH]; cbn; [reflexivity|].
  destruct (q x) eqn:Eq; cbn.
  - now rewrite IH.
  - destruct (p x) eqn:Ep; [|exact IH]. rewrite (H x Ep) in Eq. discriminate.
Qed.

(** X6: a deleted listing is gone, and nothing else is: the request
    succeeds only for a listing of the user's car, the other rows stay,
    reading the listing again gives 404, and, ids being unique, the
    statistics of the car count one listing less. *)
Theorem deleted_listing_is_gone
        (car_id listing_id : option uuid) (current_user : uuid)
        (db db' : Session) :
  delete_listing car_id listing_id current_user db = (Returned tt, db') ->
  exists car_uuid listing_uuid row,
    car_id = Some car_uuid /\ listing_id = Some listing_uuid /\
    In row (listings db) /\ Listing.id row = listing_uuid /\
    Listing.car_id row = car_uuid /\ Listing.user_id row = current_user /\
    cars db' = cars db /\
    (forall l, In l (listings db') <->
               In l (listings db) /\ Listing.id l <> listing_uuid) /\
    get_listing car_id listing_id current_user db'
    = (HTTPException 404 "Listing not found.", db') /\
    (NoDup (map Listing.id (listings db)) ->
     exists s s',
       compare_car_listings car_id current_user db = (Returned s, db) /\
       compare_car_listings car_id current_user db' = (Returned s', db') /\
       (count s = count s' + 1)%Z).
Proof.
  intros Hrun.
  destruct (delete_listing_cases car_id listing_id current_user db)
    as [(c & i & row & -> & -> & Ho & Hin & Hid & Hcar & Hu & Hrun')
       |(code & d & Hrun')]; rewrite Hrun' in Hrun; [|discriminate].
  injection Hrun as <-.
  exists c, i, row. repeat split; try assumption.
  - cbn [listings] in H. apply filter_In in H. tauto.
  - cbn [listings] in H. apply filter_In in H. destruct H as [_ H].
    apply negb_true_iff, N.eqb_neq in H. exact H.
  - intros [Hl Hne]. cbn [listings]. apply filter_In. split; [assumption|].
    now apply negb_true_iff, N.eqb_neq.
  - destruct (find_car_owns Ho) as (car & Hf).
    unfold get_listing, find_listing, hbind, query_first_car, query_first_listing.
    cbn [cars listings fst snd]. rewrite Hf. cbn [listings].
    destruct (find _ (filter _ (listings db))) as [l|] eqn:E; [|reflexivity].
    exfalso. apply find_some in E. destruct E as [Hl Hp].
    apply filter_In in Hl. destruct Hl as [_ Hne].
    apply andb_prop in Hp. destruct Hp as [Hp _].
    apply andb_prop in Hp. destruct Hp as [Hi _].
    rewrite Hi in Hne. discriminate.
  - intros Hnd.
    destruct (compare_car_listings_owned Ho) as (s & Hs & _ & Hcount).
    match goal with
    | |- context [mkSession (cars db) ?ls] => set (db' := mkSession (cars db) ls)
    end.
    assert (owns db' current_user c) as Ho' by exact Ho.
    destruct (compare_car_listings_owned Ho') as (s' & Hs' & _ & Hcount').
    exists s, s'. repeat split; try assumption.
    rewrite Hcount, Hcount'. unfold db', Py.len. cbn [listings].
    rewrite <- Hid.
    rewrite <- (@filter_without_row
                  (fun l => (Listing.car_id l =? c)%N) row (listings db) Hnd Hin)
      by (now apply N.eqb_eq).
    lia.
Qed.

Lemma deleted_listing_is_gone_witness :
  exists car_uuid listing_uuid row,
    Some 9%N = Some car_uuid /\ Some 1%N = Some listing_uuid /\
    In row (listings one_car_session) /\ Listing.id row = listing_uuid /\
    Listing.car_id row = car_uuid /\ Listing.user_id row = 7%N /\
    cars (mkSession (cars one_car_session) []) = cars one_car_session /\
    (forall l, In l (listings (mkSession (cars one_car_session) [])) <->
               In l (listings one_car_session) /\ Listing.id l <> listing_uuid) /\
    get_listing (Some 9%N) (Some 1%N) 7%N (mkSession (cars one_car_session) [])
    = (HTTPException 404 "Listing not found.",
       mkSession (cars one_car_session) []) /\
    (NoDup (map Listing.id (listings one_car_session)) ->
     exists s s',
       compare_car_listings (Some 9%N) 7%N one_car_session
       = (Returned s, one_car_session) /\
       compare_car_listings (Some 9%N) 7%N (mkSession (cars one_car_session) [])
       = (Returned s', mkSession (cars one_car_session) []) /\
       (count s = count s' + 1)%Z).
Proof.
  apply (@deleted_listing_is_gone (Some 9%N) (Some 1%N) 7%N one_car_session
                                  (mkSession (cars one_car_session) [])).
  reflexivity.
Defined.

(** X7: a deleted car takes its listings with it and nothing else: the
    request succeeds only for a car of the user; afterwards no listing
    of that car and no car with that id is left, every other row is
    still there, every request for the car gets 404, and the statistics
    of every other car are what they were. *)
Theorem deleted_car_takes_its_listings
        (car_id : option uuid) (current_user : uuid) (db db' : Session) :
  delete_car car_id current_user db = (Returned tt, db') ->
  exists car_uuid,
    car_id = Some car_uuid /\ owns db current_user car_uuid /\
    (forall l, In l (listings db') <->
               In l (listings db) /\ Listing.car_id l <> car_uuid) /\
    (forall c, In c (cars db') <-> In c (cars db) /\ Car.id c <> car_uuid) /\
    (forall any_user,
        compare_car_listings car_id any_user db'
        = (HTTPException 404 "Car not found.", db') /\
        list_listings_for_car car_id any_user db'
        = (HTTPException 404 "Car not found.", db')) /\
    (forall other_car other_user,
        other_car <> car_uuid ->
        fst (compare_car_listings (Some other_car) other_user db')
        = fst (compare_car_listings (Some other_car) other_user db)).
Proof.
  intros Hrun.
  destruct (delete_car_cases car_id current_user db)
    as [(c & -> & Ho & Hrun')|(code & d & Hrun')];
    rewrite Hrun' in Hrun; [|discriminate].
  injection Hrun as <-.
  exists c. split; [reflexivity|]. split; [exact Ho|].
  assert (forall c', In c' (filter (fun x => negb (Car.id x =? c)%N) (cars db)) <->
                     In c' (cars db) /\ Car.id c' <> c) as Hcars.
  { intros c'. rewrite filter_In, negb_true_iff, N.eqb_neq. tauto. }
  split; [|split; [exact Hcars|split]].
  - intros l. cbn [listings]. rewrite filter_In, negb_true_iff, N.eqb_neq. tauto.
  - intros u'.
    assert (~ owns (mkSession (filter (fun x => negb (Car.id x =? c)%N) (cars db))
                              (filter (fun l => negb (Listing.car_id l =? c)%N)
                                      (listings db))) u' c) as Hn.
    { intros (x & Hx & Hid & _). cbn [cars] in Hx. apply Hcars in Hx. tauto. }
    pose proof (find_car_not_owned Hn) as Hf.
    unfold compare_car_listings, list_listings_for_car, hbind, query_first_car, hraise.
    rewrite Hf. split; reflexivity.
  - intros c' u' Hne.
    unfold compare_car_listings, hbind, query_first_car, query_all_listings,
      hraise, hlift.
    cbn [cars listings fst snd].
    rewrite find_filter.
    2:{ intros x Hx. apply andb_prop in Hx. destruct Hx as [Hx _].
        apply N.eqb_eq in Hx. apply negb_true_iff, N.eqb_neq. congruence. }
    destruct (find _ (cars db)); [|reflexivity]. cbn [listings].
    rewrite filter_filter_implied.
    2:{ intros x Hx. apply N.eqb_eq in Hx. apply negb_true_iff, N.eqb_neq. congruence. }
    destruct (compare _); reflexivity.
Qed.

(** Two cars of user 7, each with one listing. *)
Definition two_car_session : Session :=
  mkSession [Car.mk 9%N 7%N; Car.mk 10%N 7%N]
            [Listing.mk 1%N 7%N 9%N 25000%float (Some 50000%Z);
             Listing.mk 2%N 7%N 10%N 18000%float None].

Lemma deleted_car_takes_its_listings_witness :
  exists car_uuid,
    Some 9%N = Some car_uuid /\ owns two_car_session 7%N car_uuid /\
    (forall l, In l (listings (snd (delete_car (Some 9%N) 7%N two_car_session))) <->
               In l (listings two_car_session) /\ Listing.car_id l <> car_uuid) /\
    (forall c, In c (cars (snd (delete_car (Some 9%N) 7%N two_car_session))) <->
               In c (cars two_car_session) /\ Car.id c <> car_uuid) /\
    (forall any_user,
        compare_car_listings (Some 9%N) any_user
                             (snd (delete_car (Some 9%N) 7%N two_car_session))
        = (HTTPException 404 "Car not found.",
           snd (delete_car (Some 9%N) 7%N two_car_session)) /\
        list_listings_for_car (Some 9%N) any_user
                              (snd (delete_car (Some 9%N) 7%N two_car_session))
        = (HTTPException 404 "Car not found.",
           snd (delete_car (Some 9%N) 7%N two_car_session))) /\
    (forall other_car other_user,
        other_car <> car_uuid ->
        fst (compare_car_listings
               (Some other_car) other_user
               (snd (delete_car (Some 9%N) 7%N two_car_session)))
        = fst (compare_car_listings (Some other_car) other_user two_car_session)).
Proof.
  apply (@deleted_car_takes_its_listings (Some 9%N) 7%N two_car_session).
  reflexivity.
Defined.

(* ================================================================== *)
(** * A new car *)
(* ================================================================== *)

Lemma find_snoc (A : Type) (p : A -> bool) (xs : list A) (x : A) :
  find p xs = None -> p x = true -> find p (xs ++ [x]) = Some x.
Proof.
  induction xs as [|y r IH]; cbn; intros Hn Hp.
  - now rewrite Hp.
  - destruct (p y); [discriminate | now apply IH].
Qed.

Lemma filter_none (A : Type) (p : A -> bool) (xs : list A) :
  (forall x, In x xs -> p x = false) -> filter p xs = [].
Proof.
  induction xs as [|y r IH]; cbn; intros H; [reflexivity|].
  rewrite (H y) by now left. apply IH. intros x Hx. apply H. now right.
Qed.

(** X8: a car that was created with an id not in use is the user's and has
    no listings: [get_car] returns it, [get_user_cars] returns the
    user's earlier cars and the new one, in an order the theorem leaves
    open (the query has no [ORDER BY]), its list of listings is empty
    and its statistics are those of no listings.  Every other user
    gets 404 for it. *)
Theorem created_car_starts_empty (current_user new_id : uuid)
        (db db' : Session) (car : Car.t) :
  consistent db -> ~ In new_id (map Car.id (cars db)) ->
  create_car current_user new_id db = (Returned car, db') ->
  Car.id car = new_id /\ Car.user_id car = current_user /\
  listings db' = listings db /\
  get_car (Some new_id) current_user db' = (Returned car, db') /\
  (exists earlier later,
      get_user_cars current_user db = (Returned earlier, db) /\
      get_user_cars current_user db' = (Returned later, db') /\
      Permutation later (car :: earlier)) /\
  list_listings_for_car (Some new_id) current_user db' = (Returned [], db') /\
  compare_car_listings (Some new_id) current_user db'
  = (Returned (mkStats 0 None None None None None), db') /\
  forall other_user,
    other_user <> current_user ->
    get_car (Some new_id) other_user db'
    = (HTTPException 404 "Car not found", db').
Proof.
  intros (_ & _ & Hcars) Hfresh Hrun.
  unfold create_car, add_car in Hrun. injection Hrun as <- <-.
  assert (forall u, find (fun c => (Car.id c =? new_id)%N
                                   && (Car.user_id c =? u)%N) (cars db) = None)
    as Hnone.
  { intros u. destruct (find _ (cars db)) as [c|] eqn:E; [|reflexivity].
    apply find_car_some in E. destruct E as (Hin & Hid & _).
    exfalso. apply Hfresh. rewrite <- Hid. now apply in_map. }
  assert (find (fun c => (Car.id c =? new_id)%N
                         && (Car.user_id c =? current_user)%N)
               (cars db ++ [Car.mk new_id current_user])
          = Some (Car.mk new_id current_user)) as Hf.
  { apply find_snoc; [apply Hnone|]. cbn. now rewrite !N.eqb_refl. }
  assert (filter (fun l => (Listing.car_id l =? new_id)%N) (listings db) = [])
    as Hrows.
  { apply filter_none. intros l Hl. destruct (Hcars l Hl) as (c & Hin & Hid & _).
    apply N.eqb_neq. intros E. apply Hfresh. rewrite <- E, <- Hid.
    now apply in_map. }
  split; [reflexivity|]. split; [reflexivity|]. split; [reflexivity|].
  split.
  { unfold get_car, hbind, query_first_car. cbn [cars]. now rewrite Hf. }
  split.
  { do 2 eexists. unfold get_user_cars, query_all_cars.
    split; [reflexivity|].
    cbn [cars]. rewrite filter_app. cbn [filter Car.user_id].
    rewrite N.eqb_refl. split; [reflexivity|].
    apply Permutation_sym, Permutation_cons_append. }
  split.
  { unfold list_listings_for_car, hbind, query_first_car, query_all_listings.
    cbn [cars listings]. rewrite Hf. cbn [listings]. now rewrite Hrows. }
  split.
  { unfold compare_car_listings, hbind, query_first_car, query_all_listings,
      hlift. cbn [cars listings]. rewrite Hf. cbn [listings].
    now rewrite Hrows. }
  intros other Hother.
  unfold get_car, hbind, query_first_car. cbn [cars].
  set (q := fun c : Car.t => (Car.id c =? new_id)%N
                             && (Car.user_id c =? other)%N).
  destruct (find q (cars db ++ [Car.mk new_id current_user])) as [c|] eqn:E;
    [|reflexivity].
  exfalso. apply find_some in E. destruct E as [Hin Hp]. unfold q in Hp.
  apply andb_prop in Hp. destruct Hp as [Hid Hu].
  apply N.eqb_eq in Hid, Hu. apply in_app_or in Hin.
  destruct Hin as [Hin|[<-|[]]].
  - apply Hfresh. rewrite <- Hid. now apply in_map.
  - cbn in Hu. congruence.
Qed.

(** The theorem for a second car of user 7 in [one_car_session]. *)
Lemma created_car_starts_empty_witness :
  Car.id (Car.mk 10%N 7%N) = 10%N /\ Car.user_id (Car.mk 10%N 7%N) = 7%N /\
  listings (mkSession (cars one_car_session ++ [Car.mk 10%N 7%N])
                      (listings one_car_session))
  = listings one_car_session /\
  get_car (Some 10%N) 7%N
          (mkSession (cars one_car_session ++ [Car.mk 10%N 7%N])
                     (listings one_car_session))
  = (Returned (Car.mk 10%N 7%N),
     mkSession (cars one_car_session ++ [Car.mk 10%N 7%N])
               (listings one_car_session)) /\
  (exists earlier later,
      get_user_cars 7%N one_car_session = (Returned earlier, one_car_session) /\
      get_user_cars 7%N
                    (mkSession (cars one_car_session ++ [Car.mk 10%N 7%N])
                               (listings one_car_session))
      = (Returned later,
         mkSession (cars one_car_session ++ [Car.mk 10%N 7%N])
                   (listings one_car_session)) /\
      Permutation later (Car.mk 10%N 7%N :: earlier)) /\
  list_listings_for_car (Some 10%N) 7%N
                        (mkSession (cars one_car_session ++ [Car.mk 10%N 7%N])
                                   (listings one_car_session))
  = (Returned [],
     mkSession (cars one_car_session ++ [Car.mk 10%N 7%N])
               (listings one_car_session)) /\
  compare_car_listings (Some 10%N) 7%N
                       (mkSession (cars one_car_session ++ [Car.mk 10%N 7%N])
                                  (listings one_car_session))
  = (Returned (mkStats 0 None None None None None),
     mkSession (cars one_car_session ++ [Car.mk 10%N 7%N])
               (listings one_car_session)) /\
  forall other_user,
    other_user <> 7%N ->
    get_car (Some 10%N) other_user
            (mkSession (cars one_car_session ++ [Car.mk 10%N 7%N])
                       (listings one_car_session))
    = (HTTPException 404 "Car not found",
       mkSession (cars one_car_session ++ [Car.mk 10%N 7%N])
                 (listings one_car_session)).
Proof.
  apply (@created_car_starts_empty 7%N 10%N one_car_session).
  - exact one_car_session_consistent.
  - cbn. intros [H|[]]. discriminate.
  - reflexivity.
Defined.

(* ================================================================== *)
(** * The test helper against the endpoint *)
(* ================================================================== *)

(** X9: the helper of the integration tests computes what the endpoint
    computes in every field but the best deal: for every list both
    return, with the same count, the same minimum, maximum and average
    price and the same average price per mile. *)
Theorem helper_agrees_with_endpoint_up_to_best_deal (rows : list Listing.t) :
  exists s_endpoint s_helper,
    compare rows = Py.Ok s_endpoint /\
    compute_comparison_stats rows = Py.Ok s_helper /\
    count s_helper = count s_endpoint /\
    min_price s_helper = min_price s_endpoint /\
    max_price s_helper = max_price s_endpoint /\
    avg_price s_helper = avg_price s_endpoint /\
    avg_price_per_mile s_helper = avg_price_per_mile s_endpoint /\
    (best_deal_listing_id s_endpoint = None <-> rows = []) /\
    (best_deal_listing_id s_helper = None <-> filter has_mileage rows = []).
Proof.
  destruct rows as [|l0 rest].
  - do 2 eexists. repeat split; reflexivity.
  - destruct (@compare_nonempty (l0 :: rest))
      as (lo & hi & best & Hlo & Hhi & _ & Hrun); [discriminate|].
    destruct (@helper_nonempty (l0 :: rest))
      as (lo' & hi' & bd & Hlo' & Hhi' & Hbd & Hrun'); [discriminate|].
    assert (lo' = lo) by congruence. assert (hi' = hi) by congruence. subst lo' hi'.
    do 2 eexists. split; [exact Hrun|]. split; [exact Hrun'|].
    cbn [count min_price max_price avg_price avg_price_per_mile
         best_deal_listing_id].
    repeat split; try discriminate.
    + destruct (@helper_best_deal_spec _ (filter_has_mileage (l0 :: rest)))
        as [[Hnil Hn]|(b & Hin & Hb & _)]; [intros _; exact Hnil|].
      rewrite Hb in Hbd. injection Hbd as <-. discriminate.
    + intros Hnil. rewrite Hnil in Hbd. cbn in Hbd. congruence.
Qed.

(** ** The first of the lowest ratios *)

Lemma ltb_below_not_below (x y z : float) :
  is_nan x = false -> is_nan y = false ->
  (x <? y)%float = false -> (z <? y)%float = true -> (z <? x)%float = true.
Proof.
  intros Hx Hy Hxy. apply not_true_iff_false in Hxy. revert Hxy.
  apply is_nan_frank in Hx, Hy. destruct Hx as (a & Ha), Hy as (b & Hb).
  rewrite !ltb_frank. intros Hn (c & b' & Hc & Hb' & Hlt).
  assert (b' = b) by congruence. subst b'.
  exists c, a. repeat split; try assumption.
  assert (~ lt3 a b) as Hn' by (intros H; apply Hn; now exists a, b).
  rank_arith.
Qed.

Section FirstMinimum.
Variables (A : Type) (key : A -> Py.result float) (k : A -> float).

(** The scan keeps the earliest item with the lowest key: the items
    before the candidate have greater keys, the items after it no
    smaller ones. *)
Lemma min_scan_first (xs : list A) : forall (pre : list A) (cur : A) (mid : list A),
  (forall x, In x (pre ++ cur :: mid ++ xs) ->
             key x = Py.Ok (k x) /\ is_nan (k x) = false) ->
  (forall x, In x pre -> (k cur <? k x)%float = true) ->
  (forall x, In x mid -> (k x <? k cur)%float = false) ->
  exists pre' best post',
    pre ++ cur :: mid ++ xs = pre' ++ best :: post' /\
    Py.min_scan key cur (k cur) xs = Py.Ok best /\
    (forall x, In x pre' -> (k best <? k x)%float = true) /\
    (forall x, In x post' -> (k x <? k best)%float = false).
Proof.
  induction xs as [|y rest IH]; intros pre cur mid Hkey Hpre Hmid.
  - exists pre, cur, mid. rewrite app_nil_r. repeat split; assumption.
  - assert (forall x, In x (pre ++ cur :: mid) \/ x = y \/ In x rest ->
                      key x = Py.Ok (k x) /\ is_nan (k x) = false) as Hkey'.
    { intros x Hx. apply Hkey. rewrite app_comm_cons, app_assoc.
      apply in_or_app. destruct Hx as [Hx|[->|Hx]]; [now left | right..].
      - now left.
      - now right. }
    cbn [Py.min_scan]. rewrite (proj1 (Hkey' y (or_intror (or_introl eq_refl)))).
    cbn [Py.bind]. destruct (k y <? k cur)%float eqn:E.
    + destruct (IH (pre ++ cur :: mid) y []) as (pre' & best & post' & Hs & Hrun & H1 & H2).
      * intros x Hx. apply Hkey'. apply in_app_or in Hx.
        destruct Hx as [Hx|[<-|Hx]]; auto.
      * intros x Hx. apply in_app_or in Hx. destruct Hx as [Hx|[<-|Hx]].
        -- apply ltb_trans with (y := k cur); auto.
        -- exact E.
        -- apply ltb_below_not_below with (y := k cur); auto.
           ++ apply Hkey'. left. apply in_or_app. right. now right.
           ++ apply Hkey'. left. apply in_or_app. right. now left.
      * intros x [].
      * exists pre', best, post'. repeat split; try assumption.
        rewrite <- Hs. cbn [app]. rewrite <- app_assoc. reflexivity.
    + destruct (IH pre cur (mid ++ [y])) as (pre' & best & post' & Hs & Hrun & H1 & H2).
      * intros x Hx. apply Hkey'. apply in_app_or in Hx.
        destruct Hx as [Hx|[<-|Hx]].
        -- left. apply in_or_app. now left.
        -- left. apply in_or_app. right. now left.
        -- rewrite <- app_assoc in Hx. apply in_app_or in Hx.
           destruct Hx as [Hx|[<-|Hx]]; auto.
           left. apply in_or_app. right. now right.
      * exact Hpre.
      * intros x Hx. apply in_app_or in Hx. destruct Hx as [Hx|[<-|[]]]; auto.
      * exists pre', best, post'. repeat split; try assumption.
        rewrite <- Hs. rewrite <- app_assoc. reflexivity.
Qed.

Lemma min_key_first (xs : list A) :
  xs <> [] ->
  (forall x, In x xs -> key x = Py.Ok (k x) /\ is_nan (k x) = false) ->
  exists pre best post,
    xs = pre ++ best :: post /\
    Py.min_key key xs = Py.Ok best /\
    (forall x, In x pre -> (k best <? k x)%float = true) /\
    (forall x, In x post -> (k x <? k best)%float = false).
Proof.
  destruct xs as [|x rest]; [congruence|]. intros _ Hkey.
  cbn [Py.min_key]. rewrite (proj1 (Hkey x (or_introl eq_refl))). cbn [Py.bind].
  destruct (@min_scan_first rest [] x []) as (pre & best & post & Hs & Hrun & H1 & H2).
  - exact Hkey.
  - intros y [].
  - intros y [].
  - exists pre, best, post. repeat split; assumption.
Qed.

End FirstMinimum.

(** X10: among equal lowest ratios the helper picks the earliest listing:
    when no ratio is NaN, its best deal is a listing with a positive
    mileage such that every such listing before it has a strictly
    greater price per mile and none after it a smaller one. *)
Theorem helper_best_deal_is_earliest_lowest (rows : list Listing.t) :
  filter has_mileage rows <> [] ->
  (forall l, In l rows -> has_mileage l = true -> is_nan (ratio l) = false) ->
  exists s pre best post,
    compute_comparison_stats rows = Py.Ok s /\
    filter has_mileage rows = pre ++ best :: post /\
    best_deal_listing_id s = Some (Listing.id best) /\
    (forall l, In l pre -> (ratio best <? ratio l)%float = true) /\
    (forall l, In l post -> (ratio l <? ratio best)%float = false).
Proof.
  intros Hne Hnan.
  assert (rows <> []) as Hrows by (intros ->; now apply Hne).
  destruct (helper_nonempty Hrows) as (lo & hi & bd & _ & _ & Hbd & Hrun).
  destruct (@min_key_first _ price_per_mile ratio (filter has_mileage rows) Hne)
    as (pre & best & post & Hs & Hmin & H1 & H2).
  { intros l Hl. apply filter_In in Hl. destruct Hl as [Hl Hm].
    split; [now apply price_per_mile_ratio | now apply Hnan]. }
  eexists. exists pre, best, post. split; [exact Hrun|].
  split; [exact Hs|]. split; [|split; assumption].
  cbn [best_deal_listing_id]. unfold helper_best_deal in Hbd.
  destruct (filter has_mileage rows) as [|l0 r]; [congruence|].
  rewrite Hmin in Hbd. cbn in Hbd. congruence.
Qed.

(** The theorem at three listings, the first and the last with the
    ratio 0.5, the second with the ratio 0.6: the first is the best
    deal. *)
Lemma helper_best_deal_is_earliest_lowest_witness :
  exists s pre best post,
    compute_comparison_stats [create_test_listing 1 25000 (Some 50000%Z);
                              create_test_listing 2 30000 (Some 50000%Z);
                              create_test_listing 3 10000 (Some 20000%Z)]
    = Py.Ok s /\
    filter has_mileage [create_test_listing 1 25000 (Some 50000%Z);
                        create_test_listing 2 30000 (Some 50000%Z);
                        create_test_listing 3 10000 (Some 20000%Z)]
    = pre ++ best :: post /\
    best_deal_listing_id s = Some (Listing.id best) /\
    (forall l, In l pre -> (ratio best <? ratio l)%float = true) /\
    (forall l, In l post -> (ratio l <? ratio best)%float = false).
Proof.
  apply (@helper_best_deal_is_earliest_lowest
           [create_test_listing 1 25000 (Some 50000%Z);
            create_test_listing 2 30000 (Some 50000%Z);
            create_test_listing 3 10000 (Some 20000%Z)]).
  - discriminate.
  - intros l [<-|[<-|[<-|[]]]] _; reflexivity.
Defined.

(* ================================================================== *)
(** * A new listing and the endpoint's best deal *)
(* ================================================================== *)

Lemma split_position (A : Type) (pre pre' post post' : list A) (a b : A) :
  pre ++ a :: post = pre' ++ b :: post' ->
  (pre = pre' /\ a = b /\ post = post') \/ In a pre' \/ In b pre.
Proof.
  revert pre'. induction pre as [|x r IH]; intros [|y r'] H; cbn in H.
  - injection H as -> ->. now left.
  - injection H as -> _. right. left. now left.
  - injection H as -> _. right. right. now left.
  - injection H as -> H. destruct (IH _ H) as [(-> & -> & ->)|[Hin|Hin]].
    + now left.
    + right. left. now right.
    + right. right. now right.
Qed.

(** The endpoint's best deal of a list is the only listing of the list
    that is the earliest among those no listing is below. *)
Lemma endpoint_best_unique (rows pre pre' post post' : list Listing.t)
      (best best' : Listing.t) :
  rows = pre ++ best :: post -> rows = pre' ++ best' :: post' ->
  (forall l, In l rows -> tuple_lt (best_deal_key l) (best_deal_key best) = false) ->
  (forall l, In l rows -> tuple_lt (best_deal_key l) (best_deal_key best') = false) ->
  (forall l, In l pre -> tuple_lt (best_deal_key best) (best_deal_key l) = true) ->
  (forall l, In l pre' -> tuple_lt (best_deal_key best') (best_deal_key l) = true) ->
  best = best'.
Proof.
  intros Hs Hs' Hmin Hmin' Hpre Hpre'.
  assert (In best rows) as Hb by (rewrite Hs; apply in_elt).
  assert (In best' rows) as Hb' by (rewrite Hs'; apply in_elt).
  rewrite Hs in Hs'.
  destruct (split_position _ _ _ _ _ _ Hs') as [(_ & H & _)|[Hin|Hin]].
  - exact H.
  - apply Hpre' in Hin. rewrite (Hmin best' Hb') in Hin. discriminate.
  - apply Hpre in Hin. rewrite (Hmin' best Hb) in Hin. discriminate.
Qed.

(** X11: a listing added at the end becomes the endpoint's best deal exactly
    when its key (price, then mileage with none as infinity) is strictly
    below the key of the current best deal; otherwise the best deal
    stays.  Prices are numbers (no NaN). *)
Theorem new_listing_and_best_deal (rows : list Listing.t) (x : Listing.t) :
  rows <> [] ->
  (forall l, In l (rows ++ [x]) -> is_nan (Listing.price l) = false) ->
  exists s s' best,
    compare rows = Py.Ok s /\ compare (rows ++ [x]) = Py.Ok s' /\
    In best rows /\ best_deal_listing_id s = Some (Listing.id best) /\
    (tuple_lt (best_deal_key x) (best_deal_key best) = false ->
     best_deal_listing_id s' = Some (Listing.id best)) /\
    (tuple_lt (best_deal_key x) (best_deal_key best) = true ->
     best_deal_listing_id s' = Some (Listing.id x)).
Proof.
  intros Hne Hnan.
  assert (rows ++ [x] <> []) as Hne' by (destruct rows; discriminate).
  assert (forall l, In l rows -> is_nan (Listing.price l) = false) as Hnan_rows.
  { intros l Hl. apply Hnan, in_or_app. now left. }
  destruct (@sorted_head _ _ tuple_lt best_deal_key
              (fun l => is_nan (Listing.price l) = false)
              key_lt_irrefl key_lt_asym key_lt_negtrans rows Hne Hnan_rows)
    as (pre & best & post & Hs & Hhead & Hmin & Hpre).
  destruct (@sorted_head _ _ tuple_lt best_deal_key
              (fun l => is_nan (Listing.price l) = false)
              key_lt_irrefl key_lt_asym key_lt_negtrans (rows ++ [x]) Hne' Hnan)
    as (pre' & best' & post' & Hs' & Hhead' & Hmin' & Hpre').
  destruct (compare_nonempty Hne) as (lo & hi & b & _ & _ & Hb & Hrun).
  destruct (compare_nonempty Hne') as (lo' & hi' & b' & _ & _ & Hb' & Hrun').
  assert (b = best) by congruence. assert (b' = best') by congruence. subst b b'.
  assert (In best rows) as Hin by (rewrite Hs; apply in_elt).
  do 2 eexists. exists best.
  split; [exact Hrun|]. split; [exact Hrun'|]. split; [exact Hin|].
  split; [reflexivity|]. cbn [best_deal_listing_id]. split.
  - intros Hx. do 2 f_equal. symmetry.
    apply (@endpoint_best_unique (rows ++ [x]) pre pre' (post ++ [x]) post'
                                 best best').
    + rewrite Hs. rewrite <- app_assoc. reflexivity.
    + exact Hs'.
    + intros l Hl. apply in_app_or in Hl. destruct Hl as [Hl|[<-|[]]]; auto.
    + exact Hmin'.
    + exact Hpre.
    + exact Hpre'.
  - intros Hx. do 2 f_equal.
    assert (In best' (rows ++ [x])) as Hin' by (rewrite Hs'; apply in_elt).
    apply in_app_or in Hin'. destruct Hin' as [Hin'|[<-|[]]]; [|reflexivity].
    exfalso.
    assert (tuple_lt (best_deal_key x) (best_deal_key best) = false) as Hn;
      [|congruence].
    apply key_lt_negtrans with (y := best').
    + apply Hnan, in_or_app. right. now left.
    + now apply Hnan_rows.
    + now apply Hnan_rows.
    + apply Hmin', in_or_app. right. now left.
    + now apply Hmin.
Qed.

(** The theorem for the listing of [one_car_session] and a cheaper one. *)
Lemma new_listing_and_best_deal_witness :
  exists s s' best,
    compare [create_test_listing 1 25000 (Some 50000%Z)] = Py.Ok s /\
    compare ([create_test_listing 1 25000 (Some 50000%Z)]
             ++ [create_test_listing 2 24000 None]) = Py.Ok s' /\
    In best [create_test_listing 1 25000 (Some 50000%Z)] /\
    best_deal_listing_id s = Some (Listing.id best) /\
    (tuple_lt (best_deal_key (create_test_listing 2 24000 None))
              (best_deal_key best) = false ->
     best_deal_listing_id s' = Some (Listing.id best)) /\
    (tuple_lt (best_deal_key (create_test_listing 2 24000 None))
              (best_deal_key best) = true ->
     best_deal_listing_id s' = Some (Listing.id (create_test_listing 2 24000 None))).
Proof.
  apply (@new_listing_and_best_deal
           [create_test_listing 1 25000 (Some 50000%Z)]
           (create_test_listing 2 24000 None)).
  - discriminate.
  - intros l [<-|[<-|[]]]; reflexivity.
Defined.

(* ================================================================== *)
(** * The order of the rows *)
(* ================================================================== *)

(** The query of [compare_car_listings] has no [ORDER BY]: the rows
    come in the order the database chooses. *)

(** A price that is a number and not the negative zero: what the
    price validators can return. *)
Definition plain_price (p : float) : bool :=
  match Prim2SF p with
  | S754_nan => false
  | S754_zero true => false
  | _ => true
  end.

Lemma plain_price_no_nan (p : float) :
  plain_price p = true -> is_nan p = false.
Proof.
  intros H. apply is_nan_frank. unfold frank, plain_price in *.
  destruct (Prim2SF p) as [s|s| |[|] m e]; try discriminate;
    eexists; reflexivity.
Qed.

(** Equal plain prices are the same float. *)
Lemma plain_price_eqb (x y : float) :
  plain_price x = true -> plain_price y = true ->
  (x =? y)%float = true -> x = y.
Proof.
  unfold plain_price. rewrite eqb_frank. unfold frank.
  intros Hx Hy (a & Ha & Hb). apply Prim2SF_inj.
  destruct (Prim2SF x) as [[|]|[|]| |[|] m e], (Prim2SF y) as [[|]|[|]| |[|] m' e'];
    cbn in *; try discriminate; try reflexivity;
    rewrite <- Hb in Ha; injection Ha; intros; subst; try reflexivity;
    try f_equal; try lia.
Qed.

(** Two numbers neither of which is below the other are equal. *)
Lemma not_ltb_eqb (x y : float) :
  is_nan x = false -> is_nan y = false ->
  (x <? y)%float = false -> (y <? x)%float = false -> (x =? y)%float = true.
Proof.
  intros Hx Hy Hxy Hyx. apply not_true_iff_false in Hxy, Hyx.
  apply is_nan_frank in Hx, Hy. destruct Hx as (a & Ha), Hy as (b & Hb).
  rewrite ltb_frank in Hxy, Hyx. apply eqb_frank.
  assert (~ lt3 a b) as Hab by (intros H; apply Hxy; now exists a, b).
  assert (~ lt3 b a) as Hba by (intros H; apply Hyx; now exists b, a).
  exists a. split; [exact Ha|]. rewrite Hb. f_equal.
  destruct a as [[a1 a2] a3], b as [[b1 b2] b3]. unfold lt3 in *.
  repeat f_equal; lia.
Qed.

Lemma lowest_price_unique (xs ys : list float) (lo lo' : float) :
  (forall x, In x xs <-> In x ys) ->
  (forall x, In x xs -> plain_price x = true) ->
  In lo xs -> (forall x, In x xs -> (x <? lo)%float = false) ->
  In lo' ys -> (forall x, In x ys -> (x <? lo')%float = false) ->
  lo = lo'.
Proof.
  intros Hsame Hplain Hin Hlo Hin' Hlo'.
  assert (In lo' xs) as Hin'x by now apply Hsame.
  apply plain_price_eqb; auto.
  apply not_ltb_eqb; auto using plain_price_no_nan.
  apply Hlo', Hsame, Hin.
Qed.

Lemma highest_price_unique (xs ys : list float) (hi hi' : float) :
  (forall x, In x xs <-> In x ys) ->
  (forall x, In x xs -> plain_price x = true) ->
  In hi xs -> (forall x, In x xs -> (hi <? x)%float = false) ->
  In hi' ys -> (forall x, In x ys -> (hi' <? x)%float = false) ->
  hi = hi'.
Proof.
  intros Hsame Hplain Hin Hhi Hin' Hhi'.
  assert (In hi' xs) as Hin'x by now apply Hsame.
  apply plain_price_eqb; auto.
  apply not_ltb_eqb; auto using plain_price_no_nan.
  apply Hhi', Hsame, Hin.
Qed.

(** The best deal of a list in which one listing is strictly below
    every other one. *)
Lemma untied_best_deal (rows : list Listing.t) (best b : Listing.t) :
  (forall l, In l rows -> is_nan (Listing.price l) = false) ->
  In best rows ->
  (forall l, In l rows ->
             l = best \/ tuple_lt (best_deal_key best) (best_deal_key l) = true) ->
  Py.getitem0 (Py.sorted tuple_lt best_deal_key rows) = Py.Ok b ->
  b = best.
Proof.
  intros Hnan Hin Hbest Hb.
  assert (rows <> []) as Hne by (intros ->; destruct Hin).
  destruct (@sorted_head _ _ tuple_lt best_deal_key
              (fun l => is_nan (Listing.price l) = false)
              key_lt_irrefl key_lt_asym key_lt_negtrans rows Hne Hnan)
    as (pre & b' & post & Hs & Hhead & Hmin & _).
  assert (b' = b) by congruence. subst b'.
  assert (In b rows) as Hbin by (rewrite Hs; apply in_elt).
  destruct (Hbest b Hbin) as [E|E]; [exact E|].
  rewrite (Hmin best Hin) in E. discriminate.
Qed.

(** X12: the count, the lowest and the highest price do not depend on the
    order in which the rows arrive, and neither does the best deal when
    one listing is strictly below every other one (lower price, or the
    same price and lower mileage).  Prices are plain: no NaN, no
    negative zero. *)
Theorem row_order_and_statistics (xs ys : list Listing.t) :
  Permutation xs ys ->
  (forall l, In l xs -> plain_price (Listing.price l) = true) ->
  exists s t,
    compare xs = Py.Ok s /\ compare ys = Py.Ok t /\
    count s = count t /\
    min_price s = min_price t /\
    max_price s = max_price t /\
    (forall best,
        In best xs ->
        (forall l, In l xs ->
                   l = best \/
                   tuple_lt (best_deal_key best) (best_deal_key l) = true) ->
        best_deal_listing_id s = Some (Listing.id best) /\
        best_deal_listing_id t = Some (Listing.id best)).
Proof.
  intros Hperm Hplain.
  destruct xs as [|x0 xr].
  - apply Permutation_nil in Hperm. subst ys.
    do 2 eexists. split; [reflexivity|]. split; [reflexivity|].
    split; [reflexivity|]. split; [reflexivity|]. split; [reflexivity|].
    intros best [].
  - set (xs := x0 :: xr) in *.
    assert (xs <> []) as Hne by discriminate.
    assert (ys <> []) as Hne'.
    { intros ->. apply Permutation_sym, Permutation_nil in Hperm.
      discriminate. }
    assert (forall l, In l xs <-> In l ys) as Hsame.
    { intros l. split; [apply Permutation_in, Hperm
                       |apply Permutation_in, Permutation_sym, Hperm]. }
    assert (forall p, In p (map Listing.price xs)
                      <-> In p (map Listing.price ys)) as Hsame_p.
    { intros p. rewrite !in_map_iff.
      split; intros (l & Hl & Hin); exists l; split; auto; now apply Hsame. }
    assert (forall p, In p (map Listing.price xs) -> plain_price p = true)
      as Hplain_p.
    { intros p Hp. apply in_map_iff in Hp. destruct Hp as (l & <- & Hl). auto. }
    assert (forall l, In l xs -> is_nan (Listing.price l) = false) as Hnan
      by auto using plain_price_no_nan.
    assert (forall l, In l ys -> is_nan (Listing.price l) = false) as Hnan'.
    { intros l Hl. apply Hnan, Hsame, Hl. }
    assert (map Listing.price xs <> []) as Hp by discriminate.
    assert (map Listing.price ys <> []) as Hp'.
    { destruct ys; [congruence | discriminate]. }
    destruct (compare_nonempty Hne) as (lo & hi & b & Hlo & Hhi & Hb & Hrun).
    destruct (compare_nonempty Hne') as (lo' & hi' & b' & Hlo' & Hhi' & Hb' & Hrun').
    destruct (min_spec Hp) as (lo1 & Hlo1 & Hlo_in & Hlo_min).
    destruct (min_spec Hp') as (lo2 & Hlo2 & Hlo_in' & Hlo_min').
    destruct (max_spec Hp) as (hi1 & Hhi1 & Hhi_in & Hhi_max).
    destruct (max_spec Hp') as (hi2 & Hhi2 & Hhi_in' & Hhi_max').
    assert (lo1 = lo) by congruence. assert (lo2 = lo') by congruence.
    assert (hi1 = hi) by congruence. assert (hi2 = hi') by congruence.
    subst lo1 lo2 hi1 hi2.
    assert (lo = lo') as <-
        by exact (@lowest_price_unique _ _ _ _ Hsame_p Hplain_p Hlo_in Hlo_min
                                       Hlo_in' Hlo_min').
    assert (hi = hi') as <-
        by exact (@highest_price_unique _ _ _ _ Hsame_p Hplain_p Hhi_in Hhi_max
                                        Hhi_in' Hhi_max').
    do 2 eexists. split; [exact Hrun|]. split; [exact Hrun'|].
    cbn [count min_price max_price best_deal_listing_id].
    split.
    { unfold Py.len. now rewrite (Permutation_length Hperm). }
    split; [reflexivity|]. split; [reflexivity|].
    intros best Hin Hbest.
    rewrite (@untied_best_deal xs best b Hnan Hin Hbest Hb).
    rewrite (@untied_best_deal ys best b' Hnan'); auto.
    + now apply Hsame.
    + intros l Hl. apply Hbest, Hsame, Hl.
Qed.

(** The theorem at three listings and their reversal. *)
Lemma row_order_and_statistics_witness :
  exists s t,
    compare [create_test_listing 1 25000 (Some 50000%Z);
             create_test_listing 2 24000 None;
             create_test_listing 3 24000 (Some 60000%Z)] = Py.Ok s /\
    compare [create_test_listing 3 24000 (Some 60000%Z);
             create_test_listing 2 24000 None;
             create_test_listing 1 25000 (Some 50000%Z)] = Py.Ok t /\
    count s = count t /\
    min_price s = min_price t /\
    max_price s = max_price t /\
    (forall best,
        In best [create_test_listing 1 25000 (Some 50000%Z);
                 create_test_listing 2 24000 None;
                 create_test_listing 3 24000 (Some 60000%Z)] ->
        (forall l, In l [create_test_listing 1 25000 (Some 50000%Z);
                         create_test_listing 2 24000 None;
                         create_test_listing 3 24000 (Some 60000%Z)] ->
                   l = best \/
                   tuple_lt (best_deal_key best) (best_deal_key l) = true) ->
        best_deal_listing_id s = Some (Listing.id best) /\
        best_deal_listing_id t = Some (Listing.id best)).
Proof.
  apply (@row_order_and_statistics
           [create_test_listing 1 25000 (Some 50000%Z);
            create_test_listing 2 24000 None;
            create_test_listing 3 24000 (Some 60000%Z)]
           [create_test_listing 3 24000 (Some 60000%Z);
            create_test_listing 2 24000 None;
            create_test_listing 1 25000 (Some 50000%Z)]).
  - apply (Permutation_rev
             [create_test_listing 1 25000 (Some 50000%Z);
              create_test_listing 2 24000 None;
              create_test_listing 3 24000 (Some 60000%Z)]).
  - intros l [<-|[<-|[<-|[]]]]; reflexivity.
Defined.

(* ================================================================== *)
(** * The lower edge of the price validator *)
(* ================================================================== *)

Lemma pos_below_pow_digits (m : positive) :
  (Z.pos m < 2 ^ Z.pos (digits2_pos m))%Z.
Proof.
  induction m as [p IH|p IH|]; cbn [digits2_pos].
  - rewrite Pos2Z.inj_succ, Z.pow_succ_r by lia. lia.
  - rewrite Pos2Z.inj_succ, Z.pow_succ_r by lia. lia.
  - reflexivity.
Qed.

(** The mantissa of a float has at most 53 bits. *)
Lemma mantissa_below_pow53 (v : float) (s : bool) (m : positive) (e : Z) :
  Prim2SF v = S754_finite s m e -> (Z.pos m < 2 ^ 53)%Z.
Proof.
  intros Hv. pose proof (Prim2SF_valid v) as Hvalid. rewrite Hv in Hvalid.
  cbn [valid_binary] in Hvalid. unfold bounded, canonical_mantissa in Hvalid.
  apply andb_prop in Hvalid. destruct Hvalid as [Hc _].
  apply Z.eqb_eq in Hc. unfold fexp, SpecFloat.emin, prec, emax in Hc.
  assert (Z.pos (digits2_pos m) <= 53)%Z as Hd.
  { change IntDef.Z.max with Z.max in Hc. change IntDef.Z.sub with Z.sub in Hc.
    change IntDef.Z.add with Z.add in Hc. lia. }
  pose proof (pos_below_pow_digits m) as Hm.
  assert (2 ^ Z.pos (digits2_pos m) <= 2 ^ 53)%Z by (apply Z.pow_le_mono_r; lia).
  lia.
Qed.

(** A positive float below the float of the literal 0.005 rounds to 0.0
    at two decimals. *)
Lemma round_below_half_cent (v : float) :
  (0 <? v)%float = true -> (v <? 0x1.47ae147ae147bp-8)%float = true ->
  Py.round v 2 = 0%float.
Proof.
  rewrite !ltb_frank.
  intros (z & a & Hz & Ha & Hza) (a' & t & Ha' & Ht & Hat).
  assert (a' = a) by congruence. subst a'.
  vm_compute in Hz, Ht. injection Hz as <-. injection Ht as <-.
  unfold frank in Ha. unfold Py.round.
  destruct (Prim2SF v) as [s|s| |s m e] eqn:Ev; cbn in Ha; try discriminate;
    try (injection Ha as <-; exfalso; unfold lt3 in *; lia).
  pose proof (mantissa_below_pow53 v Ev) as Hm.
  destruct s; injection Ha as <-; [exfalso; unfold lt3 in *; lia|].
  unfold lt3 in Hat.
  assert (e <= -60)%Z as He by lia.
  assert (200 * Z.pos m < 2 ^ (- e))%Z as Hsmall.
  { destruct (Z.eq_dec e (-60)) as [->|Hne].
    - change (2 ^ (- -60))%Z with 1152921504606846976%Z. lia.
    - assert (2 ^ 61 <= 2 ^ (- e))%Z by (apply Z.pow_le_mono_r; lia).
      change (2 ^ 53)%Z with 9007199254740992%Z in Hm.
      change (2 ^ 61)%Z with 2305843009213693952%Z in H. lia. }
  change (10 ^ Z.of_nat 2)%Z with 100%Z.
  assert (Py.scaled_nearest m e 100 = 0%Z) as ->; [|reflexivity].
  unfold Py.scaled_nearest. destruct (Z.leb_spec 0 e); [lia|].
  unfold Py.round_half_even_div.
  assert (0 < 2 ^ (- e))%Z by (apply Z.pow_pos_nonneg; lia).
  rewrite Z.div_small, Z.mod_small by lia.
  assert ((2 * (Z.pos m * 100) ?= 2 ^ (- e))%Z = Lt) as ->; [|reflexivity].
  apply Z.compare_lt_iff. lia.
Qed.

(** X13: below half a cent the price validators accept a price and return
    0.0: for every float [v] with [0 < v < 0.005] the accepted price is
    zero, a value that the same validators reject. *)
Theorem price_below_half_cent_is_accepted_as_zero (v : float) :
  (0 <? v)%float = true -> (v <? 0x1.47ae147ae147bp-8)%float = true ->
  ListingBase.validate_price v = Py.Ok 0%float /\
  ListingUpdate.validate_price (Some v) = Py.Ok (Some 0%float) /\
  ListingBase.validate_price 0
  = Py.Raise (Py.ValueError "Price must be greater than 0") /\
  ListingUpdate.validate_price (Some 0%float)
  = Py.Raise (Py.ValueError "Price must be greater than 0").
Proof.
  intros Hpos Hsmall.
  assert ((v <=? 0)%float = false) as H0.
  { apply not_true_is_false. revert Hpos. rewrite ltb_frank, leb_frank.
    intros (z & a & Hz & Ha & Hlt) (a' & z' & Ha' & Hz' & Hle).
    assert (a' = a) by congruence. assert (z' = z) by congruence. subst a' z'.
    destruct Hle as [Hle| ->]; rank_arith. }
  assert ((10000000 <? v)%float = false) as Hmax.
  { apply not_true_is_false. revert Hsmall. rewrite !ltb_frank.
    intros (a & t & Ha & Ht & Hlt) (u & a' & Hu & Ha' & Hlt').
    assert (a' = a) by congruence. subst a'.
    vm_compute in Ht, Hu. injection Ht as <-. injection Hu as <-. rank_arith. }
  unfold ListingBase.validate_price, ListingUpdate.validate_price.
  rewrite H0, Hmax, (round_below_half_cent Hpos Hsmall).
  repeat split.
Qed.

(** The theorem at 0.004. *)
Lemma price_below_half_cent_is_accepted_as_zero_witness :
  ListingBase.validate_price 0.004 = Py.Ok 0%float /\
  ListingUpdate.validate_price (Some 0.004%float) = Py.Ok (Some 0%float) /\
  ListingBase.validate_price 0
  = Py.Raise (Py.ValueError "Price must be greater than 0") /\
  ListingUpdate.validate_price (Some 0%float)
  = Py.Raise (Py.ValueError "Price must be greater than 0").
Proof.
  apply (@price_below_half_cent_is_accepted_as_zero 0.004); reflexivity.
Defined.

(* ================================================================== *)
(** * The string validators of the schemas *)
(* ================================================================== *)

(** A Python [str] is a sequence of Unicode code points. *)
Definition str : Type := list N.

Module PyStr.

(** A literal of the source, all of whose characters are ASCII. *)
Definition literal (s : string) : str :=
  map Ascii.N_of_ascii (list_ascii_of_string s).

(** The characters [str.strip()] removes when called without an
    argument: the code points for which [str.isspace] holds. *)
Definition isspace (c : N) : bool :=
  ((9 <=? c) && (c <=? 13)
   || (28 <=? c) && (c <=? 32)
   || (c =? 133) || (c =? 160) || (c =? 5760)
   || (8192 <=? c) && (c <=? 8202)
   || (c =? 8232) || (c =? 8233) || (c =? 8239) || (c =? 8287)
   || (c =? 12288))%N.

Fixpoint lstrip (s : str) : str :=
  match s with
  | [] => []
  | c :: rest => if isspace c then lstrip rest else s
  end.

Definition rstrip (s : str) : str := rev (lstrip (rev s)).

(** [s.strip()]: the left end is found first, then the right end of
    what is left. *)
Definition strip (s : str) : str := rstrip (lstrip s).

(** [s.startswith(prefix)]. *)
Fixpoint startswith (s prefix : str) {struct prefix} : bool :=
  match prefix, s with
  | [], _ => true
  | _ :: _, [] => false
  | p :: prefix', c :: s' => (c =? p)%N && startswith s' prefix'
  end.

(** [s.startswith(prefixes)] for a tuple of prefixes. *)
Definition startswith_any (s : str) (prefixes : list str) : bool :=
  existsb (startswith s) prefixes.

End PyStr.

(** [ListingBase.strip_whitespace] and [ListingBase.validate_url]
    (app/schemas/listing.py). *)
Module ListingBaseFields.

Definition strip_whitespace (v : option str) : option str :=
  match v with
  | None => None
  | Some s => Some (PyStr.strip s)
  end.

Definition validate_url (v : option str) : Py.result (option str) :=
  match v with
  | None => Py.Ok None
  | Some s =>
      let v := PyStr.strip s in
      if negb (PyStr.startswith_any v
                 [PyStr.literal "http://"; PyStr.literal "https://"])
      then Py.Raise (Py.ValueError "URL must start with http:// or https://")
      else Py.Ok (Some v)
  end.

End ListingBaseFields.

(** [ListingUpdate.strip_whitespace] and [ListingUpdate.validate_url]. *)
Module ListingUpdateFields.

Definition strip_whitespace (v : option str) : option str :=
  match v with
  | None => None
  | Some s => Some (PyStr.strip s)
  end.

Definition validate_url (v : option str) : Py.result (option str) :=
  match v with
  | None => Py.Ok None
  | Some s =>
      let v := PyStr.strip s in
      if negb (PyStr.startswith_any v
                 [PyStr.literal "http://"; PyStr.literal "https://"])
      then Py.Raise (Py.ValueError "URL must start with http:// or https://")
      else Py.Ok (Some v)
  end.

End ListingUpdateFields.

(** [CarBase.strip_whitespace] and [CarUpdate.strip_whitespace]
    (app/schemas/car.py). *)
Module CarBaseFields.

Definition strip_whitespace (v : option str) : option str :=
  match v with
  | None => None
  | Some s => Some (PyStr.strip s)
  end.

End CarBaseFields.

Module CarUpdateFields.

Definition strip_whitespace (v : option str) : option str :=
  match v with
  | None => None
  | Some s => Some (PyStr.strip s)
  end.

End CarUpdateFields.

(** A string all of whose characters are whitespace. *)
Definition blank (s : str) : bool := forallb PyStr.isspace s.

(** Whether a string begins with whitespace. *)
Definition first_is_space (s : str) : bool :=
  match s with
  | [] => false
  | c :: _ => PyStr.isspace c
  end.

(** A string with no whitespace at its first and at its last place. *)
Definition trimmed (s : str) : bool :=
  negb (first_is_space s) && negb (first_is_space (rev s)).

Lemma lstrip_split (s : str) :
  exists pre, s = pre ++ PyStr.lstrip s /\ blank pre = true.
Proof.
  induction s as [|c rest IH]; cbn.
  - now exists [].
  - destruct (PyStr.isspace c) eqn:Ec.
    + destruct IH as (pre & Hs & Hpre). exists (c :: pre).
      split; [cbn; now f_equal|]. unfold blank in *. cbn. now rewrite Ec.
    + now exists [].
Qed.

Lemma lstrip_head (s : str) : first_is_space (PyStr.lstrip s) = false.
Proof.
  induction s as [|d s IH]; cbn; [reflexivity|].
  destruct (PyStr.isspace d) eqn:Ed; [exact IH|]. exact Ed.
Qed.

Lemma lstrip_blank_app (pre s : str) :
  blank pre = true -> PyStr.lstrip (pre ++ s) = PyStr.lstrip s.
Proof.
  induction pre as [|c pre IH]; cbn; [reflexivity|].
  intros H. apply andb_prop in H. destruct H as [-> H]. now apply IH.
Qed.

Lemma lstrip_fixed (s : str) :
  first_is_space s = false -> PyStr.lstrip s = s.
Proof.
  destruct s as [|c rest]; [reflexivity|]. cbn. now intros ->.
Qed.

Lemma lstrip_blank (s : str) : blank s = true -> PyStr.lstrip s = [].
Proof.
  induction s as [|c s IH]; cbn; [reflexivity|].
  intros H. apply andb_prop in H. destruct H as [-> H]. now apply IH.
Qed.

Lemma blank_rev (s : str) : blank (rev s) = blank s.
Proof.
  unfold blank. apply eq_true_iff_eq. rewrite !forallb_forall.
  split; intros H x Hx; apply H;
    [now apply -> in_rev | now apply <- in_rev in Hx].
Qed.

Lemma rstrip_split (s : str) :
  exists post, s = PyStr.rstrip s ++ post /\ blank post = true.
Proof.
  destruct (lstrip_split (rev s)) as (pre & Hs & Hpre).
  exists (rev pre). split.
  - unfold PyStr.rstrip. rewrite <- rev_app_distr, <- Hs.
    now rewrite rev_involutive.
  - now rewrite blank_rev.
Qed.

Lemma rstrip_last (s : str) : first_is_space (rev (PyStr.rstrip s)) = false.
Proof.
  unfold PyStr.rstrip. rewrite rev_involutive. apply lstrip_head.
Qed.

Lemma rstrip_blank_app (s post : str) :
  blank post = true -> PyStr.rstrip (s ++ post) = PyStr.rstrip s.
Proof.
  intros H. unfold PyStr.rstrip.
  rewrite rev_app_distr, lstrip_blank_app; [reflexivity|].
  now rewrite blank_rev.
Qed.

Lemma rstrip_fixed (s : str) :
  first_is_space (rev s) = false -> PyStr.rstrip s = s.
Proof.
  intros H. unfold PyStr.rstrip. rewrite lstrip_fixed by exact H.
  apply rev_involutive.
Qed.

(** Stripping the right end keeps a first character that is no
    whitespace. *)
Lemma rstrip_head (s : str) :
  first_is_space s = false -> first_is_space (PyStr.rstrip s) = false.
Proof.
  intros Hs. destruct (rstrip_split s) as (post & Hsplit & _).
  destruct (PyStr.rstrip s) as [|c rest]; [reflexivity|].
  rewrite Hsplit in Hs. exact Hs.
Qed.

Lemma strip_trimmed (s : str) : trimmed (PyStr.strip s) = true.
Proof.
  unfold trimmed, PyStr.strip.
  now rewrite rstrip_head, rstrip_last by apply lstrip_head.
Qed.

Lemma strip_split (s : str) :
  exists pre post,
    s = pre ++ PyStr.strip s ++ post /\ blank pre = true /\ blank post = true.
Proof.
  destruct (lstrip_split s) as (pre & Hs & Hpre).
  destruct (rstrip_split (PyStr.lstrip s)) as (post & Hl & Hpost).
  exists pre, post. unfold PyStr.strip. now rewrite <- Hl.
Qed.

Lemma strip_surrounded (pre t post : str) :
  blank pre = true -> blank post = true -> trimmed t = true ->
  PyStr.strip (pre ++ t ++ post) = t.
Proof.
  intros Hpre Hpost Ht. unfold trimmed in Ht. apply andb_prop in Ht.
  destruct Ht as [Hfirst Hlast].
  apply negb_true_iff in Hfirst. apply negb_true_iff in Hlast.
  unfold PyStr.strip. rewrite lstrip_blank_app by assumption.
  destruct t as [|c rest].
  - cbn [app]. now rewrite lstrip_blank.
  - rewrite lstrip_fixed by exact Hfirst.
    rewrite rstrip_blank_app by assumption. now apply rstrip_fixed.
Qed.

Lemma strip_fixed (t : str) : trimmed t = true -> PyStr.strip t = t.
Proof.
  intros H. pose proof (@strip_surrounded [] t [] eq_refl eq_refl H) as E.
  cbn in E. now rewrite app_nil_r in E.
Qed.

Lemma strip_blank (s : str) : blank s = true -> PyStr.strip s = [].
Proof.
  intros H. unfold PyStr.strip. now rewrite lstrip_blank.
Qed.

Lemma startswith_spec (s prefix : str) :
  PyStr.startswith s prefix = true <-> exists rest, s = prefix ++ rest.
Proof.
  revert s. induction prefix as [|p prefix IH]; intros s; cbn.
  - split; [now exists s | reflexivity].
  - destruct s as [|c s].
    + split; [discriminate | intros (rest & H); discriminate].
    + rewrite andb_true_iff, N.eqb_eq, IH. split.
      * intros (-> & rest & ->). now exists rest.
      * intros (rest & [= -> ->]). split; [reflexivity | now exists rest].
Qed.

(** The two schemes [validate_url] accepts. *)
Definition schemes : list str :=
  [PyStr.literal "http://"; PyStr.literal "https://"].

Lemma startswith_scheme (s : str) :
  PyStr.startswith_any s schemes = true <->
  exists scheme rest, In scheme schemes /\ s = scheme ++ rest.
Proof.
  unfold PyStr.startswith_any. rewrite existsb_exists. split.
  - intros (scheme & Hin & H). apply startswith_spec in H.
    destruct H as (rest & ->). now exists scheme, rest.
  - intros (scheme & rest & Hin & ->). exists scheme.
    split; [exact Hin | apply startswith_spec; now exists rest].
Qed.

Lemma validate_url_cases (s : str) :
  ListingBaseFields.validate_url (Some s)
  = if PyStr.startswith_any (PyStr.strip s) schemes
    then Py.Ok (Some (PyStr.strip s))
    else Py.Raise (Py.ValueError "URL must start with http:// or https://").
Proof.
  unfold ListingBaseFields.validate_url, schemes.
  now destruct (PyStr.startswith_any _ _).
Qed.

(** X14: [strip_whitespace] removes a run of whitespace at either end of the
    string and nothing else: the input is the result between two
    blank strings, the result neither begins nor ends with whitespace,
    and stripping it again changes nothing.  An absent field stays
    absent.  The four copies of the validator (listing and car schemas,
    base and update) compute the same function. *)
Theorem strip_whitespace_removes_surrounding_whitespace (s : str) :
  exists pre t post,
    ListingBaseFields.strip_whitespace (Some s) = Some t /\
    s = pre ++ t ++ post /\ blank pre = true /\ blank post = true /\
    trimmed t = true /\
    ListingBaseFields.strip_whitespace (Some t) = Some t /\
    ListingUpdateFields.strip_whitespace (Some s) = Some t /\
    CarBaseFields.strip_whitespace (Some s) = Some t /\
    CarUpdateFields.strip_whitespace (Some s) = Some t /\
    ListingBaseFields.strip_whitespace None = None.
Proof.
  destruct (strip_split s) as (pre & post & Hs & Hpre & Hpost).
  exists pre, (PyStr.strip s), post. cbn.
  rewrite (@strip_fixed _ (strip_trimmed s)).
  repeat split; try assumption. apply strip_trimmed.
Qed.

(** X15: conversely, a text that neither begins nor ends with whitespace is
    what [strip_whitespace] returns for that text between any two
    blank strings. *)
Theorem strip_whitespace_of_surrounded_text (pre t post : str) :
  blank pre = true -> blank post = true -> trimmed t = true ->
  ListingBaseFields.strip_whitespace (Some (pre ++ t ++ post)) = Some t.
Proof.
  intros Hpre Hpost Ht. cbn. now rewrite strip_surrounded.
Qed.

(** The theorem at ["  San Francisco, CA\n"], with a tab in front. *)
Lemma strip_whitespace_of_surrounded_text_witness :
  ListingBaseFields.strip_whitespace
    (Some ([9; 32]%N ++ PyStr.literal "San Francisco, CA" ++ [10]%N))
  = Some (PyStr.literal "San Francisco, CA").
Proof.
  apply (@strip_whitespace_of_surrounded_text
           [9; 32]%N (PyStr.literal "San Francisco, CA") [10]%N);
    reflexivity.
Defined.

(** X16: a URL that [validate_url] accepts is the stripped input, begins
    with one of the two schemes, has no whitespace at either end, and
    is accepted unchanged when validated again; the update schema
    accepts the same value. *)
Theorem accepted_url_is_stripped_http_url (s : str) (r : option str) :
  ListingBaseFields.validate_url (Some s) = Py.Ok r ->
  exists scheme rest,
    r = Some (scheme ++ rest) /\
    (scheme = PyStr.literal "http://" \/ scheme = PyStr.literal "https://") /\
    scheme ++ rest = PyStr.strip s /\
    trimmed (scheme ++ rest) = true /\
    ListingBaseFields.validate_url r = Py.Ok r /\
    ListingUpdateFields.validate_url (Some s) = Py.Ok r.
Proof.
  intros H. pose proof H as H'. rewrite validate_url_cases in H.
  destruct (PyStr.startswith_any (PyStr.strip s) schemes) eqn:E;
    [|discriminate].
  injection H as <-. pose proof E as E'. apply startswith_scheme in E.
  destruct E as (scheme & rest & Hin & Hs).
  exists scheme, rest. rewrite <- Hs.
  split; [reflexivity|]. split.
  { destruct Hin as [<-|[<-|[]]]; [now left | now right]. }
  split; [reflexivity|]. split; [apply strip_trimmed|].
  split; [|exact H'].
  now rewrite validate_url_cases, (@strip_fixed _ (strip_trimmed s)), E'.
Qed.

(** The theorem at [" https://example.com/listing/12345 "]. *)
Lemma accepted_url_is_stripped_http_url_witness :
  exists scheme rest,
    Some (PyStr.literal "https://example.com/listing/12345")
    = Some (scheme ++ rest) /\
    (scheme = PyStr.literal "http://" \/ scheme = PyStr.literal "https://") /\
    scheme ++ rest
    = PyStr.strip (PyStr.literal " https://example.com/listing/12345 ") /\
    trimmed (scheme ++ rest) = true /\
    ListingBaseFields.validate_url
      (Some (PyStr.literal "https://example.com/listing/12345"))
    = Py.Ok (Some (PyStr.literal "https://example.com/listing/12345")) /\
    ListingUpdateFields.validate_url
      (Some (PyStr.literal " https://example.com/listing/12345 "))
    = Py.Ok (Some (PyStr.literal "https://example.com/listing/12345")).
Proof.
  apply (@accepted_url_is_stripped_http_url
           (PyStr.literal " https://example.com/listing/12345 ")
           (Some (PyStr.literal "https://example.com/listing/12345"))).
  reflexivity.
Defined.

(** X17: whitespace around a URL does not count: a text that begins with
    [http://] or [https://] and does not end with whitespace is
    accepted, and returned without the blanks around it, whatever
    blank strings surround it in the request. *)
Theorem url_between_blanks_is_accepted (pre scheme rest post : str) :
  blank pre = true -> blank post = true ->
  scheme = PyStr.literal "http://" \/ scheme = PyStr.literal "https://" ->
  first_is_space (rev (scheme ++ rest)) = false ->
  ListingBaseFields.validate_url (Some (pre ++ (scheme ++ rest) ++ post))
  = Py.Ok (Some (scheme ++ rest)) /\
  ListingUpdateFields.validate_url (Some (pre ++ (scheme ++ rest) ++ post))
  = Py.Ok (Some (scheme ++ rest)).
Proof.
  intros Hpre Hpost Hscheme Hlast.
  assert (trimmed (scheme ++ rest) = true) as Ht.
  { unfold trimmed. rewrite Hlast.
    destruct Hscheme as [-> | ->]; reflexivity. }
  assert (ListingBaseFields.validate_url
            (Some (pre ++ (scheme ++ rest) ++ post))
          = Py.Ok (Some (scheme ++ rest))) as H.
  { rewrite validate_url_cases, strip_surrounded by assumption.
    assert (PyStr.startswith_any (scheme ++ rest) schemes = true) as ->;
      [|reflexivity].
    apply startswith_scheme. exists scheme, rest.
    split; [|reflexivity]. destruct Hscheme as [-> | ->]; cbn; auto. }
  split; exact H.
Qed.

(** The theorem at ["\t http://example.com \n"]. *)
Lemma url_between_blanks_is_accepted_witness :
  ListingBaseFields.validate_url
    (Some ([9; 32]%N
           ++ (PyStr.literal "http://" ++ PyStr.literal "example.com")
           ++ [32; 10]%N))
  = Py.Ok (Some (PyStr.literal "http://" ++ PyStr.literal "example.com")) /\
  ListingUpdateFields.validate_url
    (Some ([9; 32]%N
           ++ (PyStr.literal "http://" ++ PyStr.literal "example.com")
           ++ [32; 10]%N))
  = Py.Ok (Some (PyStr.literal "http://" ++ PyStr.literal "example.com")).
Proof.
  apply (@url_between_blanks_is_accepted
           [9; 32]%N (PyStr.literal "http://") (PyStr.literal "example.com")
           [32; 10]%N); try reflexivity.
  now left.
Defined.

(** X18: an absent URL is accepted as absent, but a URL that is present and
    empty, or all whitespace, is rejected. *)
Theorem blank_url_is_rejected (s : str) :
  blank s = true ->
  ListingBaseFields.validate_url (Some s)
  = Py.Raise (Py.ValueError "URL must start with http:// or https://") /\
  ListingUpdateFields.validate_url (Some s)
  = Py.Raise (Py.ValueError "URL must start with http:// or https://") /\
  ListingBaseFields.validate_url None = Py.Ok None /\
  ListingUpdateFields.validate_url None = Py.Ok None.
Proof.
  intros H.
  assert (ListingBaseFields.validate_url (Some s)
          = Py.Raise (Py.ValueError "URL must start with http:// or https://"))
    as E by (now rewrite validate_url_cases, strip_blank).
  repeat split; exact E.
Qed.

(** The theorem at the empty string. *)
Lemma blank_url_is_rejected_witness :
  ListingBaseFields.validate_url (Some [])
  = Py.Raise (Py.ValueError "URL must start with http:// or https://") /\
  ListingUpdateFields.validate_url (Some [])
  = Py.Raise (Py.ValueError "URL must start with http:// or https://") /\
  ListingBaseFields.validate_url None = Py.Ok None /\
  ListingUpdateFields.validate_url None = Py.Ok None.
Proof.
  apply (@blank_url_is_rejected []). reflexivity.
Defined.

(* ================================================================== *)
(** * The parser of the VIN decoder's response *)
(* ================================================================== *)

(** What [response.json()] returns: a JSON document as Python values.
    The fields of an object are its items; as in a [dict] a key occurs
    once. *)
#[local] Set Warnings "-register-all".

Inductive json : Type :=
| JNone
| JBool (b : bool)
| JInt (n : Z)
| JFloat (x : float)
| JStr (s : str)
| JList (items : list json)
| JDict (fields : list (str * json)).

Definition str_eqb (a b : str) : bool :=
  if list_eq_dec N.eq_dec a b then true else false.

(** [VINDecoderService._parse_nhtsa_response]
    (app/services/vin_decoder.py).  [data] is the [dict] of its type
    annotation. *)
Module VINDecoderService.

(** The exceptions the parser can raise. *)
Inductive exn : Type :=
| ValueError (msg : string)
| AttributeError
| TypeError.

Inductive result (A : Type) : Type :=
| Ok (a : A)
| Raise (e : exn).
Arguments Ok {A} a.
Arguments Raise {A} e.

(** [key in d] and [d[key]] for a string key: [None] where the key is
    missing. *)
Definition dict_get (d : list (str * json)) (key : str) : option json :=
  option_map snd (find (fun kv => str_eqb (fst kv) key) d).

(** Truth value of a JSON value. *)
Definition truthy (v : json) : bool :=
  match v with
  | JNone => false
  | JBool b => b
  | JInt n => negb (n =? 0)%Z
  | JFloat x => Py.truthy x
  | JStr s => negb (Nat.eqb (List.length s) 0)
  | JList items => negb (Nat.eqb (List.length items) 0)
  | JDict fields => negb (Nat.eqb (List.length fields) 0)
  end.

(** [value.strip()]: only a [str] has the method. *)
Definition value_strip (value : json) : result str :=
  match value with
  | JStr s => Ok (PyStr.strip s)
  | _ => Raise AttributeError
  end.

(** Lists and dicts cannot be keys of a [dict]. *)
Definition hashable (v : json) : bool :=
  match v with
  | JList _ | JDict _ => false
  | _ => true
  end.

(** The [lookup] dict, newest binding first.  Its keys are whatever the
    response has under ["Variable"]; the parser reads it at string keys
    only, and a key that is no string equals none of them. *)
Definition lookup_t : Type := list (json * str).

(** [lookup[variable] = stripped]. *)
Definition setitem (lookup : lookup_t) (variable : json) (stripped : str)
  : result lookup_t :=
  if hashable variable then Ok ((variable, stripped) :: lookup)
  else Raise TypeError.

(** [lookup.get(key)]. *)
Definition get (lookup : lookup_t) (key : str) : option str :=
  option_map snd
    (find (fun kv => match fst kv with
                     | JStr k => str_eqb k key
                     | _ => false
                     end) lookup).

(** The body of the loop over [results]. *)
Definition store (lookup : lookup_t) (item : json) : result lookup_t :=
  match item with
  | JDict fields =>
      match dict_get fields (PyStr.literal "Variable"),
            dict_get fields (PyStr.literal "Value") with
      | Some variable, Some value =>
          if truthy value then
            match value_strip value with
            | Raise e => Raise e
            | Ok stripped =>
                if negb (Nat.eqb (List.length stripped) 0)
                then setitem lookup variable stripped
                else Ok lookup
            end
          else Ok lookup
      | _, _ => Ok lookup
      end
  | _ => Ok lookup
  end.

Fixpoint build_lookup (lookup : lookup_t) (results : list json)
  : result lookup_t :=
  match results with
  | [] => Ok lookup
  | item :: rest =>
      match store lookup item with
      | Raise e => Raise e
      | Ok lookup' => build_lookup lookup' rest
      end
  end.

(** [a or b] on two optional strings. *)
Definition or_else (a b : option str) : option str :=
  match a with
  | Some s => if negb (Nat.eqb (List.length s) 0) then a else b
  | None => b
  end.

(** The dict the parser returns. *)
Record fields : Type := mk {
  year : option str;
  make : option str;
  model : option str;
  trim : option str
}.

Definition _parse_nhtsa_response (data : list (str * json)) : result fields :=
  match dict_get data (PyStr.literal "Results") with
  | None =>
      Raise (ValueError "Invalid NHTSA API response: missing 'Results' field")
  | Some results =>
      match results with
      | JList items =>
          match build_lookup [] items with
          | Raise e => Raise e
          | Ok lookup =>
              Ok {| year := get lookup (PyStr.literal "Model Year");
                    make := get lookup (PyStr.literal "Make");
                    model := get lookup (PyStr.literal "Model");
                    trim := or_else (get lookup (PyStr.literal "Trim"))
                                    (get lookup (PyStr.literal "Series")) |}
          end
      | _ =>
          Raise (ValueError
                   "Invalid NHTSA API response: 'Results' is not a list")
      end
  end.

End VINDecoderService.

(** The value an item of [Results] gives to the variable [key]: the
    stripped ["Value"] of an object whose ["Variable"] is [key] and
    whose ["Value"] is a string with more than whitespace in it. *)
Definition entry_value (key : str) (item : json) : option str :=
  match item with
  | JDict fields =>
      match VINDecoderService.dict_get fields (PyStr.literal "Variable"),
            VINDecoderService.dict_get fields (PyStr.literal "Value") with
      | Some (JStr k), Some (JStr s) =>
          if str_eqb k key && negb (blank s) then Some (PyStr.strip s)
          else None
      | _, _ => None
      end
  | _ => None
  end.

(** The values the items give to [key], in the order of the response. *)
Definition entry_values (key : str) (items : list json) : list str :=
  flat_map (fun item => match entry_value key item with
                        | Some v => [v]
                        | None => []
                        end) items.

(** The last of them. *)
Definition last_value (key : str) (items : list json) : option str :=
  match rev (entry_values key items) with
  | v :: _ => Some v
  | [] => None
  end.

(** An item the loop handles without an exception whatever else the
    response holds: no object with both keys, or one whose ["Value"] is
    a string or null and whose ["Variable"] is a string. *)
Definition plain_entry (item : json) : bool :=
  match item with
  | JDict fields =>
      match VINDecoderService.dict_get fields (PyStr.literal "Variable"),
            VINDecoderService.dict_get fields (PyStr.literal "Value") with
      | Some (JStr _), Some (JStr _) => true
      | Some (JStr _), Some JNone => true
      | Some _, Some _ => false
      | _, _ => true
      end
  | _ => true
  end.

(** An item whose ["Value"] counts as true and is no string. *)
Definition odd_value (item : json) : bool :=
  match item with
  | JDict fields =>
      match VINDecoderService.dict_get fields (PyStr.literal "Variable"),
            VINDecoderService.dict_get fields (PyStr.literal "Value") with
      | Some _, Some (JStr _) => false
      | Some _, Some value => VINDecoderService.truthy value
      | _, _ => false
      end
  | _ => false
  end.

Lemma str_eqb_eq (a b : str) : str_eqb a b = true <-> a = b.
Proof.
  unfold str_eqb. destruct (list_eq_dec N.eq_dec a b); split;
    congruence.
Qed.

Lemma strip_empty_iff_blank (s : str) :
  Nat.eqb (List.length (PyStr.strip s)) 0 = blank s.
Proof.
  destruct (blank s) eqn:E.
  - now rewrite strip_blank.
  - destruct (strip_split s) as (pre & post & Hs & Hpre & Hpost).
    destruct (PyStr.strip s); [|reflexivity].
    exfalso. rewrite Hs in E. cbn in E. unfold blank in *.
    rewrite forallb_app, Hpre, Hpost in E. discriminate.
Qed.

Lemma blank_nonempty (s : str) :
  blank s = false -> Nat.eqb (List.length s) 0 = false.
Proof. destruct s; [discriminate | reflexivity]. Qed.

Lemma store_get (key : str) (lookup lookup' : VINDecoderService.lookup_t)
  (item : json) :
  VINDecoderService.store lookup item = VINDecoderService.Ok lookup' ->
  VINDecoderService.get lookup' key
  = match entry_value key item with
    | Some v => Some v
    | None => VINDecoderService.get lookup key
    end.
Proof.
  unfold VINDecoderService.store, entry_value.
  destruct item as [| | | | |items|fields]; try (now intros [= <-]).
  destruct (VINDecoderService.dict_get fields (PyStr.literal "Variable"))
    as [variable|]; [|now intros [= <-]].
  destruct (VINDecoderService.dict_get fields (PyStr.literal "Value"))
    as [value|]; [|destruct variable; now intros [= <-]].
  destruct (VINDecoderService.truthy value) eqn:Et.
  - destruct value as [| | | |s| |]; cbn [VINDecoderService.value_strip];
      try discriminate.
    rewrite strip_empty_iff_blank.
    destruct (blank s) eqn:Eb; cbn [negb].
    + intros [= <-]. destruct variable; try reflexivity.
      now rewrite andb_false_r.
    + unfold VINDecoderService.setitem.
      destruct variable as [| | | |k| |]; cbn [VINDecoderService.hashable];
        try discriminate; intros [= <-]; try reflexivity.
      unfold VINDecoderService.get. cbn [find fst].
      rewrite andb_true_r. now destruct (str_eqb k key).
  - intros [= <-].
    destruct variable as [| | | |k| |]; try reflexivity.
    destruct value as [| | | |s| |]; try reflexivity.
    destruct s; [|discriminate]. now rewrite andb_false_r.
Qed.

Lemma last_value_cons (key : str) (item : json) (rest : list json) :
  last_value key (item :: rest)
  = match last_value key rest with
    | Some v => Some v
    | None => entry_value key item
    end.
Proof.
  unfold last_value, entry_values. cbn [flat_map]. rewrite rev_app_distr.
  destruct (rev (flat_map _ rest)); [|reflexivity].
  cbn [app]. now destruct (entry_value key item).
Qed.

Lemma build_lookup_get (key : str) (items : list json) :
  forall lookup lookup',
    VINDecoderService.build_lookup lookup items
    = VINDecoderService.Ok lookup' ->
    VINDecoderService.get lookup' key
    = match last_value key items with
      | Some v => Some v
      | None => VINDecoderService.get lookup key
      end.
Proof.
  induction items as [|item rest IH]; intros lookup lookup'.
  - now intros [= <-].
  - cbn [VINDecoderService.build_lookup].
    destruct (VINDecoderService.store lookup item) as [l1|e] eqn:Es;
      [|discriminate].
    intros H. rewrite (IH _ _ H), last_value_cons, (store_get key _ _ Es).
    now destruct (last_value key rest).
Qed.

Lemma entry_value_non_blank (key : str) (item : json) (v : str) :
  entry_value key item = Some v -> v <> [] /\ trimmed v = true.
Proof.
  unfold entry_value.
  destruct item as [| | | | | |fields]; try discriminate.
  destruct (VINDecoderService.dict_get fields (PyStr.literal "Variable"))
    as [[| | | |k| |]|]; try discriminate.
  destruct (VINDecoderService.dict_get fields (PyStr.literal "Value"))
    as [[| | | |s| |]|]; try discriminate.
  destruct (str_eqb k key); cbn [andb]; [|discriminate].
  destruct (blank s) eqn:Eb; cbn [negb]; [discriminate|].
  intros [= <-]. split; [|apply strip_trimmed].
  intros E. pose proof (strip_empty_iff_blank s) as H.
  rewrite E, Eb in H. discriminate.
Qed.

Lemma last_value_non_blank (key : str) (items : list json) (v : str) :
  last_value key items = Some v -> v <> [] /\ trimmed v = true.
Proof.
  unfold last_value. destruct (rev (entry_values key items)) as [|x l] eqn:E;
    [discriminate|].
  intros [= ->].
  assert (In v (entry_values key items)) as Hin.
  { apply in_rev. rewrite E. now left. }
  unfold entry_values in Hin. apply in_flat_map in Hin.
  destruct Hin as (item & _ & Hv).
  destruct (entry_value key item) as [w|] eqn:Ew; [|destruct Hv].
  destruct Hv as [<-|[]]. exact (entry_value_non_blank _ _ Ew).
Qed.

Lemma or_else_last_value (key : str) (items : list json) (b : option str) :
  VINDecoderService.or_else (last_value key items) b
  = match last_value key items with
    | Some t => Some t
    | None => b
    end.
Proof.
  destruct (last_value key items) as [t|] eqn:E; [|reflexivity].
  destruct (last_value_non_blank _ _ E) as [Hne _].
  destruct t; [congruence | reflexivity].
Qed.

Lemma parse_cases (data : list (str * json)) (items : list json) :
  VINDecoderService.dict_get data (PyStr.literal "Results")
  = Some (JList items) ->
  VINDecoderService._parse_nhtsa_response data
  = match VINDecoderService.build_lookup [] items with
    | VINDecoderService.Raise e => VINDecoderService.Raise e
    | VINDecoderService.Ok _ =>
        VINDecoderService.Ok
          {| VINDecoderService.year :=
               last_value (PyStr.literal "Model Year") items;
             VINDecoderService.make := last_value (PyStr.literal "Make") items;
             VINDecoderService.model :=
               last_value (PyStr.literal "Model") items;
             VINDecoderService.trim :=
               match last_value (PyStr.literal "Trim") items with
               | Some t => Some t
               | None => last_value (PyStr.literal "Series") items
               end |}
    end.
Proof.
  intros H. unfold VINDecoderService._parse_nhtsa_response. rewrite H.
  destruct (VINDecoderService.build_lookup [] items) as [lookup|e] eqn:E;
    [|reflexivity].
  rewrite !(build_lookup_get _ _ _ E).
  assert (forall key, match last_value key items with
                      | Some v => Some v
                      | None => VINDecoderService.get [] key
                      end = last_value key items) as Hget.
  { intros key. now destruct (last_value key items). }
  now rewrite !Hget, or_else_last_value.
Qed.

(** The loop raises no [ValueError]. *)
Lemma store_no_value_error (lookup : VINDecoderService.lookup_t) (item : json)
  (msg : string) :
  VINDecoderService.store lookup item
  <> VINDecoderService.Raise (VINDecoderService.ValueError msg).
Proof.
  unfold VINDecoderService.store.
  destruct item as [| | | | | |fields]; try discriminate.
  destruct (VINDecoderService.dict_get fields (PyStr.literal "Variable"))
    as [variable|]; [|discriminate].
  destruct (VINDecoderService.dict_get fields (PyStr.literal "Value"))
    as [value|]; [|discriminate].
  destruct (VINDecoderService.truthy value); [|discriminate].
  destruct value; cbn [VINDecoderService.value_strip]; try discriminate.
  destruct (negb _); [|discriminate].
  unfold VINDecoderService.setitem.
  destruct (VINDecoderService.hashable variable); discriminate.
Qed.

Lemma build_lookup_no_value_error (items : list json) (msg : string) :
  forall lookup,
    VINDecoderService.build_lookup lookup items
    <> VINDecoderService.Raise (VINDecoderService.ValueError msg).
Proof.
  induction items as [|item rest IH]; intros lookup; cbn; [discriminate|].
  destruct (VINDecoderService.store lookup item) as [l|e] eqn:E; [apply IH|].
  intros [= ->]. exact (store_no_value_error _ _ E).
Qed.

Lemma store_plain (lookup : VINDecoderService.lookup_t) (item : json) :
  plain_entry item = true ->
  exists lookup', VINDecoderService.store lookup item
                  = VINDecoderService.Ok lookup'.
Proof.
  unfold plain_entry, VINDecoderService.store.
  destruct item as [| | | | | |fields]; try (now exists lookup).
  destruct (VINDecoderService.dict_get fields (PyStr.literal "Variable"))
    as [variable|]; [|now exists lookup].
  destruct (VINDecoderService.dict_get fields (PyStr.literal "Value"))
    as [value|]; [|now exists lookup].
  destruct variable as [| | | |k| |]; destruct value as [| | | |s| |];
    try discriminate; intros _; cbn; try (now exists lookup).
  destruct (negb (Nat.eqb (List.length s) 0)); [|now exists lookup].
  destruct (negb _); [|now exists lookup].
  now eexists.
Qed.

Lemma build_lookup_plain (items : list json) :
  forallb plain_entry items = true ->
  forall lookup, exists lookup',
    VINDecoderService.build_lookup lookup items
    = VINDecoderService.Ok lookup'.
Proof.
  induction items as [|item rest IH]; cbn; intros H lookup.
  - now exists lookup.
  - apply andb_prop in H. destruct H as [Hitem Hrest].
    destruct (store_plain lookup _ Hitem) as (l1 & ->). now apply IH.
Qed.

Lemma store_odd (lookup : VINDecoderService.lookup_t) (item : json) :
  odd_value item = true ->
  VINDecoderService.store lookup item
  = VINDecoderService.Raise VINDecoderService.AttributeError.
Proof.
  unfold odd_value, VINDecoderService.store.
  destruct item as [| | | | | |fields]; try discriminate.
  destruct (VINDecoderService.dict_get fields (PyStr.literal "Variable"))
    as [variable|]; [|discriminate].
  destruct (VINDecoderService.dict_get fields (PyStr.literal "Value"))
    as [value|]; [|discriminate].
  destruct value; try discriminate; now intros ->.
Qed.

Lemma build_lookup_odd (pre : list json) (item : json) (post : list json) :
  odd_value item = true ->
  forall lookup, exists e,
    VINDecoderService.build_lookup lookup (pre ++ item :: post)
    = VINDecoderService.Raise e.
Proof.
  intros Hodd. induction pre as [|x pre IH]; intros lookup; cbn.
  - rewrite store_odd by exact Hodd. now eexists.
  - destruct (VINDecoderService.store lookup x) as [l|e]; [apply IH|].
    now exists e.
Qed.

Lemma parse_ok_fields (data : list (str * json))
  (r : VINDecoderService.fields) :
  VINDecoderService._parse_nhtsa_response data = VINDecoderService.Ok r ->
  exists items,
    VINDecoderService.dict_get data (PyStr.literal "Results")
    = Some (JList items) /\
    r = {| VINDecoderService.year :=
             last_value (PyStr.literal "Model Year") items;
           VINDecoderService.make := last_value (PyStr.literal "Make") items;
           VINDecoderService.model := last_value (PyStr.literal "Model") items;
           VINDecoderService.trim :=
             match last_value (PyStr.literal "Trim") items with
             | Some t => Some t
             | None => last_value (PyStr.literal "Series") items
             end |}.
Proof.
  intros H.
  destruct (VINDecoderService.dict_get data (PyStr.literal "Results"))
    as [[| | | | |items|]|] eqn:Hdata;
    try (unfold VINDecoderService._parse_nhtsa_response in H;
         rewrite Hdata in H; discriminate).
  exists items. split; [reflexivity|].
  rewrite (parse_cases _ Hdata) in H.
  destruct (VINDecoderService.build_lookup [] items); [|discriminate].
  now injection H as <-.
Qed.

(** One entry of ["Results"]. *)
Definition entry (variable : string) (value : json) : json :=
  JDict [(PyStr.literal "Value", value);
         (PyStr.literal "Variable", JStr (PyStr.literal variable))].

(** The entries of the response of the examples: the year twice (the
    second one counts), a blank make after a real one (the blank one is
    passed over), a null model, no trim but a series, and items that
    are no entries. *)
Definition sample_items : list json :=
  [entry "Model Year" (JStr (PyStr.literal "2019"));
   entry "Make" (JStr (PyStr.literal " TOYOTA "));
   JStr (PyStr.literal "Make");
   entry "Make" (JStr (PyStr.literal "   "));
   entry "Model" JNone;
   entry "Series" (JStr (PyStr.literal "SE"));
   JDict [(PyStr.literal "Variable", JStr (PyStr.literal "Trim"))];
   entry "Model Year" (JStr (PyStr.literal "2020 "))].

Definition sample_response : list (str * json) :=
  [(PyStr.literal "Count", JInt 8);
   (PyStr.literal "Results", JList sample_items)].

(** What the parser returns for it. *)
Definition sample_fields : VINDecoderService.fields :=
  {| VINDecoderService.year := Some (PyStr.literal "2020");
     VINDecoderService.make := Some (PyStr.literal "TOYOTA");
     VINDecoderService.model := None;
     VINDecoderService.trim := Some (PyStr.literal "SE") |}.

(** An entry with a number as its value. *)
Definition doors_entry : json :=
  JDict [(PyStr.literal "Variable", JStr (PyStr.literal "Doors"));
         (PyStr.literal "Value", JInt 4)].

(** X19: each field the parser returns is the last non-blank value the
    response has for its variable, stripped: a later entry replaces an
    earlier one, a blank or null one replaces nothing.  The trim is the
    last value of ["Trim"], and the last value of ["Series"] when the
    response has no non-blank ["Trim"]. *)
Theorem decoded_fields_are_last_non_blank_values
  (data : list (str * json)) (items : list json)
  (r : VINDecoderService.fields) :
  VINDecoderService.dict_get data (PyStr.literal "Results")
  = Some (JList items) ->
  VINDecoderService._parse_nhtsa_response data = VINDecoderService.Ok r ->
  VINDecoderService.year r = last_value (PyStr.literal "Model Year") items /\
  VINDecoderService.make r = last_value (PyStr.literal "Make") items /\
  VINDecoderService.model r = last_value (PyStr.literal "Model") items /\
  VINDecoderService.trim r
  = match last_value (PyStr.literal "Trim") items with
    | Some t => Some t
    | None => last_value (PyStr.literal "Series") items
    end.
Proof.
  intros Hdata H. destruct (parse_ok_fields _ H) as (items' & Hdata' & ->).
  assert (items' = items) as -> by congruence.
  repeat split.
Qed.

(** The theorem at the sample response: year 2020, make TOYOTA, no
    model, trim SE. *)
Lemma decoded_fields_are_last_non_blank_values_witness :
  VINDecoderService.year sample_fields
  = last_value (PyStr.literal "Model Year") sample_items /\
  VINDecoderService.make sample_fields
  = last_value (PyStr.literal "Make") sample_items /\
  VINDecoderService.model sample_fields
  = last_value (PyStr.literal "Model") sample_items /\
  VINDecoderService.trim sample_fields
  = match last_value (PyStr.literal "Trim") sample_items with
    | Some t => Some t
    | None => last_value (PyStr.literal "Series") sample_items
    end.
Proof.
  apply (@decoded_fields_are_last_non_blank_values
           sample_response sample_items sample_fields); reflexivity.
Defined.

(** X20: a field the parser returns is absent or a string that is not empty
    and has no whitespace at either end: never an empty or blank
    string. *)
Theorem decoded_fields_are_absent_or_non_blank
  (data : list (str * json)) (r : VINDecoderService.fields) (s : str) :
  VINDecoderService._parse_nhtsa_response data = VINDecoderService.Ok r ->
  In (Some s) [VINDecoderService.year r; VINDecoderService.make r;
               VINDecoderService.model r; VINDecoderService.trim r] ->
  s <> [] /\ trimmed s = true /\ blank s = false.
Proof.
  intros H Hin. destruct (parse_ok_fields _ H) as (items & _ & ->).
  assert (exists key, last_value key items = Some s) as (key & Hs).
  { cbn [In VINDecoderService.year VINDecoderService.make
          VINDecoderService.model VINDecoderService.trim] in Hin.
    destruct Hin as [E|[E|[E|[E|[]]]]]; eauto.
    destruct (last_value (PyStr.literal "Trim") items) eqn:Et;
      [injection E as ->|]; eauto. }
  destruct (last_value_non_blank _ _ Hs) as [Hne Ht].
  repeat split; try assumption.
  destruct s as [|c rest]; [congruence|].
  unfold trimmed in Ht. apply andb_prop in Ht. destruct Ht as [Hc _].
  cbn in *. apply negb_true_iff in Hc. now rewrite Hc.
Qed.

(** The theorem at the make of the sample response. *)
Lemma decoded_fields_are_absent_or_non_blank_witness :
  PyStr.literal "TOYOTA" <> [] /\
  trimmed (PyStr.literal "TOYOTA") = true /\
  blank (PyStr.literal "TOYOTA") = false.
Proof.
  apply (@decoded_fields_are_absent_or_non_blank
           sample_response sample_fields (PyStr.literal "TOYOTA")).
  - reflexivity.
  - right. left. reflexivity.
Defined.

(** X21: the parser returns the four fields whenever ["Results"] is a list
    each of whose entries has a string as its variable and a string or
    null as its value; items that are no objects, or lack one of the
    two keys, are passed over. *)
Theorem plain_results_are_decoded (data : list (str * json))
  (items : list json) :
  VINDecoderService.dict_get data (PyStr.literal "Results")
  = Some (JList items) ->
  forallb plain_entry items = true ->
  exists r,
    VINDecoderService._parse_nhtsa_response data = VINDecoderService.Ok r.
Proof.
  intros Hdata Hplain. rewrite (parse_cases _ Hdata).
  destruct (build_lookup_plain _ Hplain []) as (lookup & ->). now eexists.
Qed.

(** The theorem at the sample response. *)
Lemma plain_results_are_decoded_witness :
  exists r,
    VINDecoderService._parse_nhtsa_response sample_response
    = VINDecoderService.Ok r.
Proof.
  apply (@plain_results_are_decoded sample_response sample_items);
    reflexivity.
Defined.

(** X22: the parser raises [ValueError] in two cases only, each with its own
    message: the response has no ["Results"], or ["Results"] is no
    list.  No entry of the list makes it raise [ValueError]. *)
Theorem value_error_is_about_results (data : list (str * json))
  (msg : string) :
  VINDecoderService._parse_nhtsa_response data
  = VINDecoderService.Raise (VINDecoderService.ValueError msg)
  <->
  (VINDecoderService.dict_get data (PyStr.literal "Results") = None /\
   msg = "Invalid NHTSA API response: missing 'Results' field"%string) \/
  (exists v,
     VINDecoderService.dict_get data (PyStr.literal "Results") = Some v /\
     (forall items, v <> JList items) /\
     msg = "Invalid NHTSA API response: 'Results' is not a list"%string).
Proof.
  unfold VINDecoderService._parse_nhtsa_response.
  destruct (VINDecoderService.dict_get data (PyStr.literal "Results"))
    as [v|].
  - destruct v as [| | | | |items|];
      try (split;
           [intros [= <-]; right; eexists; repeat split; discriminate
           |intros [[[=] _]|(v & [= <-] & _ & ->)]; reflexivity]).
    split.
    + destruct (VINDecoderService.build_lookup [] items) eqn:E;
        [discriminate|].
      intros [= ->]. now apply build_lookup_no_value_error in E.
    + intros [[[=] _]|(v & [= <-] & Hv & _)]. now destruct (Hv items).
  - split.
    + intros [= <-]. now left.
    + intros [[_ ->]|(v & [=] & _)]. reflexivity.
Qed.

(** X23: one entry whose value counts as true and is no string (a number
    other than zero, [true], a list or an object that is not empty)
    makes the parser raise, whatever the other entries are: no field of
    the response is returned. *)
Theorem odd_value_aborts_decoding (data : list (str * json))
  (pre : list json) (item : json) (post : list json) :
  VINDecoderService.dict_get data (PyStr.literal "Results")
  = Some (JList (pre ++ item :: post)) ->
  odd_value item = true ->
  exists e,
    VINDecoderService._parse_nhtsa_response data = VINDecoderService.Raise e /\
    forall msg, e <> VINDecoderService.ValueError msg.
Proof.
  intros Hdata Hodd. rewrite (parse_cases _ Hdata).
  destruct (@build_lookup_odd pre item post Hodd []) as (e & E). rewrite E.
  exists e. split; [reflexivity|].
  intros msg ->. now apply build_lookup_no_value_error in E.
Qed.

(** The theorem at the sample entries followed by the number of doors:
    the parser raises [AttributeError]. *)
Lemma odd_value_aborts_decoding_witness :
  exists e,
    VINDecoderService._parse_nhtsa_response
      [(PyStr.literal "Results", JList (sample_items ++ doors_entry :: []))]
    = VINDecoderService.Raise e /\
    forall msg, e <> VINDecoderService.ValueError msg.
Proof.
  apply (@odd_value_aborts_decoding
           [(PyStr.literal "Results", JList (sample_items ++ doors_entry :: []))]
           sample_items doors_entry []); reflexivity.
Defined.
